(** * Task-management backend: authentication, ownership and progress

    A shallow embedding of the Go backend (packages [models], [middleware]
    and [handlers]) together with the properties its specification states
    about token handling, owner-scoped goal access and derived progress.

    Conventions.
    - Go [string]s are [string]s (sequences of bytes), [[]byte] and
      [[12]byte] are lists of [Byte.byte].
    - [time.Time] is the number of nanoseconds since the Unix epoch, an
      unbounded integer; [time.Duration] is a signed 64-bit count of
      nanoseconds whose arithmetic wraps around.
    - [float64] is the kernel's binary64 type with its IEEE operations.
    - A method with a pointer receiver that mutates the receiver returns
      the receiver's new value.
    - A MongoDB collection is the list of its documents, in insertion
      order, with a flag telling whether the server can be reached.
    - The third-party libraries (the JWT library, bcrypt, the validator)
      are interfaces: classes whose operations the code calls. *)

From Stdlib Require Import ZArith List String Ascii Bool Lia.
From Stdlib Require Import Strings.Byte.
From Stdlib Require Import Floats.PrimFloat Numbers.Cyclic.Int63.Uint63.
From stdpp Require Import base option list gmap strings sorting.

Local Open Scope Z_scope.

(** ** Instants *)

Module time.

(** Nanoseconds since the Unix epoch. *)
Definition Time : Type := Z.

(** Nanoseconds, a signed 64-bit integer. *)
Definition Duration : Type := Z.

Definition Nanosecond : Duration := 1.
Definition Millisecond : Duration := 1000000.
Definition Second : Duration := 1000000000.
Definition Hour : Duration := 3600 * Second.

(** Two's-complement wrap-around of a 64-bit signed integer. *)
Definition wrap64 (z : Z) : Z := (z + 2 ^ 63) mod 2 ^ 64 - 2 ^ 63.

(** The zero [Time] is January 1, year 1, 00:00:00 UTC. *)
Definition zeroTime : Time := -62135596800 * Second.

Definition IsZero (t : Time) : bool := t =? zeroTime.

(** [Time.Add]. *)
Definition Add (t : Time) (d : Duration) : Time := t + d.

(** [Time.Before]. *)
Definition Before (t u : Time) : bool := t <? u.

(** [Time.Unix]: the whole seconds since the epoch, rounded down. *)
Definition Unix (t : Time) : Z := t / Second.

(** [Time.Nanosecond]: the offset within the second, from 0 to
    999999999. *)
Definition Time_Nanosecond (t : Time) : Z := t mod Second.

(** [Time.Truncate(time.Second)]: down to a whole second. *)
Definition TruncateSecond (t : Time) : Time := (t / Second) * Second.

End time.

(** ** Primitive data: object ids and the instants of the store *)

Module primitive.

(** [primitive.ObjectID] is [[12]byte]. *)
Definition ObjectID : Type := list byte.

#[export] Instance byte_eq_dec : EqDecision byte := Byte.byte_eq_dec.
#[export] Instance ObjectID_eq_dec : EqDecision ObjectID.
Proof. unfold ObjectID. apply _. Defined.

(** The all-zero id, [primitive.NilObjectID]. *)
Definition NilObjectID : ObjectID := repeat x00 12.

Definition hextable : list ascii :=
  ["0"; "1"; "2"; "3"; "4"; "5"; "6"; "7";
   "8"; "9"; "a"; "b"; "c"; "d"; "e"; "f"]%char.

(** One digit of [encoding/hex]'s table. *)
Definition hexdigit (n : N) : ascii :=
  nth (N.to_nat n) hextable "0"%char.

(** [hex.EncodeToString]: two lower-case digits per byte. *)
Fixpoint hex_EncodeToString (src : list byte) : string :=
  match src with
  | [] => EmptyString
  | b :: rest =>
      let n := Byte.to_N b in
      String (hexdigit (n / 16)) (String (hexdigit (n mod 16))
             (hex_EncodeToString rest))
  end.

(** [hex.fromHexChar]: digits and letters of both cases. *)
Definition fromHexChar (c : ascii) : option N :=
  let n := N_of_ascii c in
  if ((48 <=? n) && (n <=? 57))%N then Some (n - 48)%N
  else if ((97 <=? n) && (n <=? 102))%N then Some (n - 97 + 10)%N
  else if ((65 <=? n) && (n <=? 70))%N then Some (n - 65 + 10)%N
  else None.

(** [hex.DecodeString]: fails on an odd length or on a character that is
    no hexadecimal digit. *)
Fixpoint hex_DecodeString (s : string) : option (list byte) :=
  match s with
  | EmptyString => Some []
  | String _ EmptyString => None
  | String c1 (String c2 rest) =>
      match fromHexChar c1, fromHexChar c2 with
      | Some hi, Some lo =>
          match Byte.of_N (hi * 16 + lo), hex_DecodeString rest with
          | Some b, Some bs => Some (b :: bs)
          | _, _ => None
          end
      | _, _ => None
      end
  end.

(** [ObjectID.Hex]. *)
Definition Hex (id : ObjectID) : string := hex_EncodeToString id.

(** [primitive.ObjectIDFromHex]: the string must be 24 characters long and
    decode as hexadecimal. *)
Definition ObjectIDFromHex (s : string) : option ObjectID :=
  if (String.length s =? 24)%nat then hex_DecodeString s else None.

(** [primitive.DateTime], the instant of a BSON document: milliseconds
    since the Unix epoch, a signed 64-bit integer. *)
Definition DateTime : Type := Z.

(** [primitive.NewDateTimeFromTime], which the encoder of [time.Time]
    calls: [t.Unix()*1e3 + int64(t.Nanosecond())/1e6]. *)
Definition NewDateTimeFromTime (t : time.Time) : DateTime :=
  time.wrap64 (time.wrap64 (time.Unix t * 1000)
               + time.Time_Nanosecond t / 1000000).

(** [DateTime.Time], which the decoder calls. *)
Definition DateTime_Time (d : DateTime) : time.Time := d * time.Millisecond.

(** A [time.Time] as it is read back from the store: what is finer
    than a millisecond is lost. *)
Definition storedTime (t : time.Time) : time.Time :=
  DateTime_Time (NewDateTimeFromTime t).

End primitive.


(** ** Package [models] *)

Module models.
Import primitive.

Record SubTask := mkSubTask {
  st_ID : ObjectID;
  st_Title : string;
  st_Description : string;
  st_Completed : bool;
  st_DueDate : option time.Time;
  st_CreatedAt : time.Time;
  st_UpdatedAt : time.Time
}.

Record Goal := mkGoal {
  ID : ObjectID;
  UserID : ObjectID;
  Title : string;
  Description : string;
  SubTasks : list SubTask;
  StartDate : time.Time;
  EndDate : option time.Time;
  Completed : bool;
  Progress : float;
  CreatedAt : time.Time;
  UpdatedAt : time.Time
}.

Definition with_Progress (p : float) (g : Goal) : Goal :=
  mkGoal (ID g) (UserID g) (Title g) (Description g) (SubTasks g)
         (StartDate g) (EndDate g) (Completed g) p (CreatedAt g) (UpdatedAt g).

Definition with_Completed (c : bool) (g : Goal) : Goal :=
  mkGoal (ID g) (UserID g) (Title g) (Description g) (SubTasks g)
         (StartDate g) (EndDate g) c (Progress g) (CreatedAt g) (UpdatedAt g).

Definition with_SubTasks (tasks : list SubTask) (g : Goal) : Goal :=
  mkGoal (ID g) (UserID g) (Title g) (Description g) tasks
         (StartDate g) (EndDate g) (Completed g) (Progress g)
         (CreatedAt g) (UpdatedAt g).

(** Conversion [float64(n)] of a non-negative [int]. *)
Definition float64_of_int (n : Z) : float := PrimFloat.of_uint63 (Uint63.of_Z n).

(** The counting loop of [CalculateProgress]. *)
Definition completedCount (tasks : list SubTask) : Z :=
  fold_left (fun n task => if st_Completed task then n + 1 else n) tasks 0.

(** [Goal.CalculateProgress]. *)
Definition CalculateProgress (g : Goal) : Goal :=
  if (length (SubTasks g) =? 0)%nat then with_Progress 0%float g
  else
    with_Progress
      (float64_of_int (completedCount (SubTasks g))
       / float64_of_int (Z.of_nat (length (SubTasks g)))
       * 100)%float g.

(** The loop of [IsCompleted]: [false] as soon as a subtask is not
    completed, [true] when the range is exhausted. *)
Fixpoint allCompleted (tasks : list SubTask) : bool :=
  match tasks with
  | [] => true
  | task :: rest => if negb (st_Completed task) then false else allCompleted rest
  end.

(** [Goal.IsCompleted]: the receiver after the call and the result. *)
Definition IsCompleted (g : Goal) : Goal * bool :=
  if (length (SubTasks g) =? 0)%nat then (g, false)
  else if allCompleted (SubTasks g) then (with_Completed true g, true)
  else (with_Completed false g, false).

(** The Progress Engine of the specification, [Recompute(goal) -> goal']:
    both methods applied to the goal, one after the other. *)
Definition Recompute (g : Goal) : Goal :=
  fst (IsCompleted (CalculateProgress g)).

(** A goal whose two derived fields are what the engine derives from
    its subtasks: the progress [CalculateProgress] stores and the
    answer of [IsCompleted]. *)
Definition derivedFromSubTasks (g : Goal) : Prop :=
  Progress g = Progress (CalculateProgress g)
  /\ Completed g = snd (IsCompleted g).

(** The user record. [Password] holds the bcrypt hash once
    [HashPassword] has run. *)
Record User := mkUser {
  User_ID : ObjectID;
  User_Username : string;
  User_Email : string;
  User_Password : string;
  User_FirstName : string;
  User_LastName : string;
  User_CreatedAt : time.Time;
  User_UpdatedAt : time.Time
}.

(** [UserResponse], "the response structure for a user without sensitive
    data". *)
Record UserResponse := mkUserResponse {
  UR_ID : ObjectID;
  UR_Username : string;
  UR_Email : string;
  UR_FirstName : string;
  UR_LastName : string;
  UR_CreatedAt : time.Time
}.

Definition with_Password (p : string) (u : User) : User :=
  mkUser (User_ID u) (User_Username u) (User_Email u) p
         (User_FirstName u) (User_LastName u)
         (User_CreatedAt u) (User_UpdatedAt u).

(** Package [bcrypt], as far as the model calls it. The salt that
    [GenerateFromPassword] draws is part of the instance. [None] is a
    non-nil error; [CompareHashAndPassword] answers [true] for a nil
    error. *)
Class Bcrypt := {
  GenerateFromPassword : string -> Z -> option string;
  CompareHashAndPassword : string -> string -> bool
}.

Definition DefaultCost : Z := 10.

(** [User.HashPassword]: [None] when bcrypt fails, else the user with
    the hash in place of the password. *)
Definition HashPassword `{Bcrypt} (u : User) : option User :=
  match GenerateFromPassword (User_Password u) DefaultCost with
  | None => None
  | Some hashedPassword => Some (with_Password hashedPassword u)
  end.

(** [User.ComparePassword]: [true] for a nil error. *)
Definition ComparePassword `{Bcrypt} (u : User) (password : string) : bool :=
  CompareHashAndPassword (User_Password u) password.

(** [User.ToResponse]. *)
Definition ToResponse (u : User) : UserResponse :=
  {| UR_ID := User_ID u;
     UR_Username := User_Username u;
     UR_Email := User_Email u;
     UR_FirstName := User_FirstName u;
     UR_LastName := User_LastName u;
     UR_CreatedAt := User_CreatedAt u |}.

End models.

(** ** Package [net/http] and [strings] *)

Module http.
Definition StatusOK : Z := 200.
Definition StatusCreated : Z := 201.
Definition StatusBadRequest : Z := 400.
Definition StatusUnauthorized : Z := 401.
Definition StatusForbidden : Z := 403.
Definition StatusNotFound : Z := 404.
Definition StatusConflict : Z := 409.
Definition StatusInternalServerError : Z := 500.
End http.

Module strings.

(** [strings.Split(s, sep)] for a separator of one byte: the pieces of
    [s] between the occurrences of [sep]; one piece, [s] itself, when
    [sep] does not occur. *)
Fixpoint Split (s : string) (sep : ascii) : list string :=
  match s with
  | EmptyString => [EmptyString]
  | String c rest =>
      if Ascii.eqb c sep then EmptyString :: Split rest sep
      else match Split rest sep with
           | piece :: pieces => String c piece :: pieces
           | [] => [String c EmptyString]
           end
  end.

End strings.

(** ** The JWT library, as the middleware uses it *)

Module jwt.

Inductive Hash := SHA256 | SHA384 | SHA512.

(** The signing methods the library registers, by the Go type that
    implements them. *)
Inductive SigningMethod :=
| SigningMethodHMAC (h : Hash)
| SigningMethodRSA (h : Hash)
| SigningMethodRSAPSS (h : Hash)
| SigningMethodECDSA (h : Hash)
| SigningMethodEd25519
| signingMethodNone.

Definition SigningMethodHS256 : SigningMethod := SigningMethodHMAC SHA256.
Definition SigningMethodHS384 : SigningMethod := SigningMethodHMAC SHA384.
Definition SigningMethodHS512 : SigningMethod := SigningMethodHMAC SHA512.

Definition bits (h : Hash) : string :=
  match h with SHA256 => "256" | SHA384 => "384" | SHA512 => "512" end.

(** [SigningMethod.Alg]: the name written in a token's header. *)
Definition Alg (m : SigningMethod) : string :=
  match m with
  | SigningMethodHMAC h => "HS" +:+ bits h
  | SigningMethodRSA h => "RS" +:+ bits h
  | SigningMethodRSAPSS h => "PS" +:+ bits h
  | SigningMethodECDSA h => "ES" +:+ bits h
  | SigningMethodEd25519 => "EdDSA"
  | signingMethodNone => "none"
  end.

Definition registered : list SigningMethod :=
  [SigningMethodHMAC SHA256; SigningMethodHMAC SHA384; SigningMethodHMAC SHA512;
   SigningMethodRSA SHA256; SigningMethodRSA SHA384; SigningMethodRSA SHA512;
   SigningMethodRSAPSS SHA256; SigningMethodRSAPSS SHA384; SigningMethodRSAPSS SHA512;
   SigningMethodECDSA SHA256; SigningMethodECDSA SHA384; SigningMethodECDSA SHA512;
   SigningMethodEd25519; signingMethodNone].

(** [jwt.GetSigningMethod]: the registered method of that name. *)
Definition GetSigningMethod (alg : string) : option SigningMethod :=
  List.find (fun m => String.eqb (Alg m) alg) registered.

(** A [NumericDate] is a whole number of seconds since the Unix epoch
    ([TimePrecision] is a second). *)
Definition NumericDate : Type := Z.

(** [jwt.NewNumericDate]: the instant truncated to the second. *)
Definition NewNumericDate (t : time.Time) : NumericDate := t / time.Second.

Definition NumericDate_Time (d : NumericDate) : time.Time := d * time.Second.

(** The registered claims the validator reads. *)
Record RegisteredClaims := mkRegisteredClaims {
  ExpiresAt : option NumericDate;
  NotBefore : option NumericDate;
  IssuedAt : option NumericDate
}.

Inductive Error :=
| ErrTokenMalformed
| ErrTokenUnverifiable
| ErrTokenSignatureInvalid
| ErrTokenExpired
| ErrTokenNotValidYet.

(** The validator's default checks: an expiry, when present, must be
    after now; a not-before, when present, must not be after now. The
    issued-at claim is not checked unless asked for. *)
Definition Validate (c : RegisteredClaims) (now : time.Time) : option Error :=
  match ExpiresAt c with
  | Some exp =>
      if time.Before now (NumericDate_Time exp) then
        match NotBefore c with
        | Some nbf => if time.Before now (NumericDate_Time nbf)
                      then Some ErrTokenNotValidYet else None
        | None => None
        end
      else Some ErrTokenExpired
  | None =>
      match NotBefore c with
      | Some nbf => if time.Before now (NumericDate_Time nbf)
                    then Some ErrTokenNotValidYet else None
      | None => None
      end
  end.

Section Library.

(** The claims type the caller parses into. *)
Variable Claims : Type.
Variable registeredClaims : Claims -> RegisteredClaims.

(** The encoding of tokens and the keyed hash:
    - [signingString alg claims] is the first two segments of a token
      whose header names [alg];
    - [compact text sig] appends the signature segment;
    - [parseCompact] reads a token back: the header's algorithm name,
      the claims, the signing string as received and the signature;
      [None] for a malformed token;
    - [hmacSum h key text] is the HMAC of [text] under [key]. *)
Class Encoding := {
  signingString : string -> Claims -> string;
  compact : string -> string -> string;
  parseCompact : string -> option (string * Claims * string * string);
  hmacSum : Hash -> string -> string -> string
}.

(** What parsing owes to serialisation, and the alphabet of tokens: a
    token reads back as it was written, and holds no space. *)
Class EncodingLaws `{Encoding} : Prop := {
  parseCompact_compact : forall alg claims sig,
    parseCompact (compact (signingString alg claims) sig)
    = Some (alg, claims, signingString alg claims, sig);
  compact_one_word : forall alg claims sig,
    strings.Split (compact (signingString alg claims) sig) " "
    = [compact (signingString alg claims) sig]
}.

Context `{Encoding}.

Record Token := mkToken {
  Method : SigningMethod;
  TokenClaims_of : Claims;
  Valid : bool
}.

(** [jwt.NewWithClaims]. *)
Definition NewWithClaims (m : SigningMethod) (c : Claims) : Token :=
  mkToken m c false.

(** [SigningMethod.Sign] with a [[]byte] key: only the HMAC methods
    accept such a key. *)
Definition Sign (m : SigningMethod) (text key : string) : option string :=
  match m with
  | SigningMethodHMAC h => Some (hmacSum h key text)
  | _ => None
  end.

(** [Token.SignedString]: [None] is a non-nil error. *)
Definition SignedString (t : Token) (key : string) : option string :=
  let text := signingString (Alg (Method t)) (TokenClaims_of t) in
  match Sign (Method t) text key with
  | Some sig => Some (compact text sig)
  | None => None
  end.

(** [SigningMethod.Verify] with a [[]byte] key: an HMAC method
    recomputes the sum; every other method refuses the key. *)
Definition Verify (m : SigningMethod) (text sig key : string) : bool :=
  match m with
  | SigningMethodHMAC h => String.eqb (hmacSum h key text) sig
  | _ => false
  end.

(** [jwt.ParseWithClaims] with the default parser: decode, look the
    method up, ask the key function for the key, verify the signature,
    validate the claims. *)
Definition ParseWithClaims (tokenString : string)
    (keyFunc : Token -> option string) (now : time.Time) : Error + Token :=
  match parseCompact tokenString with
  | None => inl ErrTokenMalformed
  | Some (alg, claims, text, sig) =>
      match GetSigningMethod alg with
      | None => inl ErrTokenUnverifiable
      | Some m =>
          let token := mkToken m claims false in
          match keyFunc token with
          | None => inl ErrTokenUnverifiable
          | Some key =>
              if Verify m text sig key then
                match Validate (registeredClaims claims) now with
                | Some e => inl e
                | None => inr (mkToken m claims true)
                end
              else inl ErrTokenSignatureInvalid
          end
      end
  end.

End Library.

Arguments signingString {Claims _}.
Arguments compact {Claims _}.
Arguments parseCompact {Claims _}.
Arguments hmacSum {Claims _}.
Arguments parseCompact_compact {Claims _ _}.
Arguments compact_one_word {Claims _ _}.
Arguments mkToken {Claims}.
Arguments Method {Claims}.
Arguments TokenClaims_of {Claims}.
Arguments Valid {Claims}.
Arguments NewWithClaims {Claims}.
Arguments Sign {Claims _}.
Arguments SignedString {Claims _}.
Arguments Verify {Claims _}.
Arguments ParseWithClaims {Claims} registeredClaims {_}.

End jwt.

(** ** Package [middleware] *)

Module middleware.
Import primitive.

Record JwtMiddleware := mkJwtMiddleware { jwtSecret : string }.

Record TokenClaims := mkTokenClaims {
  UserID : string;
  Registered : jwt.RegisteredClaims
}.

Definition NewJwtMiddleware (jwtSecret : string) : JwtMiddleware :=
  mkJwtMiddleware jwtSecret.

(** What the middleware does with a request: answer and abort, or set
    ["userId"] in the context and call the next handler. *)
Inductive Outcome :=
| Abort (status : Z) (error : string)
| Next (userId : ObjectID).

Section Middleware.
Context `{jwt.Encoding TokenClaims}.

(** [GenerateToken]. [now0] and [now1] are the two readings of the clock,
    in the order the method takes them. The product of the duration is
    a 64-bit one. [None] is a non-nil error. *)
Definition GenerateToken (m : JwtMiddleware) (userID : ObjectID)
    (expiryHours : Z) (now0 now1 : time.Time) : option string :=
  let expirationTime :=
    time.Add now0 (time.wrap64 (time.wrap64 expiryHours * time.Hour)) in
  let claims :=
    {| UserID := Hex userID;
       Registered :=
         {| jwt.ExpiresAt := Some (jwt.NewNumericDate expirationTime);
            jwt.NotBefore := None;
            jwt.IssuedAt := Some (jwt.NewNumericDate now1) |} |} in
  let token := jwt.NewWithClaims jwt.SigningMethodHS256 claims in
  jwt.SignedString token (jwtSecret m).

(** The key function [AuthRequired] hands to the parser. *)
Definition keyFunc (m : JwtMiddleware) (token : jwt.Token TokenClaims)
    : option string :=
  match jwt.Method token with
  | jwt.SigningMethodHMAC _ => Some (jwtSecret m)
  | _ => None
  end.

(** [AuthRequired], on the value of the [Authorization] header (empty
    when the request has none) at instant [now]. *)
Definition AuthRequired (m : JwtMiddleware) (authHeader : string)
    (now : time.Time) : Outcome :=
  if String.eqb authHeader "" then
    Abort http.StatusUnauthorized "Authorization header is required"
  else
    let parts := strings.Split authHeader " "%char in
    match parts with
    | [scheme; tokenString] =>
        if negb (String.eqb scheme "Bearer") then
          Abort http.StatusUnauthorized
                "Authorization header format must be Bearer {token}"
        else
          match jwt.ParseWithClaims Registered tokenString (keyFunc m) now with
          | inl _ => Abort http.StatusUnauthorized "Invalid or expired token"
          | inr token =>
              if negb (jwt.Valid token) then
                Abort http.StatusUnauthorized "Invalid token"
              else
                match ObjectIDFromHex (UserID (jwt.TokenClaims_of token)) with
                | None => Abort http.StatusUnauthorized "Invalid user ID in token"
                | Some userID => Next userID
                end
          end
    | _ =>
        Abort http.StatusUnauthorized
              "Authorization header format must be Bearer {token}"
    end.

End Middleware.

End middleware.

(** ** BSON values and the document store *)

Module bson.
Import primitive.

(** The values the handlers put in filters and updates, and the values
    the stored documents hold. *)
Inductive Value :=
| ObjectIDValue (id : ObjectID)
| StringValue (s : string)
| BooleanValue (b : bool)
| DateTimeValue (t : time.Time)
| DoubleValue (f : float)
| SubTasksValue (l : list models.SubTask)
| NullValue.

(** [bson.M], a Go map from field names to values. *)
Abbreviation M := (gmap string Value).

(** Equality of a filter's value with a stored one. Filters compare
    scalars only; an instant of a filter is written as a BSON datetime
    like any other. *)
Definition Value_eqb (v w : Value) : bool :=
  match v, w with
  | ObjectIDValue a, ObjectIDValue b => bool_decide (a = b)
  | StringValue a, StringValue b => String.eqb a b
  | BooleanValue a, BooleanValue b => Bool.eqb a b
  | DateTimeValue a, DateTimeValue b => (storedTime a =? b)
  | NullValue, NullValue => true
  | _, _ => false
  end.

(** The instant a sort key orders by. *)
Definition sortKey (v : option Value) : Z :=
  match v with
  | Some (DateTimeValue t) => t
  | _ => 0
  end.

End bson.

Module mongo.
Import primitive.

(** A collection: its documents, oldest first, and whether the server
    answers. *)
Record Collection (A : Type) := mkCollection {
  documents : list A;
  reachable : bool
}.
Arguments mkCollection {A}.
Arguments documents {A}.
Arguments reachable {A}.

(** How a Go struct is stored: [stored d] is [d] as it is decoded from
    the document it was encoded to; [field k d] is the value of the
    document of [d] under key [k]; [set u d] is [d] after the update
    [{"$set": u}]. The documents of a collection are held as they
    decode. *)
Class Document (A : Type) := {
  stored : A -> A;
  field : string -> A -> option bson.Value;
  set : bson.M -> A -> A
}.

Section Operations.
Context {A : Type} `{Document A}.

Definition fieldMatches (d : A) (k : string) (v : bson.Value) : bool :=
  match field k d with
  | Some w => bson.Value_eqb v w
  | None => false
  end.

(** A filter matches a document when each of its keys does. *)
Definition matches (filter : bson.M) (d : A) : bool :=
  bool_decide (map_Forall (fun k v => Is_true (fieldMatches d k v)) filter).

Inductive SingleResult :=
| Decoded (d : A)
| ErrNoDocuments
| ErrServer.

(** [Collection.FindOne(...).Decode(&d)]. *)
Definition FindOne (c : Collection A) (filter : bson.M) : SingleResult :=
  if reachable c then
    match List.find (matches filter) (documents c) with
    | Some d => Decoded d
    | None => ErrNoDocuments
    end
  else ErrServer.

(** [Collection.InsertOne]: the collection afterwards and whether the
    error is nil. The [_id] index refuses a second document with an id
    already stored. *)
Definition InsertOne (c : Collection A) (d : A) : Collection A * bool :=
  if reachable c then
    match field "_id" d with
    | Some id =>
        if existsb (fun e => fieldMatches e "_id" id) (documents c)
        then (c, false)
        else (mkCollection (documents c ++ [stored d]) (reachable c), true)
    | None => (c, false)
    end
  else (c, false).

(** The first matching document replaced by its update. *)
Fixpoint updateFirst (filter update : bson.M) (l : list A) : list A :=
  match l with
  | [] => []
  | d :: rest =>
      if matches filter d then set update d :: rest
      else d :: updateFirst filter update rest
  end.

(** [Collection.UpdateOne(ctx, filter, bson.M{"$set": update})]: the
    collection afterwards and [MatchedCount], [None] for a non-nil
    error. *)
Definition UpdateOne (c : Collection A) (filter update : bson.M)
    : Collection A * option Z :=
  if reachable c then
    match List.find (matches filter) (documents c) with
    | Some _ =>
        (mkCollection (updateFirst filter update (documents c)) (reachable c),
         Some 1)
    | None => (c, Some 0)
    end
  else (c, None).

(** The first matching document removed. *)
Fixpoint deleteFirst (filter : bson.M) (l : list A) : list A :=
  match l with
  | [] => []
  | d :: rest =>
      if matches filter d then rest else d :: deleteFirst filter rest
  end.

(** [Collection.DeleteOne]: the collection afterwards and
    [DeletedCount], [None] for a non-nil error. *)
Definition DeleteOne (c : Collection A) (filter : bson.M)
    : Collection A * option Z :=
  if reachable c then
    match List.find (matches filter) (documents c) with
    | Some _ =>
        (mkCollection (deleteFirst filter (documents c)) (reachable c), Some 1)
    | None => (c, Some 0)
    end
  else (c, None).

(** Descending order on the sort key. *)
Definition descending (key : string) (a b : A) : Prop :=
  bson.sortKey (field key b) <= bson.sortKey (field key a).

#[export] Instance descending_dec key a b : Decision (descending key a b).
Proof. unfold descending. apply _. Defined.

(** [Collection.Find] with [SetSort(bson.M{key: -1})], then
    [cursor.All]: the matching documents, greatest key first; [None]
    for a non-nil error. *)
Definition Find (c : Collection A) (filter : bson.M) (key : string)
    : option (list A) :=
  if reachable c then
    Some (merge_sort (descending key) (List.filter (matches filter) (documents c)))
  else None.

End Operations.
Arguments SingleResult A : clear implicits.

End mongo.

(** ** The stored form of goals and users (their [bson] tags) *)

Module documents.
Import primitive models.

Definition lookupField (k : string) (fields : list (string * option bson.Value))
    : option bson.Value :=
  match List.find (fun p => String.eqb (fst p) k) fields with
  | Some (_, v) => v
  | None => None
  end.

(** A subtask, a goal and a user as they come back from the store: the
    instants are BSON datetimes, the other fields are kept. *)
Definition SubTask_stored (t : SubTask) : SubTask :=
  {| st_ID := st_ID t;
     st_Title := st_Title t;
     st_Description := st_Description t;
     st_Completed := st_Completed t;
     st_DueDate := storedTime <$> st_DueDate t;
     st_CreatedAt := storedTime (st_CreatedAt t);
     st_UpdatedAt := storedTime (st_UpdatedAt t) |}.

Definition Goal_stored (g : Goal) : Goal :=
  {| ID := ID g;
     UserID := UserID g;
     Title := Title g;
     Description := Description g;
     SubTasks := SubTask_stored <$> SubTasks g;
     StartDate := storedTime (StartDate g);
     EndDate := storedTime <$> EndDate g;
     Completed := Completed g;
     Progress := Progress g;
     CreatedAt := storedTime (CreatedAt g);
     UpdatedAt := storedTime (UpdatedAt g) |}.

Definition User_stored (u : User) : User :=
  {| User_ID := User_ID u;
     User_Username := User_Username u;
     User_Email := User_Email u;
     User_Password := User_Password u;
     User_FirstName := User_FirstName u;
     User_LastName := User_LastName u;
     User_CreatedAt := storedTime (User_CreatedAt u);
     User_UpdatedAt := storedTime (User_UpdatedAt u) |}.

Definition Goal_field (k : string) (g : Goal) : option bson.Value :=
  lookupField k
    [("_id", Some (bson.ObjectIDValue (ID g)));
     ("userId", Some (bson.ObjectIDValue (UserID g)));
     ("title", Some (bson.StringValue (Title g)));
     ("description", Some (bson.StringValue (Description g)));
     ("subTasks", Some (bson.SubTasksValue (SubTasks g)));
     ("startDate", Some (bson.DateTimeValue (StartDate g)));
     ("endDate", bson.DateTimeValue <$> EndDate g);
     ("completed", Some (bson.BooleanValue (Completed g)));
     ("progress", Some (bson.DoubleValue (Progress g)));
     ("createdAt", Some (bson.DateTimeValue (CreatedAt g)));
     ("updatedAt", Some (bson.DateTimeValue (UpdatedAt g)))].

(** [$set] on a goal: each field the update names takes the update's
    value, an instant as the BSON datetime it is written as; the others
    stay. The server does not let [_id] change. *)
Definition Goal_set (u : bson.M) (g : Goal) : Goal :=
  {| ID := ID g;
     UserID := match u !! "userId" with
               | Some (bson.ObjectIDValue x) => x | _ => UserID g end;
     Title := match u !! "title" with
              | Some (bson.StringValue x) => x | _ => Title g end;
     Description := match u !! "description" with
                    | Some (bson.StringValue x) => x | _ => Description g end;
     SubTasks := match u !! "subTasks" with
                 | Some (bson.SubTasksValue x) => SubTask_stored <$> x
                 | _ => SubTasks g end;
     StartDate := match u !! "startDate" with
                  | Some (bson.DateTimeValue x) => storedTime x
                  | _ => StartDate g end;
     EndDate := match u !! "endDate" with
                | Some (bson.DateTimeValue x) => Some (storedTime x)
                | Some bson.NullValue => None
                | _ => EndDate g end;
     Completed := match u !! "completed" with
                  | Some (bson.BooleanValue x) => x | _ => Completed g end;
     Progress := match u !! "progress" with
                 | Some (bson.DoubleValue x) => x | _ => Progress g end;
     CreatedAt := match u !! "createdAt" with
                  | Some (bson.DateTimeValue x) => storedTime x
                  | _ => CreatedAt g end;
     UpdatedAt := match u !! "updatedAt" with
                  | Some (bson.DateTimeValue x) => storedTime x
                  | _ => UpdatedAt g end |}.

#[export] Instance Goal_document : mongo.Document Goal :=
  {| mongo.stored := Goal_stored;
     mongo.field := Goal_field;
     mongo.set := Goal_set |}.

Definition User_field (k : string) (u : User) : option bson.Value :=
  lookupField k
    [("_id", Some (bson.ObjectIDValue (User_ID u)));
     ("username", Some (bson.StringValue (User_Username u)));
     ("email", Some (bson.StringValue (User_Email u)));
     ("password", Some (bson.StringValue (User_Password u)));
     ("firstName", Some (bson.StringValue (User_FirstName u)));
     ("lastName", Some (bson.StringValue (User_LastName u)));
     ("createdAt", Some (bson.DateTimeValue (User_CreatedAt u)));
     ("updatedAt", Some (bson.DateTimeValue (User_UpdatedAt u)))].

Definition User_set (upd : bson.M) (u : User) : User :=
  {| User_ID := User_ID u;
     User_Username := match upd !! "username" with
                      | Some (bson.StringValue x) => x | _ => User_Username u end;
     User_Email := match upd !! "email" with
                   | Some (bson.StringValue x) => x | _ => User_Email u end;
     User_Password := match upd !! "password" with
                      | Some (bson.StringValue x) => x | _ => User_Password u end;
     User_FirstName := match upd !! "firstName" with
                       | Some (bson.StringValue x) => x | _ => User_FirstName u end;
     User_LastName := match upd !! "lastName" with
                      | Some (bson.StringValue x) => x | _ => User_LastName u end;
     User_CreatedAt := match upd !! "createdAt" with
                       | Some (bson.DateTimeValue x) => storedTime x
                       | _ => User_CreatedAt u end;
     User_UpdatedAt := match upd !! "updatedAt" with
                       | Some (bson.DateTimeValue x) => storedTime x
                       | _ => User_UpdatedAt u end |}.

#[export] Instance User_document : mongo.Document User :=
  {| mongo.stored := User_stored;
     mongo.field := User_field;
     mongo.set := User_set |}.

End documents.

(** ** Package [handlers] *)

Module gin.
Import primitive.

(** What a handler reads of [*gin.Context]: the [:id] path parameter and
    the value stored under ["userId"], if any. *)
Record Context := mkContext {
  Param_id : string;
  userId : option ObjectID
}.

(** [c.ShouldBindJSON(&req)]: an error, or the request struct with the
    zero value in every field the body does not give. *)
Inductive Bind (A : Type) :=
| BindError (msg : string)
| Bound (req : A).
Arguments BindError {A}.
Arguments Bound {A}.

End gin.

Module validator.

(** The two tests of the validator that are not plain comparisons, and
    the text of its error for the failed (field, tag) pairs. *)
Class Library := {
  RuneCountInString : string -> Z;
  isEmail : string -> bool;
  ErrorText : list (string * string) -> string
}.

Section Tags.
Context `{Library}.

(** The tags of one string field, tried in order; the first that fails
    is the field's error. *)
Inductive Tag := required | min (n : Z) | max (n : Z) | email.

Definition tagName (t : Tag) : string :=
  match t with
  | required => "required" | min _ => "min" | max _ => "max" | email => "email"
  end.

Definition holds (t : Tag) (s : string) : bool :=
  match t with
  | required => negb (String.eqb s "")
  | min n => n <=? RuneCountInString s
  | max n => RuneCountInString s <=? n
  | email => isEmail s
  end.

Fixpoint Var (fieldName : string) (s : string) (tags : list Tag)
    : list (string * string) :=
  match tags with
  | [] => []
  | t :: rest => if holds t s then Var fieldName s rest
                 else [(fieldName, tagName t)]
  end.

(** [validate.Struct]: [None] for a nil error. *)
Definition Struct (fields : list (string * string * list Tag)) : option string :=
  match flat_map (fun f => Var (fst (fst f)) (snd (fst f)) (snd f)) fields with
  | [] => None
  | errs => Some (ErrorText errs)
  end.

End Tags.

End validator.

Module handlers.
Import primitive models documents.

Record CreateGoalRequest := mkCreateGoalRequest {
  cg_Title : string;
  cg_Description : string;
  cg_StartDate : time.Time;
  cg_EndDate : option time.Time
}.

Record UpdateGoalRequest := mkUpdateGoalRequest {
  ug_Title : string;
  ug_Description : string;
  ug_StartDate : time.Time;
  ug_EndDate : option time.Time;
  ug_Completed : bool
}.

Record RegisterRequest := mkRegisterRequest {
  rr_Username : string;
  rr_Email : string;
  rr_Password : string;
  rr_FirstName : string;
  rr_LastName : string
}.

Record LoginRequest := mkLoginRequest {
  lr_Email : string;
  lr_Password : string
}.

Record AuthResponse := mkAuthResponse {
  ar_Token : string;
  ar_User : UserResponse
}.

(** The value handed to [c.JSON]. [H_error msg] is
    [gin.H{"error": msg}], [H_message msg] is [gin.H{"message": msg}]. *)
Inductive Body :=
| H_error (msg : string)
| H_message (msg : string)
| GoalBody (g : Goal)
| GoalsBody (gs : list Goal)
| AuthBody (r : AuthResponse).

Record Response := JSON {
  status : Z;
  body : Body
}.

Record GoalHandler := mkGoalHandler {
  goalCollection : mongo.Collection Goal
}.

Definition NewGoalHandler (goalCollection : mongo.Collection Goal) : GoalHandler :=
  mkGoalHandler goalCollection.

(** The filter of the three by-id operations. *)
Definition ownedGoal (goalID userID : ObjectID) : bson.M :=
  <["_id" := bson.ObjectIDValue goalID]>
    (<["userId" := bson.ObjectIDValue userID]> ∅).

Section GoalHandlers.
Context `{validator.Library}.

(** [CreateGoal]. [newID] is the result of [primitive.NewObjectID()],
    [now] that of [time.Now()]. *)
Definition CreateGoal (h : GoalHandler) (c : gin.Context)
    (bound : gin.Bind CreateGoalRequest) (newID : ObjectID) (now : time.Time)
    : GoalHandler * Response :=
  match bound with
  | gin.BindError msg => (h, JSON http.StatusBadRequest (H_error msg))
  | gin.Bound req =>
      match validator.Struct [("Title", cg_Title req, [validator.required])] with
      | Some msg => (h, JSON http.StatusBadRequest (H_error msg))
      | None =>
          match gin.userId c with
          | None => (h, JSON http.StatusUnauthorized
                             (H_error "User ID not found in context"))
          | Some userID =>
              let goal :=
                {| ID := newID;
                   UserID := userID;
                   Title := cg_Title req;
                   Description := cg_Description req;
                   SubTasks := [];
                   StartDate := cg_StartDate req;
                   EndDate := cg_EndDate req;
                   Completed := false;
                   Progress := 0%float;
                   CreatedAt := now;
                   UpdatedAt := now |} in
              match mongo.InsertOne (goalCollection h) goal with
              | (_, false) => (h, JSON http.StatusInternalServerError
                                       (H_error "Failed to create goal"))
              | (coll, true) =>
                  (mkGoalHandler coll, JSON http.StatusCreated (GoalBody goal))
              end
          end
      end
  end.

(** [GetGoal]. *)
Definition GetGoal (h : GoalHandler) (c : gin.Context) : Response :=
  match ObjectIDFromHex (gin.Param_id c) with
  | None => JSON http.StatusBadRequest (H_error "Invalid goal ID")
  | Some goalID =>
      match gin.userId c with
      | None => JSON http.StatusUnauthorized
                     (H_error "User ID not found in context")
      | Some userID =>
          match mongo.FindOne (goalCollection h) (ownedGoal goalID userID) with
          | mongo.ErrNoDocuments =>
              JSON http.StatusNotFound (H_error "Goal not found")
          | mongo.ErrServer =>
              JSON http.StatusInternalServerError (H_error "Failed to get goal")
          | mongo.Decoded goal => JSON http.StatusOK (GoalBody goal)
          end
      end
  end.

(** [ListGoals]. *)
Definition ListGoals (h : GoalHandler) (c : gin.Context) : Response :=
  match gin.userId c with
  | None => JSON http.StatusUnauthorized (H_error "User ID not found in context")
  | Some userID =>
      match mongo.Find (goalCollection h)
                       (<["userId" := bson.ObjectIDValue userID]> ∅)
                       "createdAt" with
      | None => JSON http.StatusInternalServerError
                     (H_error "Failed to list goals")
      | Some goals => JSON http.StatusOK (GoalsBody goals)
      end
  end.

(** The update document [UpdateGoal] builds from the bound request. *)
Definition updateDocument (req : UpdateGoalRequest) (now : time.Time) : bson.M :=
  let update : bson.M := <["updatedAt" := bson.DateTimeValue now]> ∅ in
  let update :=
    if negb (String.eqb (ug_Title req) "")
    then <["title" := bson.StringValue (ug_Title req)]> update else update in
  let update :=
    if negb (String.eqb (ug_Description req) "")
    then <["description" := bson.StringValue (ug_Description req)]> update
    else update in
  let update :=
    if negb (time.IsZero (ug_StartDate req))
    then <["startDate" := bson.DateTimeValue (ug_StartDate req)]> update
    else update in
  let update :=
    match ug_EndDate req with
    | Some endDate => <["endDate" := bson.DateTimeValue endDate]> update
    | None => update
    end in
  <["completed" := bson.BooleanValue (ug_Completed req)]> update.

(** [UpdateGoal]. *)
Definition UpdateGoal (h : GoalHandler) (c : gin.Context)
    (bound : gin.Bind UpdateGoalRequest) (now : time.Time)
    : GoalHandler * Response :=
  match ObjectIDFromHex (gin.Param_id c) with
  | None => (h, JSON http.StatusBadRequest (H_error "Invalid goal ID"))
  | Some goalID =>
      match gin.userId c with
      | None => (h, JSON http.StatusUnauthorized
                         (H_error "User ID not found in context"))
      | Some userID =>
          match bound with
          | gin.BindError msg => (h, JSON http.StatusBadRequest (H_error msg))
          | gin.Bound req =>
              let update := updateDocument req now in
              match mongo.UpdateOne (goalCollection h)
                                    (ownedGoal goalID userID) update with
              | (_, None) =>
                  (h, JSON http.StatusInternalServerError
                           (H_error "Failed to update goal"))
              | (coll, Some matchedCount) =>
                  let h' := mkGoalHandler coll in
                  if matchedCount =? 0 then
                    (h', JSON http.StatusNotFound (H_error "Goal not found"))
                  else
                    match mongo.FindOne coll (ownedGoal goalID userID) with
                    | mongo.Decoded goal => (h', JSON http.StatusOK (GoalBody goal))
                    | _ => (h', JSON http.StatusInternalServerError
                                     (H_error "Failed to get updated goal"))
                    end
              end
          end
      end
  end.

(** [DeleteGoal]. *)
Definition DeleteGoal (h : GoalHandler) (c : gin.Context)
    : GoalHandler * Response :=
  match ObjectIDFromHex (gin.Param_id c) with
  | None => (h, JSON http.StatusBadRequest (H_error "Invalid goal ID"))
  | Some goalID =>
      match gin.userId c with
      | None => (h, JSON http.StatusUnauthorized
                         (H_error "User ID not found in context"))
      | Some userID =>
          match mongo.DeleteOne (goalCollection h) (ownedGoal goalID userID) with
          | (_, None) =>
              (h, JSON http.StatusInternalServerError
                       (H_error "Failed to delete goal"))
          | (coll, Some deletedCount) =>
              let h' := mkGoalHandler coll in
              if deletedCount =? 0 then
                (h', JSON http.StatusNotFound (H_error "Goal not found"))
              else
                (h', JSON http.StatusOK (H_message "Goal deleted successfully"))
          end
      end
  end.

End GoalHandlers.

Record AuthHandler := mkAuthHandler {
  userCollection : mongo.Collection User;
  jwtMiddleware : middleware.JwtMiddleware
}.

Definition NewAuthHandler (userCollection : mongo.Collection User)
    (jwtMiddleware : middleware.JwtMiddleware) : AuthHandler :=
  mkAuthHandler userCollection jwtMiddleware.

Section AuthHandlers.
Context `{validator.Library} `{Bcrypt} `{jwt.Encoding middleware.TokenClaims}.

(** Whether [FindOne(...).Decode(&u)] returned a nil error. *)
Definition found (r : mongo.SingleResult User) : bool :=
  match r with mongo.Decoded _ => true | _ => false end.

(** [Register]. [newID] is the result of [primitive.NewObjectID()],
    [now] that of [time.Now()], [now0] and [now1] are the readings of
    the clock inside [GenerateToken]. *)
Definition Register (h : AuthHandler) (bound : gin.Bind RegisterRequest)
    (newID : ObjectID) (now now0 now1 : time.Time) : AuthHandler * Response :=
  match bound with
  | gin.BindError msg => (h, JSON http.StatusBadRequest (H_error msg))
  | gin.Bound req =>
      match validator.Struct
              [("Username", rr_Username req,
                [validator.required; validator.min 3; validator.max 30]);
               ("Email", rr_Email req, [validator.required; validator.email]);
               ("Password", rr_Password req,
                [validator.required; validator.min 6])] with
      | Some msg => (h, JSON http.StatusBadRequest (H_error msg))
      | None =>
          if found (mongo.FindOne (userCollection h)
                      (<["email" := bson.StringValue (rr_Email req)]> ∅))
          then (h, JSON http.StatusConflict
                        (H_error "User with this email already exists"))
          else if found (mongo.FindOne (userCollection h)
                      (<["username" := bson.StringValue (rr_Username req)]> ∅))
          then (h, JSON http.StatusConflict (H_error "Username is already taken"))
          else
            let user :=
              {| User_ID := newID;
                 User_Username := rr_Username req;
                 User_Email := rr_Email req;
                 User_Password := rr_Password req;
                 User_FirstName := rr_FirstName req;
                 User_LastName := rr_LastName req;
                 User_CreatedAt := now;
                 User_UpdatedAt := now |} in
            match HashPassword user with
            | None => (h, JSON http.StatusInternalServerError
                               (H_error "Failed to hash password"))
            | Some user =>
                match mongo.InsertOne (userCollection h) user with
                | (_, false) => (h, JSON http.StatusInternalServerError
                                         (H_error "Failed to create user"))
                | (coll, true) =>
                    let h' := mkAuthHandler coll (jwtMiddleware h) in
                    match middleware.GenerateToken (jwtMiddleware h)
                            (User_ID user) 24 now0 now1 with
                    | None => (h', JSON http.StatusInternalServerError
                                        (H_error "Failed to generate token"))
                    | Some token =>
                        (h', JSON http.StatusCreated
                               (AuthBody {| ar_Token := token;
                                            ar_User := ToResponse user |}))
                    end
                end
            end
      end
  end.

(** [Login]. [now0] and [now1] are the readings of the clock inside
    [GenerateToken]. The handler's two log lines are not part of the
    response. *)
Definition Login (h : AuthHandler) (bound : gin.Bind LoginRequest)
    (now0 now1 : time.Time) : Response :=
  match bound with
  | gin.BindError msg => JSON http.StatusBadRequest (H_error msg)
  | gin.Bound req =>
      match validator.Struct
              [("Email", lr_Email req, [validator.required; validator.email]);
               ("Password", lr_Password req, [validator.required])] with
      | Some msg => JSON http.StatusBadRequest (H_error msg)
      | None =>
          match mongo.FindOne (userCollection h)
                  (<["email" := bson.StringValue (lr_Email req)]> ∅) with
          | mongo.Decoded user =>
              if negb (ComparePassword user (lr_Password req)) then
                JSON http.StatusUnauthorized (H_error "Invalid email or password")
              else
                match middleware.GenerateToken (jwtMiddleware h)
                        (User_ID user) 24 now0 now1 with
                | None => JSON http.StatusInternalServerError
                               (H_error "Failed to generate token")
                | Some token =>
                    JSON http.StatusOK
                         (AuthBody {| ar_Token := token;
                                      ar_User := ToResponse user |})
                end
          | _ => JSON http.StatusUnauthorized
                      (H_error "Invalid email or password")
          end
      end
  end.

End AuthHandlers.

(** The routes [SetupRoutes] registers in the group [/api/goals], which
    uses [AuthRequired]. *)
Inductive GoalRoute :=
| POST_goals (bound : gin.Bind CreateGoalRequest)
| GET_goals
| GET_goal (id : string)
| PUT_goal (id : string) (bound : gin.Bind UpdateGoalRequest)
| DELETE_goal (id : string).

Section Routes.
Context `{validator.Library} `{jwt.Encoding middleware.TokenClaims}.

(** A request to the group: the middleware first, at instant
    [authNow]; then, unless it aborted, the handler of the route with
    the context the middleware set. *)
Definition goalsGroup (m : middleware.JwtMiddleware) (h : GoalHandler)
    (authHeader : string) (authNow : time.Time) (route : GoalRoute)
    (newID : ObjectID) (now : time.Time) : GoalHandler * Response :=
  match middleware.AuthRequired m authHeader authNow with
  | middleware.Abort st msg => (h, JSON st (H_error msg))
  | middleware.Next userID =>
      match route with
      | POST_goals bound =>
          CreateGoal h (gin.mkContext "" (Some userID)) bound newID now
      | GET_goals => (h, ListGoals h (gin.mkContext "" (Some userID)))
      | GET_goal id => (h, GetGoal h (gin.mkContext id (Some userID)))
      | PUT_goal id bound =>
          UpdateGoal h (gin.mkContext id (Some userID)) bound now
      | DELETE_goal id => DeleteGoal h (gin.mkContext id (Some userID))
      end
  end.

End Routes.

(** ** The JSON a response body is written as (the [json] tags) *)

#[warnings="-register-all"]
Inductive JSONValue :=
| JNull
| JBool (b : bool)
| JNumber (f : float)
| JString (s : string)
| JTime (t : time.Time)
| JArray (l : list JSONValue)
| JObject (members : list (string * JSONValue)).

(** A member with [omitempty] is left out when its string is empty. *)
Definition omitempty (name : string) (s : string) : list (string * JSONValue) :=
  if String.eqb s "" then [] else [(name, JString s)].

Definition omitnil (name : string) (t : option time.Time)
    : list (string * JSONValue) :=
  match t with Some t => [(name, JTime t)] | None => [] end.

Definition SubTask_json (t : SubTask) : JSONValue :=
  JObject ([("id", JString (Hex (st_ID t)));
            ("title", JString (st_Title t))]
           ++ omitempty "description" (st_Description t)
           ++ [("completed", JBool (st_Completed t))]
           ++ omitnil "dueDate" (st_DueDate t)
           ++ [("createdAt", JTime (st_CreatedAt t));
               ("updatedAt", JTime (st_UpdatedAt t))]).

Definition Goal_json (g : Goal) : JSONValue :=
  JObject ([("id", JString (Hex (ID g)));
            ("userId", JString (Hex (UserID g)));
            ("title", JString (Title g))]
           ++ omitempty "description" (Description g)
           ++ [("subTasks", JArray (List.map SubTask_json (SubTasks g)));
               ("startDate", JTime (StartDate g))]
           ++ omitnil "endDate" (EndDate g)
           ++ [("completed", JBool (Completed g));
               ("progress", JNumber (Progress g));
               ("createdAt", JTime (CreatedAt g));
               ("updatedAt", JTime (UpdatedAt g))]).

(** [models.User] itself: the [Password] field is tagged [json:"-"]. *)
Definition User_json (u : User) : JSONValue :=
  JObject ([("id", JString (Hex (User_ID u)));
            ("username", JString (User_Username u));
            ("email", JString (User_Email u))]
           ++ omitempty "firstName" (User_FirstName u)
           ++ omitempty "lastName" (User_LastName u)
           ++ [("createdAt", JTime (User_CreatedAt u));
               ("updatedAt", JTime (User_UpdatedAt u))]).

Definition UserResponse_json (u : UserResponse) : JSONValue :=
  JObject ([("id", JString (Hex (UR_ID u)));
            ("username", JString (UR_Username u));
            ("email", JString (UR_Email u))]
           ++ omitempty "firstName" (UR_FirstName u)
           ++ omitempty "lastName" (UR_LastName u)
           ++ [("createdAt", JTime (UR_CreatedAt u))]).

(** The slice of [ListGoals] is nil when the cursor had no document,
    and a nil slice is written [null]. *)
Definition Body_json (b : Body) : JSONValue :=
  match b with
  | H_error msg => JObject [("error", JString msg)]
  | H_message msg => JObject [("message", JString msg)]
  | GoalBody g => Goal_json g
  | GoalsBody [] => JNull
  | GoalsBody gs => JArray (List.map Goal_json gs)
  | AuthBody r => JObject [("token", JString (ar_Token r));
                           ("user", UserResponse_json (ar_User r))]
  end.

(** Every member name of a JSON value, at any depth. *)
Fixpoint names (v : JSONValue) : list string :=
  match v with
  | JArray l => flat_map names l
  | JObject members =>
      flat_map (fun m => fst m :: names (snd m)) members
  | _ => []
  end.

End handlers.

(** ** Instances of the library interfaces, and data, for running the model *)

Module reference.
Import primitive models.

(** A token encoding that satisfies [jwt.EncodingLaws]: segments are
    numbered through [Countable] and written in binary, lowest bit
    first. The keyed hash is a stand-in that depends on the hash, the
    key and the text. *)
Fixpoint bin (p : positive) : string :=
  match p with
  | xH => EmptyString
  | xO q => String "0" (bin q)
  | xI q => String "1" (bin q)
  end.

Fixpoint unbin (s : string) : option positive :=
  match s with
  | EmptyString => Some xH
  | String c rest =>
      if Ascii.eqb c "0" then xO <$> unbin rest
      else if Ascii.eqb c "1" then xI <$> unbin rest
      else None
  end.

Definition claimsTuple (c : middleware.TokenClaims)
    : string * (option Z * option Z * option Z) :=
  (middleware.UserID c,
   (jwt.ExpiresAt (middleware.Registered c),
    jwt.NotBefore (middleware.Registered c),
    jwt.IssuedAt (middleware.Registered c))).

Definition tupleClaims (t : string * (option Z * option Z * option Z))
    : middleware.TokenClaims :=
  let '(uid, (exp, nbf, iat)) := t in
  middleware.mkTokenClaims uid (jwt.mkRegisteredClaims exp nbf iat).

Definition refSigningString (alg : string) (c : middleware.TokenClaims) : string :=
  bin (encode (alg, claimsTuple c)).

Definition refCompact (text sig : string) : string :=
  bin (encode (text, sig)).

Definition refParseCompact (s : string)
    : option (string * middleware.TokenClaims * string * string) :=
  match unbin s ≫= decode with
  | Some (text, sig) =>
      match unbin text ≫= decode with
      | Some (alg, t) => Some (alg, tupleClaims t, text, sig)
      | None => None
      end
  | None => None
  end.

Definition refHmacSum (h : jwt.Hash) (key text : string) : string :=
  jwt.bits h +:+ "/" +:+ key +:+ "/" +:+ text.

#[export] Instance encoding : jwt.Encoding middleware.TokenClaims :=
  {| jwt.signingString := refSigningString;
     jwt.compact := refCompact;
     jwt.parseCompact := refParseCompact;
     jwt.hmacSum := refHmacSum |}.

(** A stand-in for bcrypt: the hash is the password behind a prefix. *)
#[export] Instance bcrypt : Bcrypt :=
  {| GenerateFromPassword := fun p _ => Some ("$2a$10$" +:+ p);
     CompareHashAndPassword := fun h p => String.eqb h ("$2a$10$" +:+ p) |}.

Fixpoint contains (c : ascii) (s : string) : bool :=
  match s with
  | EmptyString => false
  | String d rest => Ascii.eqb c d || contains c rest
  end.

(** A stand-in for the validator's tests: bytes for runes, an at-sign
    for an address. *)
#[export] Instance validation : validator.Library :=
  {| validator.RuneCountInString := fun s => Z.of_nat (String.length s);
     validator.isEmail := contains "@"%char;
     validator.ErrorText := fun errs =>
       String.concat "; " (List.map (fun e => fst e +:+ ": " +:+ snd e) errs) |}.

Definition alice : ObjectID := repeat x0a 12.
Definition bob : ObjectID := repeat x0b 12.
Definition goal1 : ObjectID := repeat x01 12.

Definition server : middleware.JwtMiddleware :=
  middleware.NewJwtMiddleware "your-default-secret-key-change-in-production".

(** The claims of a token for [alice] issued at second 5 that expires
    at second 86405. *)
Definition aliceClaims : middleware.TokenClaims :=
  middleware.mkTokenClaims (Hex alice)
    (jwt.mkRegisteredClaims (Some 86405) None (Some 5)).

(** A goal of [alice] with no subtask. *)
Definition learnGo : Goal :=
  {| ID := goal1; UserID := alice; Title := "Learn Go"; Description := "";
     SubTasks := []; StartDate := time.zeroTime; EndDate := None;
     Completed := false; Progress := 0%float;
     CreatedAt := 1000000000; UpdatedAt := 1000000000 |}.

Definition store : handlers.GoalHandler :=
  handlers.NewGoalHandler (mongo.mkCollection [learnGo] true).

(** The same goal once its owner has marked it completed. *)
Definition achievedStore : handlers.GoalHandler :=
  handlers.NewGoalHandler
    (mongo.mkCollection [with_Completed true learnGo] true).

Definition asAlice : gin.Context := gin.mkContext (Hex goal1) (Some alice).
Definition asBob : gin.Context := gin.mkContext (Hex goal1) (Some bob).

(** A body that gives a title and nothing else. *)
Definition retitle : handlers.UpdateGoalRequest :=
  handlers.mkUpdateGoalRequest "Learn Rocq" "" time.zeroTime None false.

(** A body that gives [completed: true] and nothing else. *)
Definition complete : handlers.UpdateGoalRequest :=
  handlers.mkUpdateGoalRequest "" "" time.zeroTime None true.

(** The record of [alice], registered with the password "secret1". *)
Definition aliceUser : User :=
  {| User_ID := alice; User_Username := "alice"; User_Email := "a@x.com";
     User_Password := "$2a$10$secret1"; User_FirstName := "";
     User_LastName := ""; User_CreatedAt := 500000000;
     User_UpdatedAt := 500000000 |}.

Definition registry : handlers.AuthHandler :=
  handlers.NewAuthHandler (mongo.mkCollection [aliceUser] true) server.

Definition task (done : bool) : SubTask :=
  {| st_ID := goal1; st_Title := "t"; st_Description := "";
     st_Completed := done; st_DueDate := None;
     st_CreatedAt := 0; st_UpdatedAt := 0 |}.

End reference.

(** ** Package [configs] *)

Module configs.

Record Config := mkConfig {
  MongoURI : string;
  DBName : string;
  JWTSecret : string;
  Port : string;
  TokenExpiryHours : Z;
  PasswordSaltRound : Z
}.

(** The process environment, a map from names to values. *)
Abbreviation Environ := (gmap string string).

(** [godotenv.Load()]: the variables of the [.env] file, when there is
    one, are added to the environment; a variable the environment
    already has keeps its value. Without the file the environment is
    as it was (the error is logged). *)
Definition Load (dotenv : option Environ) (environ : Environ) : Environ :=
  match dotenv with
  | Some file => environ ∪ file
  | None => environ
  end.

(** [os.Getenv]: the value, or the empty string for a variable that is
    not set. *)
Definition Getenv (environ : Environ) (key : string) : string :=
  default EmptyString (environ !! key).

(** [LoadConfig], on the content of the [.env] file, if any, and the
    environment of the process. *)
Definition LoadConfig (dotenv : option Environ) (environ : Environ) : Config :=
  let environ := Load dotenv environ in
  let port := Getenv environ "PORT" in
  let port := if String.eqb port "" then "8080" else port in
  let mongoURI := Getenv environ "MONGO_URI" in
  let mongoURI :=
    if String.eqb mongoURI "" then "mongodb://localhost:27017" else mongoURI in
  let dbName := Getenv environ "DB_NAME" in
  let dbName := if String.eqb dbName "" then "task_management" else dbName in
  let jwtSecret := Getenv environ "JWT_SECRET" in
  let jwtSecret :=
    if String.eqb jwtSecret ""
    then "your-default-secret-key-change-in-production" else jwtSecret in
  {| MongoURI := mongoURI;
     DBName := dbName;
     JWTSecret := jwtSecret;
     Port := port;
     TokenExpiryHours := 24;
     PasswordSaltRound := 10 |}.

End configs.

(** ** What bcrypt guarantees *)

Module bcryptlaws.
Import models.

(** A hash that [GenerateFromPassword] made of a password compares
    equal with that password. *)
Class Laws `{Bcrypt} : Prop := {
  compare_generated : forall password cost hashedPassword,
    GenerateFromPassword password cost = Some hashedPassword ->
    CompareHashAndPassword hashedPassword password = true
}.

End bcryptlaws.

(** ** The records the handlers build, by name *)

Module built.
Import primitive models handlers.

(** The record [Register] stores for a request, once the password has
    been hashed. *)
Definition registered (req : RegisterRequest) (newID : ObjectID)
    (now : time.Time) (hashedPassword : string) : User :=
  {| User_ID := newID;
     User_Username := rr_Username req;
     User_Email := rr_Email req;
     User_Password := hashedPassword;
     User_FirstName := rr_FirstName req;
     User_LastName := rr_LastName req;
     User_CreatedAt := now;
     User_UpdatedAt := now |}.

(** The goal [CreateGoal] stores for a request. *)
Definition created (req : CreateGoalRequest) (newID userID : ObjectID)
    (now : time.Time) : Goal :=
  {| ID := newID;
     UserID := userID;
     Title := cg_Title req;
     Description := cg_Description req;
     SubTasks := [];
     StartDate := cg_StartDate req;
     EndDate := cg_EndDate req;
     Completed := false;
     Progress := 0%float;
     CreatedAt := now;
     UpdatedAt := now |}.

(** The request [Login] needs for the credentials of a registration. *)
Definition credentials (req : RegisterRequest) : LoginRequest :=
  mkLoginRequest (rr_Email req) (rr_Password req).

End built.

(** ** Package [main] *)

Module main.

(** The middleware [main] builds from the configuration and hands to
    [SetupRoutes]. *)
Definition jwtMiddleware (config : configs.Config) : middleware.JwtMiddleware :=
  middleware.NewJwtMiddleware (configs.JWTSecret config).

End main.

(** ** More values for the examples *)

Module scenario.
Import primitive models handlers reference.

Definition goal2 : ObjectID := repeat x02 12.
Definition robert : ObjectID := repeat x0c 12.

(** [bob] registers beside [alice]. *)
Definition bobRequest : RegisterRequest :=
  mkRegisterRequest "bobby" "b@x.com" "secret2" "" "".

(** A second registration with the address of [bob]. *)
Definition robertRequest : RegisterRequest :=
  mkRegisterRequest "robert" "b@x.com" "secret3" "" "".

(** A body for [CreateGoal]. *)
Definition readManual : CreateGoalRequest :=
  mkCreateGoalRequest "Read the manual" "" 2000 None.

(** The collections of [store] and [registry] while the server of the
    store does not answer. *)
Definition storeDown : GoalHandler :=
  NewGoalHandler (mongo.mkCollection [learnGo] false).

Definition registryDown : AuthHandler :=
  NewAuthHandler (mongo.mkCollection [aliceUser] false) server.

(** An environment that sets the secret and the port, and a [.env] file
    that sets the secret and the name of the database. *)
Definition environ : configs.Environ :=
  <["JWT_SECRET" := "s3cret"]> (<["PORT" := "9090"]> ∅).

Definition dotenv : configs.Environ :=
  <["JWT_SECRET" := "from-file"]> (<["DB_NAME" := "tasks"]> ∅).

End scenario.

(** * Properties *)

(** ** Object ids *)

Lemma hex_DecodeString_cons (b : byte) (rest : list byte) :
  primitive.hex_DecodeString (primitive.hex_EncodeToString (b :: rest))
  = match primitive.hex_DecodeString (primitive.hex_EncodeToString rest) with
    | Some bs => Some (b :: bs)
    | None => None
    end.
Proof. destruct b; reflexivity. Qed.

Lemma hex_DecodeString_EncodeToString (l : list byte) :
  primitive.hex_DecodeString (primitive.hex_EncodeToString l) = Some l.
Proof.
  induction l as [|b rest IH]; [reflexivity|].
  rewrite hex_DecodeString_cons, IH. reflexivity.
Qed.

Lemma length_hex_EncodeToString (l : list byte) :
  String.length (primitive.hex_EncodeToString l) = (2 * length l)%nat.
Proof. induction l as [|b rest IH]; simpl; [reflexivity | rewrite IH; lia]. Qed.

(** An id of twelve bytes is read back from its hexadecimal form. *)
Lemma ObjectIDFromHex_Hex (id : primitive.ObjectID) :
  length id = 12%nat -> primitive.ObjectIDFromHex (primitive.Hex id) = Some id.
Proof.
  intros Hlen. unfold primitive.ObjectIDFromHex, primitive.Hex.
  rewrite length_hex_EncodeToString, Hlen. simpl.
  apply hex_DecodeString_EncodeToString.
Qed.

(** ** Splitting the header *)

Lemma Split_nonempty (s : string) (sep : ascii) : strings.Split s sep <> [].
Proof.
  destruct s as [|c rest]; simpl; [discriminate|].
  destruct (Ascii.eqb c sep); [discriminate|].
  destruct (strings.Split rest sep); discriminate.
Qed.

(** The pieces of a header whose second word holds no space. *)
Lemma Split_Bearer (tok : string) :
  strings.Split tok " " = [tok] ->
  strings.Split ("Bearer " +:+ tok) " " = ["Bearer"; tok].
Proof.
  intros Htok. simpl. change (EmptyString +:+ tok) with tok.
  rewrite Htok. reflexivity.
Qed.

Lemma Split_one (s b : string) : strings.Split s " " = [b] -> s = b.
Proof.
  revert b. induction s as [|c rest IH]; intros b; simpl.
  - intros Heq. injection Heq as <-. reflexivity.
  - destruct (Ascii.eqb c " ").
    + intros Heq. injection Heq as _ Hrest.
      exfalso. exact (Split_nonempty _ _ Hrest).
    + destruct (strings.Split rest " ") as [|p ps] eqn:E.
      * exfalso. exact (Split_nonempty _ _ E).
      * intros Heq. injection Heq as <- ->. rewrite (IH p eq_refl). reflexivity.
Qed.

(** A header of two pieces is the two pieces around one space, with no
    other space in it. *)
Lemma Split_two (s a b : string) :
  strings.Split s " " = [a; b] ->
  s = a +:+ " " +:+ b /\ strings.Split a " " = [a] /\ strings.Split b " " = [b].
Proof.
  revert a. induction s as [|c rest IH]; intros a; simpl; [discriminate|].
  destruct (Ascii.eqb_spec c " ") as [->|Hc].
  - intros Heq. injection Heq as <- Hrest.
    pose proof (Split_one _ _ Hrest) as ->.
    split; [reflexivity|]. split; [reflexivity|assumption].
  - destruct (strings.Split rest " ") as [|p ps] eqn:E; [discriminate|].
    intros Heq. injection Heq as <- ->.
    destruct (IH p eq_refl) as (-> & Hp & Hb).
    repeat split; [|assumption].
    simpl. destruct (Ascii.eqb_spec c " "); [contradiction|]. rewrite Hp. reflexivity.
Qed.

(** ** The instants of the store *)

Section StoredInstants.
Import primitive.

Lemma wrap64_add_l (a b : Z) :
  time.wrap64 (time.wrap64 a + b) = time.wrap64 (a + b).
Proof.
  unfold time.wrap64.
  replace ((a + 2 ^ 63) mod 2 ^ 64 - 2 ^ 63 + b + 2 ^ 63)
    with ((a + 2 ^ 63) mod 2 ^ 64 + b) by lia.
  rewrite Z.add_mod_idemp_l by lia.
  replace (a + 2 ^ 63 + b) with (a + b + 2 ^ 63) by lia. reflexivity.
Qed.

(** The datetime of an instant is its number of whole milliseconds,
    in 64 bits. *)
Lemma NewDateTimeFromTime_milliseconds (t : time.Time) :
  NewDateTimeFromTime t = time.wrap64 (t / time.Millisecond).
Proof.
  unfold NewDateTimeFromTime. rewrite wrap64_add_l. f_equal.
  unfold time.Unix, time.Time_Nanosecond, time.Second, time.Millisecond.
  pose proof (Z.div_mod t 1000000000 ltac:(lia)) as Ht.
  pose proof (Z.mod_pos_bound t 1000000000 ltac:(lia)) as Hr.
  rewrite Ht at 3.
  replace (1000000000 * (t / 1000000000) + t mod 1000000000)
    with (t mod 1000000000 + (t / 1000000000 * 1000) * 1000000) by lia.
  rewrite Z.div_add by lia. lia.
Qed.

(** An instant whose milliseconds fit 64 bits comes back from the store
    cut down to the millisecond. *)
Lemma storedTime_cut (t : time.Time) :
  - 2 ^ 63 <= t / time.Millisecond < 2 ^ 63 ->
  storedTime t = t / time.Millisecond * time.Millisecond.
Proof.
  intros Hfit. unfold storedTime, DateTime_Time.
  rewrite NewDateTimeFromTime_milliseconds.
  unfold time.wrap64. rewrite Z.mod_small by lia. lia.
Qed.

Lemma storedTime_bounds (t : time.Time) :
  - 2 ^ 63 <= t / time.Millisecond < 2 ^ 63 ->
  storedTime t <= t < storedTime t + time.Millisecond.
Proof.
  intros Hfit. rewrite (storedTime_cut t Hfit). unfold time.Millisecond in *.
  pose proof (Z.div_mod t 1000000 ltac:(lia)).
  pose proof (Z.mod_pos_bound t 1000000 ltac:(lia)). lia.
Qed.

End StoredInstants.

(** An instant of the year 2026 with its nanoseconds, and the same
    instant once stored. *)
Example storedTime_of_an_instant :
  primitive.storedTime 1793395109236422069 = 1793395109236000000.
Proof. reflexivity. Qed.

(** ** The Progress Engine *)

Section ProgressEngine.
Import models.

Lemma allCompleted_forallb (tasks : list SubTask) :
  allCompleted tasks = forallb st_Completed tasks.
Proof.
  induction tasks as [|t rest IH]; [reflexivity|].
  simpl. destruct (st_Completed t); simpl; [exact IH | reflexivity].
Qed.

Lemma completedCount_from (tasks : list SubTask) (n : Z) :
  fold_left (fun n task => if st_Completed task then n + 1 else n) tasks n
  = n + Z.of_nat (length (List.filter st_Completed tasks)).
Proof.
  revert n. induction tasks as [|t rest IH]; intros n; simpl; [lia|].
  rewrite IH. destruct (st_Completed t); simpl; lia.
Qed.

(** The loop counts the completed subtasks. *)
Lemma completedCount_filter (tasks : list SubTask) :
  completedCount tasks = Z.of_nat (length (List.filter st_Completed tasks)).
Proof. unfold completedCount. rewrite completedCount_from. lia. Qed.

(** What [IsCompleted] answers depends on the subtasks alone. *)
Lemma IsCompleted_result (g : Goal) :
  snd (IsCompleted g)
  = match SubTasks g with [] => false | _ => forallb st_Completed (SubTasks g) end.
Proof.
  unfold IsCompleted. destruct (SubTasks g) as [|t rest] eqn:E; [reflexivity|].
  cbn [length Nat.eqb]. rewrite allCompleted_forallb.
  destruct (forallb st_Completed (t :: rest)); reflexivity.
Qed.

(** With at least one subtask, the engine sets both fields from the
    subtasks. *)
Lemma Recompute_nonempty (g : Goal) :
  SubTasks g <> [] ->
  Completed (Recompute g) = forallb st_Completed (SubTasks g)
  /\ Progress (Recompute g)
     = (float64_of_int (Z.of_nat (length (List.filter st_Completed (SubTasks g))))
        / float64_of_int (Z.of_nat (length (SubTasks g))) * 100)%float.
Proof.
  intros Hne. unfold Recompute, IsCompleted, CalculateProgress.
  destruct (SubTasks g) as [|t rest] eqn:E; [contradiction|].
  cbn [length Nat.eqb]. cbn [with_Progress SubTasks]. rewrite E.
  cbn [length Nat.eqb]. rewrite allCompleted_forallb, completedCount_filter.
  destruct (forallb st_Completed (t :: rest)); split; reflexivity.
Qed.

(** With no subtask, the engine sets the progress to zero and answers
    [false], and the [Completed] field keeps the value it had. *)
Lemma Recompute_empty (g : Goal) :
  SubTasks g = [] ->
  Progress (Recompute g) = 0%float
  /\ snd (IsCompleted (CalculateProgress g)) = false
  /\ Completed (Recompute g) = Completed g.
Proof.
  intros E. unfold Recompute, IsCompleted, CalculateProgress.
  rewrite E. cbn [length Nat.eqb]. cbn [with_Progress SubTasks]. rewrite E.
  cbn. auto.
Qed.

(** The goal the engine returns, field by field. *)
Lemma Recompute_unfold (g : Goal) :
  Recompute g
  = match SubTasks g with
    | [] => with_Progress 0%float g
    | _ => with_Completed (forallb st_Completed (SubTasks g))
             (with_Progress
                (float64_of_int (completedCount (SubTasks g))
                 / float64_of_int (Z.of_nat (length (SubTasks g))) * 100)%float g)
    end.
Proof.
  unfold Recompute, IsCompleted, CalculateProgress.
  destruct (SubTasks g) as [|t rest] eqn:E;
    cbn [length Nat.eqb with_Progress SubTasks]; rewrite E;
    cbn [length Nat.eqb]; [reflexivity|].
  rewrite allCompleted_forallb.
  destruct (forallb st_Completed (t :: rest)); reflexivity.
Qed.

Lemma SubTasks_Recompute (g : Goal) : SubTasks (Recompute g) = SubTasks g.
Proof. rewrite Recompute_unfold. destruct (SubTasks g) eqn:E; exact E. Qed.

(** Running the engine twice changes nothing more. *)
Lemma Recompute_idempotent (g : Goal) : Recompute (Recompute g) = Recompute g.
Proof.
  rewrite (Recompute_unfold (Recompute g)), SubTasks_Recompute.
  rewrite Recompute_unfold. destruct (SubTasks g); reflexivity.
Qed.

(** The three cases the specification lists, on a goal whose flag is
    [false] beforehand. *)
Example Recompute_no_subtask :
  Progress (Recompute reference.learnGo) = 0%float
  /\ Completed (Recompute reference.learnGo) = false.
Proof. split; reflexivity. Qed.

Example Recompute_done_done :
  let g := Recompute (with_SubTasks [reference.task true; reference.task true]
                                   reference.learnGo) in
  Progress g = 100%float /\ Completed g = true.
Proof. split; reflexivity. Qed.

Example Recompute_done_open :
  let g := Recompute (with_SubTasks [reference.task true; reference.task false]
                                   reference.learnGo) in
  Progress g = 50%float /\ Completed g = false.
Proof. split; reflexivity. Qed.

(** The progress is the binary64 value of the quotient times 100, in
    that order: 7 subtasks of 25 give 28.000000000000004. *)
Example Recompute_7_of_25 :
  Progress (Recompute (with_SubTasks
              (repeat (reference.task true) 7 ++ repeat (reference.task false) 18)
              reference.learnGo))
  = 0x1.c000000000001p+4%float.
Proof. reflexivity. Qed.

(** C6. The Progress Engine on a goal without subtasks whose [Completed]
    field is [true]: the progress becomes 0 and [IsCompleted] answers
    [false], but the field of the goal stays [true], where the
    specification's [Recompute] yields [completed = false]. *)
Theorem Recompute_empty_keeps_completed_flag :
  SubTasks (with_Completed true reference.learnGo) = []
  /\ Progress (Recompute (with_Completed true reference.learnGo)) = 0%float
  /\ snd (IsCompleted (CalculateProgress (with_Completed true reference.learnGo)))
     = false
  /\ Completed (Recompute (with_Completed true reference.learnGo)) = true.
Proof. repeat split. Qed.

End ProgressEngine.

(** ** The store *)

Section Store.
Import primitive models documents handlers.

Lemma Is_true_bool_decide_eq_sym `{EqDecision A} (a b : A) :
  Is_true (bool_decide (a = b)) <-> b = a.
Proof. rewrite bool_decide_spec. split; intros; congruence. Qed.

(** The filter of the by-id operations selects on both the goal id and
    the owner. *)
Lemma matches_ownedGoal (goalID userID : ObjectID) (d : Goal) :
  mongo.matches (ownedGoal goalID userID) d
  = bool_decide (ID d = goalID /\ UserID d = userID).
Proof.
  unfold mongo.matches, ownedGoal. apply bool_decide_ext.
  rewrite map_Forall_insert by reflexivity.
  rewrite map_Forall_insert by reflexivity.
  unfold mongo.fieldMatches. cbn.
  rewrite !Is_true_bool_decide_eq_sym.
  split; [intros (? & ? & _); auto | intros (? & ?); repeat split; auto].
  apply map_Forall_empty.
Qed.

(** The filter of [ListGoals] selects on the owner. *)
Lemma matches_owner (userID : ObjectID) (d : Goal) :
  mongo.matches (<["userId" := bson.ObjectIDValue userID]> ∅) d
  = bool_decide (UserID d = userID).
Proof.
  unfold mongo.matches. apply bool_decide_ext.
  rewrite map_Forall_insert by reflexivity.
  unfold mongo.fieldMatches. cbn.
  rewrite Is_true_bool_decide_eq_sym.
  split; [intros (? & _); auto | intros ?; split; auto].
  apply map_Forall_empty.
Qed.

(** Ids are unique in a collection: two stored goals with one id are
    one goal. *)
Lemma unique_id (l : list Goal) (a b : Goal) :
  NoDup (ID <$> l) -> a ∈ l -> b ∈ l -> ID a = ID b -> a = b.
Proof.
  induction l as [|x l IH]; intros Hnd Ha Hb Hid.
  - inversion Ha.
  - rewrite fmap_cons in Hnd. apply NoDup_cons in Hnd as [Hx Hnd].
    apply elem_of_cons in Ha as [->|Ha]; apply elem_of_cons in Hb as [->|Hb];
      auto.
    + exfalso. apply Hx. rewrite Hid. apply list_elem_of_fmap. eauto.
    + exfalso. apply Hx. rewrite <- Hid. apply list_elem_of_fmap. eauto.
Qed.

Lemma find_none_iff {A} (f : A -> bool) (l : list A) :
  List.find f l = None <-> forall x, x ∈ l -> f x = false.
Proof.
  split.
  - intros Hf x Hx. apply list_elem_of_In in Hx. exact (find_none f l Hf x Hx).
  - intros Hall. induction l as [|a l IH]; [reflexivity|]. simpl.
    rewrite (Hall a) by apply list_elem_of_here.
    apply IH. intros x Hx. apply Hall. now apply list_elem_of_further.
Qed.

(** A goal of another owner is not found by the by-id filter. *)
Lemma find_other_owner (l : list Goal) (g : Goal) (userID : ObjectID) :
  NoDup (ID <$> l) -> g ∈ l -> UserID g <> userID ->
  List.find (mongo.matches (ownedGoal (ID g) userID)) l = None.
Proof.
  intros Hnd Hg Howner. apply find_none_iff. intros d Hd.
  rewrite matches_ownedGoal. apply bool_decide_eq_false.
  intros [Hid Hu]. apply Howner.
  rewrite <- (unique_id l d g Hnd Hd Hg Hid). exact Hu.
Qed.

(** A goal id that no stored goal has is not found either. *)
Lemma find_absent (l : list Goal) (goalID userID : ObjectID) :
  (forall d, d ∈ l -> ID d <> goalID) ->
  List.find (mongo.matches (ownedGoal goalID userID)) l = None.
Proof.
  intros Habs. apply find_none_iff. intros d Hd.
  rewrite matches_ownedGoal. apply bool_decide_eq_false.
  intros [Hid _]. exact (Habs d Hd Hid).
Qed.

End Store.

(** ** Owner isolation of the by-id operations *)

Section OwnerIsolation.
Import primitive models documents handlers.

(** What the three operations answer when the filter finds nothing. *)
Lemma by_id_not_found (h : GoalHandler) (c : gin.Context)
    (goalID userID : ObjectID) :
  mongo.reachable (goalCollection h) = true ->
  ObjectIDFromHex (gin.Param_id c) = Some goalID ->
  gin.userId c = Some userID ->
  List.find (mongo.matches (ownedGoal goalID userID))
            (mongo.documents (goalCollection h)) = None ->
  GetGoal h c = JSON http.StatusNotFound (H_error "Goal not found")
  /\ (forall req now,
        UpdateGoal h c (gin.Bound req) now
        = (h, JSON http.StatusNotFound (H_error "Goal not found")))
  /\ DeleteGoal h c = (h, JSON http.StatusNotFound (H_error "Goal not found")).
Proof.
  intros Hup Hid Hctx Hfind. destruct h as [coll]. cbn in *.
  unfold GetGoal, UpdateGoal, DeleteGoal.
  rewrite Hid, Hctx. cbn.
  unfold mongo.FindOne, mongo.UpdateOne, mongo.DeleteOne.
  rewrite Hup, Hfind. cbn. destruct coll; auto.
Qed.

(** C1. A by-id operation of an authenticated caller on a stored goal of
    another owner: the filter selects on the goal id and on the
    caller's id, and [GetGoal], [UpdateGoal] and [DeleteGoal] answer
    404 "Goal not found", neither 403 nor the goal, and leave the
    collection as it is. *)
Theorem by_id_operations_hide_other_owners (h : GoalHandler) (c : gin.Context)
    (goalID userID : ObjectID) (g : Goal) :
  mongo.reachable (goalCollection h) = true ->
  NoDup (ID <$> mongo.documents (goalCollection h)) ->
  ObjectIDFromHex (gin.Param_id c) = Some goalID ->
  gin.userId c = Some userID ->
  g ∈ mongo.documents (goalCollection h) ->
  ID g = goalID ->
  UserID g <> userID ->
  (forall d, mongo.matches (ownedGoal goalID userID) d
             = bool_decide (ID d = goalID /\ UserID d = userID))
  /\ GetGoal h c = JSON http.StatusNotFound (H_error "Goal not found")
  /\ (forall req now,
        UpdateGoal h c (gin.Bound req) now
        = (h, JSON http.StatusNotFound (H_error "Goal not found")))
  /\ DeleteGoal h c = (h, JSON http.StatusNotFound (H_error "Goal not found")).
Proof.
  intros Hup Hnd Hid Hctx Hg <- Howner.
  split; [intros d; apply matches_ownedGoal|].
  apply (by_id_not_found h c (ID g) userID Hup Hid Hctx).
  now apply find_other_owner.
Qed.

(** X24. The same request when no stored goal has the id: the answers are
    the same, so the answer does not tell the two cases apart. *)
Lemma by_id_operations_absent_goal (h : GoalHandler) (c : gin.Context)
    (goalID userID : ObjectID) :
  mongo.reachable (goalCollection h) = true ->
  ObjectIDFromHex (gin.Param_id c) = Some goalID ->
  gin.userId c = Some userID ->
  (forall d, d ∈ mongo.documents (goalCollection h) -> ID d <> goalID) ->
  GetGoal h c = JSON http.StatusNotFound (H_error "Goal not found")
  /\ (forall req now,
        UpdateGoal h c (gin.Bound req) now
        = (h, JSON http.StatusNotFound (H_error "Goal not found")))
  /\ DeleteGoal h c = (h, JSON http.StatusNotFound (H_error "Goal not found")).
Proof.
  intros Hup Hid Hctx Habs.
  apply (by_id_not_found h c goalID userID Hup Hid Hctx).
  now apply find_absent.
Qed.

(** [bob] asks for the goal of [alice]. *)
Lemma by_id_operations_hide_other_owners_witness :
  GetGoal reference.store
          (gin.mkContext (Hex reference.goal1) (Some reference.bob))
  = JSON http.StatusNotFound (H_error "Goal not found")
  /\ UpdateGoal reference.store
          (gin.mkContext (Hex reference.goal1) (Some reference.bob))
          (gin.Bound reference.complete) 2000
     = (reference.store, JSON http.StatusNotFound (H_error "Goal not found"))
  /\ DeleteGoal reference.store
          (gin.mkContext (Hex reference.goal1) (Some reference.bob))
     = (reference.store, JSON http.StatusNotFound (H_error "Goal not found")).
Proof.
  destruct (by_id_operations_hide_other_owners reference.store
              (gin.mkContext (Hex reference.goal1) (Some reference.bob))
              reference.goal1 reference.bob reference.learnGo)
    as (_ & Hget & Hput & Hdel).
  - reflexivity.
  - apply NoDup_singleton.
  - reflexivity.
  - reflexivity.
  - apply list_elem_of_here.
  - reflexivity.
  - discriminate.
  - split; [exact Hget|]. split; [apply Hput|exact Hdel].
Defined.

End OwnerIsolation.

(** ** Tokens *)

Section Tokens.
Import primitive.
Context `{Enc : jwt.Encoding middleware.TokenClaims}.

Lemma GetSigningMethod_Alg (alg : string) (m : jwt.SigningMethod) :
  jwt.GetSigningMethod alg = Some m -> alg = jwt.Alg m.
Proof.
  unfold jwt.GetSigningMethod. intros Hfind.
  apply find_some in Hfind as [_ Heq].
  apply String.eqb_eq in Heq. congruence.
Qed.

Lemma GetSigningMethod_registered (m : jwt.SigningMethod) :
  jwt.GetSigningMethod (jwt.Alg m) = Some m.
Proof. destruct m as [[]|[]|[]|[]| |]; reflexivity. Qed.

(** [AuthRequired] on a header of the two pieces ["Bearer"] and
    [tokenString]. *)
Lemma AuthRequired_two_pieces (m : middleware.JwtMiddleware)
    (authHeader tokenString : string) (now : time.Time) :
  strings.Split authHeader " " = ["Bearer"; tokenString] ->
  middleware.AuthRequired m authHeader now
  = match jwt.ParseWithClaims middleware.Registered tokenString
            (middleware.keyFunc m) now with
    | inl _ => middleware.Abort http.StatusUnauthorized "Invalid or expired token"
    | inr token =>
        match ObjectIDFromHex (middleware.UserID (jwt.TokenClaims_of token)) with
        | None => middleware.Abort http.StatusUnauthorized "Invalid user ID in token"
        | Some userID => middleware.Next userID
        end
    end.
Proof.
  intros Hsplit. unfold middleware.AuthRequired. rewrite Hsplit.
  destruct authHeader as [|c rest]; [discriminate|]. cbn [String.eqb negb].
  unfold jwt.ParseWithClaims.
  destruct (jwt.parseCompact tokenString) as [[[[alg claims] text] sig]|];
    [|reflexivity].
  destruct (jwt.GetSigningMethod alg) as [method|]; [|reflexivity].
  destruct (middleware.keyFunc m _) as [key|]; [|reflexivity].
  destruct (jwt.Verify method text sig key); [|reflexivity].
  destruct (jwt.Validate _ now); reflexivity.
Qed.

(** Every answer of [AuthRequired] other than passing the request on is
    a 401. *)
Lemma AuthRequired_outcomes (m : middleware.JwtMiddleware)
    (authHeader : string) (now : time.Time) :
  (exists userID, middleware.AuthRequired m authHeader now = middleware.Next userID)
  \/ (exists msg, middleware.AuthRequired m authHeader now
                  = middleware.Abort http.StatusUnauthorized msg).
Proof.
  unfold middleware.AuthRequired.
  destruct (String.eqb authHeader ""); [eauto|].
  destruct (strings.Split authHeader " ") as [|scheme [|tokenString [|]]]; eauto.
  destruct (negb (String.eqb scheme "Bearer")); [eauto|].
  destruct (jwt.ParseWithClaims _ _ _ _) as [e|token]; [eauto|].
  destruct (negb (jwt.Valid token)); [eauto|].
  destruct (ObjectIDFromHex _); eauto.
Qed.

(** What a request that is passed on tells about its header. *)
Lemma AuthRequired_Next_inv (m : middleware.JwtMiddleware)
    (authHeader : string) (now : time.Time) (userID : ObjectID) :
  middleware.AuthRequired m authHeader now = middleware.Next userID ->
  exists tokenString token,
    strings.Split authHeader " " = ["Bearer"; tokenString]
    /\ authHeader = "Bearer " +:+ tokenString
    /\ jwt.ParseWithClaims middleware.Registered tokenString
         (middleware.keyFunc m) now = inr token
    /\ ObjectIDFromHex (middleware.UserID (jwt.TokenClaims_of token))
       = Some userID.
Proof.
  intros Hnext. unfold middleware.AuthRequired in Hnext.
  destruct (String.eqb authHeader ""); [discriminate|].
  destruct (strings.Split authHeader " ")
    as [|scheme [|tokenString [|]]] eqn:Hsplit; try discriminate.
  destruct (String.eqb_spec scheme "Bearer") as [->|]; [|discriminate].
  cbn [negb] in Hnext.
  destruct (jwt.ParseWithClaims _ _ _ _) as [e|token] eqn:Hparse;
    [discriminate|].
  destruct (negb (jwt.Valid token)); [discriminate|].
  destruct (ObjectIDFromHex _) as [id|] eqn:Hid; [|discriminate].
  injection Hnext as <-.
  exists tokenString, token. repeat split; auto.
  now apply Split_two in Hsplit as [-> _].
Qed.

(** C4. [AuthRequired] passes a request on only when the header splits
    at its spaces into exactly the two pieces ["Bearer"] and a token
    that parses, verifies and names an identity; on every other header
    (empty, one piece, three or more pieces, another first piece such as
    ["bearer"]) and on every token that does not verify it answers 401. *)
Theorem AuthRequired_requires_Bearer_and_valid_token
    (m : middleware.JwtMiddleware) (authHeader : string) (now : time.Time) :
  (forall userID,
     middleware.AuthRequired m authHeader now = middleware.Next userID ->
     exists tokenString token,
       strings.Split authHeader " " = ["Bearer"; tokenString]
       /\ authHeader = "Bearer " +:+ tokenString
       /\ jwt.ParseWithClaims middleware.Registered tokenString
            (middleware.keyFunc m) now = inr token
       /\ ObjectIDFromHex (middleware.UserID (jwt.TokenClaims_of token))
          = Some userID)
  /\ ((forall tokenString,
         strings.Split authHeader " " <> ["Bearer"; tokenString]) ->
      exists msg, middleware.AuthRequired m authHeader now
                  = middleware.Abort http.StatusUnauthorized msg)
  /\ (forall tokenString e,
        strings.Split authHeader " " = ["Bearer"; tokenString] ->
        jwt.ParseWithClaims middleware.Registered tokenString
          (middleware.keyFunc m) now = inl e ->
        middleware.AuthRequired m authHeader now
        = middleware.Abort http.StatusUnauthorized "Invalid or expired token")
  /\ ((exists userID,
         middleware.AuthRequired m authHeader now = middleware.Next userID)
      \/ (exists msg,
            middleware.AuthRequired m authHeader now
            = middleware.Abort http.StatusUnauthorized msg)).
Proof.
  split; [|split; [|split]]; [| | |apply AuthRequired_outcomes].
  - intros userID. apply AuthRequired_Next_inv.
  - intros Hshape.
    destruct (AuthRequired_outcomes m authHeader now) as [[userID Hnext]|Habort];
      [|exact Habort].
    exfalso. apply AuthRequired_Next_inv in Hnext
      as (tokenString & _ & Hsplit & _).
    exact (Hshape tokenString Hsplit).
  - intros tokenString e Hsplit Hparse.
    rewrite (AuthRequired_two_pieces m authHeader tokenString now Hsplit).
    rewrite Hparse. reflexivity.
Qed.

(** The shapes the specification lists. *)
Lemma AuthRequired_empty_header (m : middleware.JwtMiddleware) (now : time.Time) :
  middleware.AuthRequired m "" now
  = middleware.Abort http.StatusUnauthorized "Authorization header is required".
Proof. reflexivity. Qed.

Lemma AuthRequired_bare_token (m : middleware.JwtMiddleware)
    (tokenString : string) (now : time.Time) :
  tokenString <> "" ->
  strings.Split tokenString " " = [tokenString] ->
  middleware.AuthRequired m tokenString now
  = middleware.Abort http.StatusUnauthorized
      "Authorization header format must be Bearer {token}".
Proof.
  intros Hne Hone. unfold middleware.AuthRequired. rewrite Hone.
  destruct (String.eqb_spec tokenString ""); [contradiction|reflexivity].
Qed.

Lemma AuthRequired_lowercase_scheme (m : middleware.JwtMiddleware)
    (tokenString : string) (now : time.Time) :
  middleware.AuthRequired m ("bearer " +:+ tokenString) now
  = middleware.Abort http.StatusUnauthorized
      "Authorization header format must be Bearer {token}".
Proof.
  unfold middleware.AuthRequired. simpl.
  change (EmptyString +:+ tokenString) with tokenString.
  pose proof (Split_nonempty tokenString " ") as Hne.
  destruct (strings.Split tokenString " ") as [|p [|q r]];
    [contradiction|reflexivity|reflexivity].
Qed.

End Tokens.

(** ** Issuing and verifying *)

Section IssueVerify.
Import primitive.
Context `{Enc : jwt.Encoding middleware.TokenClaims}.
Context {Laws : @jwt.EncodingLaws middleware.TokenClaims Enc}.

(** The claims [GenerateToken] signs. *)
Lemma GenerateToken_signs (m : middleware.JwtMiddleware) (userID : ObjectID)
    (expiryHours : Z) (now0 now1 : time.Time) :
  exists claims,
    middleware.UserID claims = Hex userID
    /\ jwt.ExpiresAt (middleware.Registered claims)
       = Some (jwt.NewNumericDate
                 (time.Add now0
                    (time.wrap64 (time.wrap64 expiryHours * time.Hour))))
    /\ jwt.NotBefore (middleware.Registered claims) = None
    /\ jwt.IssuedAt (middleware.Registered claims)
       = Some (jwt.NewNumericDate now1)
    /\ middleware.GenerateToken m userID expiryHours now0 now1
       = Some (jwt.compact (jwt.signingString "HS256" claims)
                 (jwt.hmacSum jwt.SHA256 (middleware.jwtSecret m)
                    (jwt.signingString "HS256" claims))).
Proof.
  exists (middleware.mkTokenClaims (Hex userID)
            (jwt.mkRegisteredClaims
               (Some (jwt.NewNumericDate
                        (time.Add now0
                           (time.wrap64 (time.wrap64 expiryHours * time.Hour)))))
               None
               (Some (jwt.NewNumericDate now1)))).
  repeat split.
Qed.

(** A token signed by an HMAC method with the server's secret passes
    [AuthRequired] exactly while its claims are valid. *)
Lemma AuthRequired_HMAC_signed (m : middleware.JwtMiddleware) (h : jwt.Hash)
    (claims : middleware.TokenClaims) (now : time.Time) :
  middleware.AuthRequired m
    ("Bearer " +:+
     jwt.compact (jwt.signingString (jwt.Alg (jwt.SigningMethodHMAC h)) claims)
       (jwt.hmacSum h (middleware.jwtSecret m)
          (jwt.signingString (jwt.Alg (jwt.SigningMethodHMAC h)) claims))) now
  = match jwt.Validate (middleware.Registered claims) now with
    | Some _ => middleware.Abort http.StatusUnauthorized "Invalid or expired token"
    | None =>
        match ObjectIDFromHex (middleware.UserID claims) with
        | None => middleware.Abort http.StatusUnauthorized "Invalid user ID in token"
        | Some userID => middleware.Next userID
        end
    end.
Proof.
  rewrite (AuthRequired_two_pieces m _ _ now
             (Split_Bearer _ (jwt.compact_one_word _ _ _))).
  unfold jwt.ParseWithClaims.
  rewrite jwt.parseCompact_compact, GetSigningMethod_registered.
  cbn [middleware.keyFunc jwt.Method jwt.Verify].
  rewrite String.eqb_refl.
  destruct (jwt.Validate _ now); reflexivity.
Qed.

Lemma wrap64_small (z : Z) : - 2 ^ 63 <= z < 2 ^ 63 -> time.wrap64 z = z.
Proof.
  intros Hz. unfold time.wrap64.
  rewrite Z.mod_small by lia. lia.
Qed.

(** Whole hours that fit a [Duration]. *)
Lemma hours_fit (expiryHours : Z) :
  0 < expiryHours <= 2562047 ->
  time.wrap64 (time.wrap64 expiryHours * time.Hour) = expiryHours * time.Hour.
Proof.
  intros Hh. rewrite (wrap64_small expiryHours) by lia.
  apply wrap64_small. unfold time.Hour, time.Second. lia.
Qed.

(** Truncation to the second commutes with adding whole hours. *)
Lemma NewNumericDate_add_hours (t : time.Time) (n : Z) :
  jwt.NumericDate_Time (jwt.NewNumericDate (time.Add t (n * time.Hour)))
  = jwt.NumericDate_Time (jwt.NewNumericDate t) + n * time.Hour.
Proof.
  unfold jwt.NumericDate_Time, jwt.NewNumericDate, time.Add, time.Hour.
  replace (t + n * (3600 * time.Second)) with (t + (n * 3600) * time.Second) by lia.
  rewrite Z.div_add by (unfold time.Second; lia). lia.
Qed.

(** What [AuthRequired] answers to a token [GenerateToken] made for a
    number of hours that fits. *)
Lemma AuthRequired_generated (m : middleware.JwtMiddleware)
    (userID : ObjectID) (expiryHours : Z) (now0 now1 now : time.Time)
    (tokenString : string) :
  length userID = 12%nat ->
  0 < expiryHours <= 2562047 ->
  middleware.GenerateToken m userID expiryHours now0 now1 = Some tokenString ->
  middleware.AuthRequired m ("Bearer " +:+ tokenString) now
  = if now <? jwt.NumericDate_Time (jwt.NewNumericDate now0)
              + expiryHours * time.Hour
    then middleware.Next userID
    else middleware.Abort http.StatusUnauthorized "Invalid or expired token".
Proof.
  intros Hlen Hh Hgen.
  destruct (GenerateToken_signs m userID expiryHours now0 now1)
    as (claims & Huid & Hexp & Hnbf & Hiat & Hgen').
  rewrite Hgen in Hgen'. injection Hgen' as ->.
  rewrite hours_fit in Hexp by assumption.
  pose proof (AuthRequired_HMAC_signed m jwt.SHA256 claims now) as Hauth.
  change (jwt.Alg (jwt.SigningMethodHMAC jwt.SHA256)) with "HS256" in Hauth.
  rewrite Hauth. unfold jwt.Validate. rewrite Hexp, Hnbf, Huid.
  rewrite (ObjectIDFromHex_Hex userID Hlen). unfold time.Before.
  rewrite NewNumericDate_add_hours.
  destruct (now <? _); reflexivity.
Qed.

(** C3, as the code has it. For an identity of twelve bytes and a number
    of hours from 1 to 2562047 (so that the product with [time.Hour]
    fits the 64-bit [Duration]), [GenerateToken] returns a token whose
    expiry is the second of its first clock reading plus the hours and
    whose issue instant is the second of its second clock reading.
    [AuthRequired], with the same secret, passes the token on with that
    identity at every instant before the expiry and answers 401 at the
    expiry and after it. When the clock did not go back between the two
    readings, it answers 401 at the issue instant plus the hours and
    after it; when both readings fall in one second, it passes the
    token on at every instant before the issue instant plus the
    hours. *)
Theorem token_verifies_until_expiry (m : middleware.JwtMiddleware)
    (userID : ObjectID) (expiryHours : Z) (now0 now1 now : time.Time) :
  length userID = 12%nat ->
  0 < expiryHours <= 2562047 ->
  exists tokenString claims expiresAt issuedAt,
    middleware.GenerateToken m userID expiryHours now0 now1 = Some tokenString
    /\ jwt.parseCompact tokenString
       = Some ("HS256", claims, jwt.signingString "HS256" claims,
               jwt.hmacSum jwt.SHA256 (middleware.jwtSecret m)
                 (jwt.signingString "HS256" claims))
    /\ jwt.ExpiresAt (middleware.Registered claims) = Some expiresAt
    /\ jwt.IssuedAt (middleware.Registered claims) = Some issuedAt
    /\ jwt.NumericDate_Time expiresAt
       = jwt.NumericDate_Time (jwt.NewNumericDate now0) + expiryHours * time.Hour
    /\ issuedAt = jwt.NewNumericDate now1
    /\ (now < jwt.NumericDate_Time expiresAt ->
        middleware.AuthRequired m ("Bearer " +:+ tokenString) now
        = middleware.Next userID)
    /\ (jwt.NumericDate_Time expiresAt <= now ->
        middleware.AuthRequired m ("Bearer " +:+ tokenString) now
        = middleware.Abort http.StatusUnauthorized "Invalid or expired token")
    /\ (now0 <= now1 ->
        jwt.NumericDate_Time issuedAt + expiryHours * time.Hour <= now ->
        middleware.AuthRequired m ("Bearer " +:+ tokenString) now
        = middleware.Abort http.StatusUnauthorized "Invalid or expired token")
    /\ (jwt.NewNumericDate now0 = jwt.NewNumericDate now1 ->
        now < jwt.NumericDate_Time issuedAt + expiryHours * time.Hour ->
        middleware.AuthRequired m ("Bearer " +:+ tokenString) now
        = middleware.Next userID).
Proof.
  intros Hlen Hh.
  destruct (GenerateToken_signs m userID expiryHours now0 now1)
    as (claims & Huid & Hexp & Hnbf & Hiat & Hgen).
  rewrite hours_fit in Hexp by assumption.
  eexists _, claims, _, _.
  split; [exact Hgen|]. split; [apply jwt.parseCompact_compact|].
  split; [exact Hexp|]. split; [exact Hiat|].
  split; [apply NewNumericDate_add_hours|]. split; [reflexivity|].
  rewrite (AuthRequired_generated m userID expiryHours now0 now1 now _
             Hlen Hh Hgen).
  rewrite NewNumericDate_add_hours.
  assert (Hmono : now0 <= now1 ->
                  jwt.NumericDate_Time (jwt.NewNumericDate now0)
                  <= jwt.NumericDate_Time (jwt.NewNumericDate now1)).
  { intros Hle. unfold jwt.NumericDate_Time, jwt.NewNumericDate.
    apply Z.mul_le_mono_nonneg_r; [unfold time.Second; lia|].
    apply Z.div_le_mono; [unfold time.Second; lia|exact Hle]. }
  destruct (Z.ltb_spec now
      (jwt.NumericDate_Time (jwt.NewNumericDate now0) + expiryHours * time.Hour))
    as [Hlt|Hge].
  - split; [reflexivity|]. split; [lia|]. split; [|reflexivity].
    intros Hle Hpast. specialize (Hmono Hle). lia.
  - split; [lia|]. split; [reflexivity|]. split; [reflexivity|].
    intros Hsame Hbefore. rewrite Hsame in Hge. lia.
Qed.

(** From 2562048 hours on the product wraps around: with 2562048 the
    duration is negative and the token has expired when it is issued,
    whatever the encoding. *)
Lemma token_of_2562048_hours_is_expired (m : middleware.JwtMiddleware)
    (userID : ObjectID) (now0 now1 now : time.Time) :
  now0 <= now ->
  exists tokenString,
    middleware.GenerateToken m userID 2562048 now0 now1 = Some tokenString
    /\ middleware.AuthRequired m ("Bearer " +:+ tokenString) now
       = middleware.Abort http.StatusUnauthorized "Invalid or expired token".
Proof.
  intros Hnow.
  destruct (GenerateToken_signs m userID 2562048 now0 now1)
    as (claims & Huid & Hexp & Hnbf & Hiat & Hgen).
  eexists. split; [exact Hgen|].
  pose proof (AuthRequired_HMAC_signed m jwt.SHA256 claims now) as Hauth.
  change (jwt.Alg (jwt.SigningMethodHMAC jwt.SHA256)) with "HS256" in Hauth.
  rewrite Hauth. unfold jwt.Validate. rewrite Hexp.
  change (time.wrap64 (time.wrap64 2562048 * time.Hour))
    with (-9223371273709551616).
  unfold time.Before, jwt.NumericDate_Time, jwt.NewNumericDate, time.Add.
  destruct (Z.ltb_spec now ((now0 + -9223371273709551616) / time.Second * time.Second));
    [|reflexivity].
  exfalso.
  pose proof (Z.mul_div_le (now0 + -9223371273709551616) time.Second eq_refl).
  lia.
Qed.

End IssueVerify.

(** ** The reference encoding *)

Lemma unbin_bin (p : positive) : reference.unbin (reference.bin p) = Some p.
Proof. induction p as [q IH|q IH|]; simpl; rewrite ?IH; reflexivity. Qed.

Lemma Split_bin (p : positive) :
  strings.Split (reference.bin p) " " = [reference.bin p].
Proof. induction p as [q IH|q IH|]; simpl; rewrite ?IH; reflexivity. Qed.

Lemma tupleClaims_claimsTuple (c : middleware.TokenClaims) :
  reference.tupleClaims (reference.claimsTuple c) = c.
Proof. destruct c as [uid []]. reflexivity. Qed.

(** The reference encoding satisfies the laws. *)
Lemma reference_encoding_laws :
  @jwt.EncodingLaws middleware.TokenClaims reference.encoding.
Proof.
  split.
  - intros alg claims sig. cbn.
    unfold reference.refParseCompact, reference.refCompact.
    rewrite unbin_bin. cbn. rewrite decode_encode.
    unfold reference.refSigningString at 1.
    rewrite unbin_bin. cbn. rewrite decode_encode.
    rewrite tupleClaims_claimsTuple. reflexivity.
  - intros alg claims sig. cbn. apply Split_bin.
Qed.

Section IssueVerifyExamples.
Import reference.

(** A day's token of [alice], a second after it was issued. *)
Lemma token_verifies_until_expiry_witness :
  exists tokenString,
    middleware.GenerateToken server alice 24 5000000000 5000000001
    = Some tokenString
    /\ middleware.AuthRequired server ("Bearer " +:+ tokenString) 6000000000
       = middleware.Next alice.
Proof.
  destruct (@token_verifies_until_expiry encoding reference_encoding_laws
              server alice 24 5000000000 5000000001 6000000000)
    as (tokenString & claims & expiresAt & issuedAt
        & Hgen & _ & _ & _ & Hexp & _ & Hbefore & _).
  - reflexivity.
  - lia.
  - exists tokenString. split; [exact Hgen|].
    apply Hbefore. rewrite Hexp. vm_compute. reflexivity.
Defined.

(** C3 as stated fails: a token issued for 2562048 hours is refused at
    the very instant it was issued, long before that instant plus the
    hours. *)
Lemma token_of_2562048_hours_counterexample :
  5000000000 < 5000000000 + 2562048 * time.Hour
  /\ exists tokenString,
       middleware.GenerateToken server alice 2562048 5000000000 5000000000
       = Some tokenString
       /\ middleware.AuthRequired server ("Bearer " +:+ tokenString) 5000000000
          = middleware.Abort http.StatusUnauthorized "Invalid or expired token".
Proof.
  split; [reflexivity|].
  eexists. split; [reflexivity|]. vm_compute. reflexivity.
Qed.

End IssueVerifyExamples.

(** ** The signing method of an accepted token *)

Section SigningMethod.
Import primitive.
Context `{Enc : jwt.Encoding middleware.TokenClaims}.

Lemma HMAC_names (alg : string) (h : jwt.Hash) :
  alg = jwt.Alg (jwt.SigningMethodHMAC h) ->
  In alg ["HS256"; "HS384"; "HS512"].
Proof. intros ->. destruct h; cbn; auto. Qed.

(** The key function gives the secret to the HMAC methods and to no
    other. *)
Lemma keyFunc_HMAC (m : middleware.JwtMiddleware)
    (token : jwt.Token middleware.TokenClaims) (key : string) :
  middleware.keyFunc m token = Some key ->
  key = middleware.jwtSecret m
  /\ exists h, jwt.Method token = jwt.SigningMethodHMAC h.
Proof.
  unfold middleware.keyFunc.
  destruct (jwt.Method token) as [h| | | | |]; try discriminate.
  intros Heq. injection Heq as <-. eauto.
Qed.

(** C8, as the code has it. [AuthRequired] passes a request on only
    when the algorithm named in the token's header is one of the HMAC
    family, HS256, HS384 or HS512, and the signature is the HMAC of
    that method under the server's secret; it answers 401 to a token
    whose header names any other algorithm. The method need not be the
    one [GenerateToken] signs with. *)
Theorem AuthRequired_accepts_HMAC_family_only
    (m : middleware.JwtMiddleware) (authHeader : string) (now : time.Time) :
  (forall userID,
     middleware.AuthRequired m authHeader now = middleware.Next userID ->
     exists tokenString alg claims text sig h,
       strings.Split authHeader " " = ["Bearer"; tokenString]
       /\ jwt.parseCompact tokenString = Some (alg, claims, text, sig)
       /\ jwt.GetSigningMethod alg = Some (jwt.SigningMethodHMAC h)
       /\ In alg ["HS256"; "HS384"; "HS512"]
       /\ jwt.hmacSum h (middleware.jwtSecret m) text = sig)
  /\ (forall tokenString alg claims text sig,
        strings.Split authHeader " " = ["Bearer"; tokenString] ->
        jwt.parseCompact tokenString = Some (alg, claims, text, sig) ->
        ~ In alg ["HS256"; "HS384"; "HS512"] ->
        middleware.AuthRequired m authHeader now
        = middleware.Abort http.StatusUnauthorized "Invalid or expired token").
Proof.
  split.
  - intros userID Hnext.
    destruct (AuthRequired_Next_inv m authHeader now userID Hnext)
      as (tokenString & token & Hsplit & _ & Hparse & _).
    unfold jwt.ParseWithClaims in Hparse.
    destruct (jwt.parseCompact tokenString) as [[[[alg claims] text] sig]|]
      eqn:Hdec; [|discriminate].
    destruct (jwt.GetSigningMethod alg) as [method|] eqn:Hmethod; [|discriminate].
    destruct (middleware.keyFunc m _) as [key|] eqn:Hkey; [|discriminate].
    apply keyFunc_HMAC in Hkey as [-> [h Hh]]. cbn in Hh. subst method.
    cbn [jwt.Verify] in Hparse.
    destruct (String.eqb_spec (jwt.hmacSum h (middleware.jwtSecret m) text) sig)
      as [Hsig|]; [|discriminate].
    exists tokenString, alg, claims, text, sig, h.
    repeat split; auto.
    exact (HMAC_names alg h (GetSigningMethod_Alg alg _ Hmethod)).
  - intros tokenString alg claims text sig Hsplit Hdec Halg.
    rewrite (AuthRequired_two_pieces m authHeader tokenString now Hsplit).
    unfold jwt.ParseWithClaims. rewrite Hdec.
    destruct (jwt.GetSigningMethod alg) as [method|] eqn:Hmethod; [|reflexivity].
    destruct (middleware.keyFunc m _) as [key|] eqn:Hkey; [|reflexivity].
    exfalso. apply Halg.
    apply keyFunc_HMAC in Hkey as [_ [h Hh]]. cbn in Hh. subst method.
    exact (HMAC_names alg h (GetSigningMethod_Alg alg _ Hmethod)).
Qed.

End SigningMethod.

Section SigningMethodExamples.
Import reference.

(** The token [GenerateToken] makes is accepted, and its method is one
    of the family. *)
Lemma AuthRequired_accepts_HMAC_family_only_witness :
  exists alg,
    In alg ["HS256"; "HS384"; "HS512"]
    /\ exists claims text sig,
         jwt.parseCompact
           (jwt.compact (jwt.signingString "HS256" aliceClaims)
              (jwt.hmacSum jwt.SHA256 (middleware.jwtSecret server)
                 (jwt.signingString "HS256" aliceClaims)))
         = Some (alg, claims, text, sig).
Proof.
  destruct (proj1 (@AuthRequired_accepts_HMAC_family_only encoding server
              ("Bearer " +:+
               jwt.compact (jwt.signingString "HS256" aliceClaims)
                 (jwt.hmacSum jwt.SHA256 (middleware.jwtSecret server)
                    (jwt.signingString "HS256" aliceClaims)))
              6000000000) alice)
    as (tokenString & alg & claims & text & sig & h
        & Hsplit & Hdec & _ & Halg & _).
  - vm_compute. reflexivity.
  - exists alg. split; [exact Halg|]. exists claims, text, sig.
    rewrite (Split_Bearer _ (jwt.compact_one_word (EncodingLaws := reference_encoding_laws) _ _ _))
      in Hsplit.
    injection Hsplit as <-. exact Hdec.
Defined.

(** C8 as stated fails: a token whose header names HS384, signed with
    HMAC-SHA384 under the server's secret, is accepted although
    [GenerateToken] signs with HS256. *)
Lemma HS384_token_counterexample :
  "HS384" <> jwt.Alg jwt.SigningMethodHS256
  /\ jwt.SignedString (jwt.NewWithClaims jwt.SigningMethodHS384 aliceClaims)
       (middleware.jwtSecret server)
     = Some (jwt.compact (jwt.signingString "HS384" aliceClaims)
               (jwt.hmacSum jwt.SHA384 (middleware.jwtSecret server)
                  (jwt.signingString "HS384" aliceClaims)))
  /\ jwt.parseCompact
       (jwt.compact (jwt.signingString "HS384" aliceClaims)
          (jwt.hmacSum jwt.SHA384 (middleware.jwtSecret server)
             (jwt.signingString "HS384" aliceClaims)))
     = Some ("HS384", aliceClaims, jwt.signingString "HS384" aliceClaims,
             jwt.hmacSum jwt.SHA384 (middleware.jwtSecret server)
               (jwt.signingString "HS384" aliceClaims))
  /\ middleware.AuthRequired server
       ("Bearer " +:+
        jwt.compact (jwt.signingString "HS384" aliceClaims)
          (jwt.hmacSum jwt.SHA384 (middleware.jwtSecret server)
             (jwt.signingString "HS384" aliceClaims)))
       6000000000
     = middleware.Next alice.
Proof.
  split; [discriminate|]. split; [reflexivity|].
  split; [apply (jwt.parseCompact_compact (EncodingLaws := reference_encoding_laws))|].
  vm_compute. reflexivity.
Qed.

End SigningMethodExamples.

Section OtherMethods.
Context `{Enc : jwt.Encoding middleware.TokenClaims}.
Context {Laws : @jwt.EncodingLaws middleware.TokenClaims Enc}.

(** Whatever the encoding, a token signed with HS384 or HS512 under the
    server's secret is accepted like one signed with HS256. *)
Lemma any_HMAC_method_is_accepted (m : middleware.JwtMiddleware) (h : jwt.Hash)
    (claims : middleware.TokenClaims) (now : time.Time)
    (userID : primitive.ObjectID) :
  jwt.Validate (middleware.Registered claims) now = None ->
  primitive.ObjectIDFromHex (middleware.UserID claims) = Some userID ->
  middleware.AuthRequired m
    ("Bearer " +:+
     jwt.compact (jwt.signingString (jwt.Alg (jwt.SigningMethodHMAC h)) claims)
       (jwt.hmacSum h (middleware.jwtSecret m)
          (jwt.signingString (jwt.Alg (jwt.SigningMethodHMAC h)) claims))) now
  = middleware.Next userID.
Proof. intros Hvalid Hid. rewrite AuthRequired_HMAC_signed, Hvalid, Hid. reflexivity. Qed.

End OtherMethods.

(** ** Updates *)

Section Updates.
Import primitive models documents handlers.

(** The keys of the update document. *)
Lemma updateDocument_dom (req : UpdateGoalRequest) (now : time.Time) :
  dom (updateDocument req now)
  ⊆ ({["title"; "description"; "startDate"; "endDate"; "completed"; "updatedAt"]}
     : gset string).
Proof.
  unfold updateDocument.
  destruct (negb (String.eqb (ug_Title req) ""));
    destruct (negb (String.eqb (ug_Description req) ""));
    destruct (negb (time.IsZero (ug_StartDate req)));
    destruct (ug_EndDate req);
    refine (bool_decide_unpack _ _); vm_compute; exact I.
Qed.

Lemma updateDocument_lookup_None (req : UpdateGoalRequest) (now : time.Time)
    (k : string) :
  k ∉ ({["title"; "description"; "startDate"; "endDate"; "completed"; "updatedAt"]}
       : gset string) ->
  updateDocument req now !! k = None.
Proof.
  intros Hk. apply not_elem_of_dom.
  intros Hin. apply Hk. exact (updateDocument_dom req now k Hin).
Qed.

(** What [$set] with the update document does to a stored goal: the
    four optional fields are written when the request gives them,
    [completed] and [updatedAt] are written always, the rest stays. The
    instants are written as BSON datetimes. *)
Lemma Goal_set_updateDocument (req : UpdateGoalRequest) (now : time.Time)
    (g0 : Goal) :
  Goal_set (updateDocument req now) g0
  = {| ID := ID g0;
       UserID := UserID g0;
       Title := if String.eqb (ug_Title req) "" then Title g0 else ug_Title req;
       Description := if String.eqb (ug_Description req) ""
                      then Description g0 else ug_Description req;
       SubTasks := SubTasks g0;
       StartDate := if time.IsZero (ug_StartDate req)
                    then StartDate g0 else storedTime (ug_StartDate req);
       EndDate := match ug_EndDate req with
                  | Some endDate => Some (storedTime endDate)
                  | None => EndDate g0
                  end;
       Completed := ug_Completed req;
       Progress := Progress g0;
       CreatedAt := CreatedAt g0;
       UpdatedAt := storedTime now |}.
Proof.
  unfold Goal_set, updateDocument.
  destruct (String.eqb (ug_Title req) "");
    destruct (String.eqb (ug_Description req) "");
    destruct (time.IsZero (ug_StartDate req));
    destruct (ug_EndDate req); reflexivity.
Qed.

Lemma find_split {A} (f : A -> bool) (l : list A) (x : A) :
  List.find f l = Some x ->
  exists l1 l2, l = l1 ++ x :: l2 /\ f x = true
                /\ forall y, y ∈ l1 -> f y = false.
Proof.
  induction l as [|a l IH]; simpl; [discriminate|].
  destruct (f a) eqn:Hfa.
  - intros Heq. injection Heq as <-. exists [], l.
    repeat split; auto. intros y Hy. inversion Hy.
  - intros Hfind. destruct (IH Hfind) as (l1 & l2 & -> & Hx & Hl1).
    exists (a :: l1), l2. repeat split; auto.
    intros y Hy. apply elem_of_cons in Hy as [->|Hy]; auto.
Qed.

Lemma find_first {A} (f : A -> bool) (l1 l2 : list A) (x : A) :
  (forall y, y ∈ l1 -> f y = false) -> f x = true ->
  List.find f (l1 ++ x :: l2) = Some x.
Proof.
  intros Hl1 Hx. induction l1 as [|a l1 IH]; simpl.
  - rewrite Hx. reflexivity.
  - rewrite (Hl1 a) by apply list_elem_of_here.
    apply IH. intros y Hy. apply Hl1. now apply list_elem_of_further.
Qed.

Lemma updateFirst_first (filter update : bson.M) (l1 l2 : list Goal) (g0 : Goal) :
  (forall y, y ∈ l1 -> mongo.matches filter y = false) ->
  mongo.matches filter g0 = true ->
  mongo.updateFirst filter update (l1 ++ g0 :: l2)
  = l1 ++ Goal_set update g0 :: l2.
Proof.
  intros Hl1 Hg0. induction l1 as [|a l1 IH]; simpl.
  - rewrite Hg0. reflexivity.
  - rewrite (Hl1 a) by apply list_elem_of_here. f_equal.
    apply IH. intros y Hy. apply Hl1. now apply list_elem_of_further.
Qed.

(** An update that leaves the owner of each goal alone leaves the
    owners of a collection alone. *)
Lemma updateFirst_owners (filter update : bson.M) (l : list Goal) :
  (forall d, UserID (Goal_set update d) = UserID d) ->
  UserID <$> mongo.updateFirst filter update l = UserID <$> l.
Proof.
  intros Hset. induction l as [|a l IH]; [reflexivity|]. simpl.
  destruct (mongo.matches filter a); rewrite !fmap_cons; [|rewrite IH]; auto.
  rewrite Hset. reflexivity.
Qed.

(** A successful [UpdateGoal]: the goal it wrote and returned. *)
Lemma UpdateGoal_success (h h' : GoalHandler) (c : gin.Context)
    (req : UpdateGoalRequest) (now : time.Time) (g : Goal) :
  UpdateGoal h c (gin.Bound req) now = (h', JSON http.StatusOK (GoalBody g)) ->
  exists goalID userID g0 l1 l2,
    ObjectIDFromHex (gin.Param_id c) = Some goalID
    /\ gin.userId c = Some userID
    /\ ID g0 = goalID /\ UserID g0 = userID
    /\ mongo.documents (goalCollection h) = l1 ++ g0 :: l2
    /\ mongo.documents (goalCollection h') = l1 ++ g :: l2
    /\ g = Goal_set (updateDocument req now) g0
    /\ (forall d, d ∈ l1 -> ~ (ID d = goalID /\ UserID d = userID)).
Proof.
  unfold UpdateGoal.
  destruct (ObjectIDFromHex (gin.Param_id c)) as [goalID|]; [|discriminate].
  destruct (gin.userId c) as [userID|]; [|discriminate].
  unfold mongo.UpdateOne, mongo.FindOne.
  destruct (mongo.reachable (goalCollection h)) eqn:Hup; [|discriminate].
  destruct (List.find _ (mongo.documents (goalCollection h))) as [g0|] eqn:Hfind;
    [|discriminate].
  cbn [Z.eqb mongo.reachable mongo.documents]. rewrite ?Hup.
  destruct (find_split _ _ _ Hfind) as (l1 & l2 & Hdocs & Hg0 & Hl1).
  rewrite Hdocs. rewrite (updateFirst_first _ _ l1 l2 g0 Hl1 Hg0).
  assert (Hstill : mongo.matches (ownedGoal goalID userID)
                     (Goal_set (updateDocument req now) g0) = true).
  { rewrite matches_ownedGoal in Hg0 |- *.
    rewrite Goal_set_updateDocument. exact Hg0. }
  rewrite (find_first _ l1 l2 _ Hl1 Hstill).
  intros Heq. injection Heq as <- <-.
  rewrite matches_ownedGoal in Hg0. apply bool_decide_eq_true in Hg0 as [Hid Hu].
  exists goalID, userID, g0, l1, l2. repeat split; auto.
  intros d Hd Hmatch. specialize (Hl1 d Hd).
  rewrite matches_ownedGoal in Hl1. apply bool_decide_eq_false in Hl1. auto.
Qed.

End Updates.

(** ** Unique ids *)

Section UniqueIds.
Import primitive models documents handlers.
Context `{validator.Library}.

Lemma updateFirst_ids (filter : bson.M) (req : UpdateGoalRequest)
    (now : time.Time) (l : list Goal) :
  ID <$> mongo.updateFirst filter (updateDocument req now) l = ID <$> l.
Proof.
  induction l as [|a l IH]; [reflexivity|]. simpl.
  destruct (mongo.matches filter a); rewrite !fmap_cons; [|rewrite IH]; auto.
Qed.

Lemma deleteFirst_sublist (filter : bson.M) (l : list Goal) :
  sublist (mongo.deleteFirst filter l) l.
Proof.
  induction l as [|a l IH]; simpl; [constructor|].
  destruct (mongo.matches filter a).
  - now apply sublist_cons.
  - now apply sublist_skip.
Qed.

Lemma existsb_id_false (newID : ObjectID) (l : list Goal) :
  existsb (fun e => mongo.fieldMatches e "_id" (bson.ObjectIDValue newID)) l
  = false ->
  newID ∉ ID <$> l.
Proof.
  induction l as [|a l IH]; simpl; [intros _ Hin; inversion Hin|].
  intros Hex. apply orb_false_iff in Hex as [Ha Hl].
  rewrite ?fmap_cons. apply not_elem_of_cons. split; [|now apply IH].
  unfold mongo.fieldMatches in Ha. cbn in Ha.
  now apply bool_decide_eq_false in Ha.
Qed.

(** X23. The ids of the stored goals stay distinct through every handler
    that writes: [InsertOne] refuses an id already stored, [UpdateOne]
    leaves the ids alone, [DeleteOne] only removes. *)
Lemma handlers_keep_ids_unique (h : GoalHandler) (c : gin.Context) :
  NoDup (ID <$> mongo.documents (goalCollection h)) ->
  (forall bound newID now,
     NoDup (ID <$> mongo.documents
                     (goalCollection (fst (CreateGoal h c bound newID now)))))
  /\ (forall bound now,
        NoDup (ID <$> mongo.documents
                        (goalCollection (fst (UpdateGoal h c bound now)))))
  /\ NoDup (ID <$> mongo.documents (goalCollection (fst (DeleteGoal h c)))).
Proof.
  intros Hnd. split; [|split].
  - intros bound newID now. unfold CreateGoal.
    destruct bound as [msg|req]; [exact Hnd|].
    destruct (validator.Struct _); [exact Hnd|].
    destruct (gin.userId c) as [userID|]; [|exact Hnd].
    unfold mongo.InsertOne.
    destruct (mongo.reachable (goalCollection h)); [|exact Hnd].
    cbn [mongo.field Goal_document Goal_field lookupField List.find fst snd
         String.eqb Ascii.eqb Bool.eqb].
    destruct (existsb _ _) eqn:Hex; [exact Hnd|].
    cbn [fst goalCollection mongo.documents ID].
    rewrite fmap_app. apply NoDup_app. split; [exact Hnd|]. split.
    + intros x Hx Hnew. apply list_elem_of_singleton in Hnew. subst x.
      exact (existsb_id_false newID _ Hex Hx).
    + apply NoDup_singleton.
  - intros bound now. unfold UpdateGoal.
    destruct (ObjectIDFromHex (gin.Param_id c)) as [goalID|]; [|exact Hnd].
    destruct (gin.userId c) as [userID|]; [|exact Hnd].
    destruct bound as [msg|req]; [exact Hnd|].
    unfold mongo.UpdateOne.
    destruct (mongo.reachable (goalCollection h)); [|exact Hnd].
    destruct (List.find _ _); [|exact Hnd].
    cbn [Z.eqb].
    destruct (mongo.FindOne _ _); cbn [fst goalCollection mongo.documents];
      rewrite updateFirst_ids; exact Hnd.
  - unfold DeleteGoal.
    destruct (ObjectIDFromHex (gin.Param_id c)) as [goalID|]; [|exact Hnd].
    destruct (gin.userId c) as [userID|]; [|exact Hnd].
    unfold mongo.DeleteOne.
    destruct (mongo.reachable (goalCollection h)); [|exact Hnd].
    destruct (List.find _ _); [|exact Hnd].
    cbn [Z.eqb fst goalCollection mongo.documents].
    apply (sublist_NoDup _ _ Hnd).
    apply fmap_sublist, deleteFirst_sublist.
Qed.

End UniqueIds.

(** ** What [UpdateGoal] writes *)

Section UpdateGoalFrame.
Import primitive models documents handlers.

(** C5, as the code has it. A successful [UpdateGoal] replaces one
    stored goal, the first that has the id of the path and the caller
    as its owner, and leaves the other documents as they are. Of the
    goal it writes [title], [description], [startDate] and [endDate]
    when the request gives a value that is not the zero value, and it
    always writes [completed], with the request's value ([false] when
    the body has none), and [updatedAt], with the current instant. The
    instants are written as BSON datetimes, so the goal read back and
    answered has them cut to the millisecond: for a current instant
    whose milliseconds fit 64 bits, [updatedAt] is at most that instant
    and less than a millisecond before it. The id, the owner, the
    subtasks, the progress and the creation instant keep their stored
    values. *)
Theorem UpdateGoal_writes_given_fields_completed_and_updatedAt
    (h h' : GoalHandler) (c : gin.Context) (req : UpdateGoalRequest)
    (now : time.Time) (g : Goal) :
  UpdateGoal h c (gin.Bound req) now = (h', JSON http.StatusOK (GoalBody g)) ->
  exists g0 l1 l2,
    ObjectIDFromHex (gin.Param_id c) = Some (ID g0)
    /\ gin.userId c = Some (UserID g0)
    /\ (forall d, d ∈ l1 -> ~ (ID d = ID g0 /\ UserID d = UserID g0))
    /\ mongo.documents (goalCollection h) = l1 ++ g0 :: l2
    /\ mongo.documents (goalCollection h') = l1 ++ g :: l2
    /\ Title g = (if String.eqb (ug_Title req) "" then Title g0 else ug_Title req)
    /\ Description g = (if String.eqb (ug_Description req) ""
                        then Description g0 else ug_Description req)
    /\ StartDate g = (if time.IsZero (ug_StartDate req)
                      then StartDate g0 else storedTime (ug_StartDate req))
    /\ EndDate g = match ug_EndDate req with
                   | Some endDate => Some (storedTime endDate)
                   | None => EndDate g0
                   end
    /\ Completed g = ug_Completed req
    /\ UpdatedAt g = storedTime now
    /\ (- 2 ^ 63 <= now / time.Millisecond < 2 ^ 63 ->
        UpdatedAt g = now / time.Millisecond * time.Millisecond
        /\ UpdatedAt g <= now < UpdatedAt g + time.Millisecond)
    /\ ID g = ID g0 /\ UserID g = UserID g0 /\ SubTasks g = SubTasks g0
    /\ Progress g = Progress g0 /\ CreatedAt g = CreatedAt g0.
Proof.
  intros Hok.
  destruct (UpdateGoal_success h h' c req now g Hok)
    as (goalID & userID & g0 & l1 & l2 & Hid & Hctx & <- & <- & Hdocs & Hdocs'
        & -> & Hfirst).
  exists g0, l1, l2. rewrite Goal_set_updateDocument in *.
  cbn [ID UserID Title Description StartDate EndDate Completed UpdatedAt
       SubTasks Progress CreatedAt].
  repeat split; auto.
  - now apply storedTime_cut.
  - now apply storedTime_bounds.
  - now apply storedTime_bounds.
Qed.

(** [alice] renames her goal, 2.000000001 seconds after the epoch. *)
Lemma UpdateGoal_writes_given_fields_witness :
  exists h' g,
    UpdateGoal reference.store reference.asAlice (gin.Bound reference.retitle)
      2000000001
    = (h', JSON http.StatusOK (GoalBody g))
    /\ Title g = "Learn Rocq"
    /\ Description g = Description reference.learnGo
    /\ UpdatedAt g = 2000000000.
Proof.
  eexists _, _. split; [reflexivity|].
  destruct (UpdateGoal_writes_given_fields_completed_and_updatedAt
              reference.store _ reference.asAlice reference.retitle 2000000001 _
              eq_refl)
    as (g0 & l1 & l2 & _ & _ & _ & Hdocs & _ & Ht & Hd & _ & _ & _ & Hu & _).
  destruct l1 as [|x [|y l1]]; [|discriminate Hdocs|discriminate Hdocs].
  injection Hdocs as <- _.
  split; [exact Ht|]. split; [exact Hd|exact Hu].
Defined.

(** C5 as stated fails: the stored goal is completed, the request gives
    a title and no [completed], and the update stores [completed:
    false]. *)
Lemma UpdateGoal_resets_completed_counterexample :
  mongo.documents (goalCollection reference.achievedStore)
  = [with_Completed true reference.learnGo]
  /\ Completed (with_Completed true reference.learnGo) = true
  /\ exists h' g,
       UpdateGoal reference.achievedStore reference.asAlice
         (gin.Bound reference.retitle) 2000
       = (h', JSON http.StatusOK (GoalBody g))
       /\ mongo.documents (goalCollection h') = [g]
       /\ Completed g = false.
Proof. repeat split. eexists _, _. repeat split. Qed.

End UpdateGoalFrame.

(** ** Ownership *)

Section Ownership.
Import primitive models documents handlers.
Context `{validator.Library}.

(** The two outcomes of [CreateGoal]: an error that leaves the
    collection as it is, or the new goal, owned by the identity of the
    context, appended to it as the store keeps it. *)
Lemma CreateGoal_outcomes (h : GoalHandler) (c : gin.Context)
    (bound : gin.Bind CreateGoalRequest) (newID : ObjectID) (now : time.Time) :
  (exists st msg, CreateGoal h c bound newID now = (h, JSON st (H_error msg)))
  \/ (exists userID req,
        gin.userId c = Some userID /\ bound = gin.Bound req
        /\ let goal := {| ID := newID; UserID := userID;
                           Title := cg_Title req;
                           Description := cg_Description req;
                           SubTasks := [];
                           StartDate := cg_StartDate req;
                           EndDate := cg_EndDate req;
                           Completed := false; Progress := 0%float;
                           CreatedAt := now; UpdatedAt := now |} in
           CreateGoal h c bound newID now
           = (mkGoalHandler
                (mongo.mkCollection
                   (mongo.documents (goalCollection h) ++ [Goal_stored goal])
                   (mongo.reachable (goalCollection h))),
              JSON http.StatusCreated (GoalBody goal))).
Proof.
  unfold CreateGoal. destruct bound as [msg|req]; [eauto|].
  destruct (validator.Struct _) as [msg|]; [eauto|].
  destruct (gin.userId c) as [userID|]; [|eauto].
  unfold mongo.InsertOne.
  destruct (mongo.reachable (goalCollection h)); [|eauto].
  cbn [mongo.field Goal_document Goal_field lookupField List.find fst snd
       String.eqb Ascii.eqb Bool.eqb].
  destruct (existsb _ _); [eauto|].
  right. exists userID, req. repeat split.
Qed.

(** [UpdateGoal] leaves the ids and the owners of all stored goals as
    they are, whatever the request and the outcome. *)
Lemma UpdateGoal_owners (h : GoalHandler) (c : gin.Context)
    (bound : gin.Bind UpdateGoalRequest) (now : time.Time) :
  UserID <$> mongo.documents (goalCollection (fst (UpdateGoal h c bound now)))
  = UserID <$> mongo.documents (goalCollection h).
Proof.
  unfold UpdateGoal.
  destruct (ObjectIDFromHex (gin.Param_id c)) as [goalID|]; [|reflexivity].
  destruct (gin.userId c) as [userID|]; [|reflexivity].
  destruct bound as [msg|req]; [reflexivity|].
  unfold mongo.UpdateOne.
  destruct (mongo.reachable (goalCollection h)); [|reflexivity].
  destruct (List.find _ _); [|reflexivity].
  cbn [Z.eqb].
  destruct (mongo.FindOne _ _); cbn [fst goalCollection mongo.documents];
    apply updateFirst_owners; intros stored; rewrite Goal_set_updateDocument;
    reflexivity.
Qed.

(** [DeleteGoal] removes at most one goal and leaves the others as they
    are. *)
Lemma DeleteGoal_sublist (h : GoalHandler) (c : gin.Context) :
  sublist (mongo.documents (goalCollection (fst (DeleteGoal h c))))
          (mongo.documents (goalCollection h)).
Proof.
  unfold DeleteGoal.
  destruct (ObjectIDFromHex (gin.Param_id c)) as [goalID|]; [|reflexivity].
  destruct (gin.userId c) as [userID|]; [|reflexivity].
  unfold mongo.DeleteOne.
  destruct (mongo.reachable (goalCollection h)); [|reflexivity].
  destruct (List.find _ _); [|reflexivity].
  cbn [Z.eqb fst goalCollection mongo.documents].
  apply deleteFirst_sublist.
Qed.

(** C10. The owner of a goal is the identity found in the request
    context when [CreateGoal] stored the goal, and the request body has
    no field for it: a successful [CreateGoal] leaves the owners of the
    stored goals as they are and adds one goal, owned by that identity;
    the update document of [UpdateGoal] has no key but
    [title], [description], [startDate], [endDate], [completed] and
    [updatedAt], in particular no [userId]; no call of [UpdateGoal]
    changes the owner of any stored goal; and [DeleteGoal] only
    removes. *)
Theorem owner_comes_from_context_and_is_never_updated :
  (forall h c bound newID now h' g,
     CreateGoal h c bound newID now = (h', JSON http.StatusCreated (GoalBody g)) ->
     gin.userId c = Some (UserID g)
     /\ UserID <$> mongo.documents (goalCollection h')
        = (UserID <$> mongo.documents (goalCollection h)) ++ [UserID g])
  /\ (forall req now,
        dom (updateDocument req now)
        ⊆ ({["title"; "description"; "startDate"; "endDate";
             "completed"; "updatedAt"]} : gset string)
        /\ updateDocument req now !! "userId" = None)
  /\ (forall h c bound now,
        UserID <$> mongo.documents (goalCollection (fst (UpdateGoal h c bound now)))
        = UserID <$> mongo.documents (goalCollection h))
  /\ (forall h c,
        sublist (mongo.documents (goalCollection (fst (DeleteGoal h c))))
                (mongo.documents (goalCollection h))).
Proof.
  split; [|split; [|split]]; [| | |exact DeleteGoal_sublist].
  - intros h c bound newID now h' g Hcreate.
    destruct (CreateGoal_outcomes h c bound newID now)
      as [(st & msg & Herr)|(userID & req & Hctx & _ & Hok)].
    + rewrite Herr in Hcreate. discriminate.
    + cbn zeta in Hok. rewrite Hok in Hcreate.
      injection Hcreate as <- <-. split; [exact Hctx|].
      cbn [goalCollection mongo.documents]. rewrite fmap_app. reflexivity.
  - intros req now. split; [apply updateDocument_dom|].
    apply updateDocument_lookup_None.
    refine (bool_decide_unpack _ _); vm_compute; exact I.
  - apply UpdateGoal_owners.
Qed.

End Ownership.

Section OwnershipExamples.
Import primitive models documents handlers reference.

(** [bob] creates a goal in the store that holds the goal of [alice]. *)
Lemma owner_comes_from_context_witness :
  exists h' g,
    CreateGoal store (gin.mkContext "" (Some bob))
      (gin.Bound (mkCreateGoalRequest "Read" "" time.zeroTime None))
      (repeat x02 12) 3000
    = (h', JSON http.StatusCreated (GoalBody g))
    /\ (gin.userId (gin.mkContext "" (Some bob)) = Some (UserID g)
        /\ UserID <$> mongo.documents (goalCollection h')
           = (UserID <$> mongo.documents (goalCollection store)) ++ [UserID g]).
Proof.
  eexists _, _. split; [reflexivity|].
  apply (proj1 (@owner_comes_from_context_and_is_never_updated validation)
           store (gin.mkContext "" (Some bob))
           (gin.Bound (mkCreateGoalRequest "Read" "" time.zeroTime None))
           (repeat x02 12) 3000).
  reflexivity.
Defined.

End OwnershipExamples.

(** ** The derived fields on the paths that return a goal *)

Section DerivedFields.
Import primitive models documents handlers.
Context `{validator.Library}.

Lemma GetGoal_returns_stored (h : GoalHandler) (c : gin.Context) (g : Goal) :
  GetGoal h c = JSON http.StatusOK (GoalBody g) ->
  g ∈ mongo.documents (goalCollection h).
Proof.
  unfold GetGoal.
  destruct (ObjectIDFromHex (gin.Param_id c)) as [goalID|]; [|discriminate].
  destruct (gin.userId c) as [userID|]; [|discriminate].
  unfold mongo.FindOne.
  destruct (mongo.reachable (goalCollection h)); [|discriminate].
  destruct (List.find _ _) as [d|] eqn:Hfind; [|discriminate].
  intros Heq. injection Heq as <-.
  apply find_some in Hfind as [Hin _]. now apply list_elem_of_In.
Qed.

Lemma ListGoals_returns_stored (h : GoalHandler) (c : gin.Context)
    (gs : list Goal) :
  ListGoals h c = JSON http.StatusOK (GoalsBody gs) ->
  forall g, g ∈ gs ->
    g ∈ mongo.documents (goalCollection h) /\ gin.userId c = Some (UserID g).
Proof.
  unfold ListGoals.
  destruct (gin.userId c) as [userID|]; [|discriminate].
  unfold mongo.Find.
  destruct (mongo.reachable (goalCollection h)); [|discriminate].
  intros Heq g Hg. injection Heq as <-.
  rewrite merge_sort_Permutation in Hg.
  apply list_elem_of_In, filter_In in Hg as [Hin Hmatch].
  rewrite matches_owner in Hmatch. apply bool_decide_eq_true in Hmatch as <-.
  split; [now apply list_elem_of_In|reflexivity].
Qed.

(** C2, as the code has it. No handler runs the Progress Engine.
    [CreateGoal] returns a goal without subtasks, with progress 0 and
    [completed] false, which is what the engine derives. [GetGoal] and
    [ListGoals] return stored goals, with the [completed] and [progress]
    that are stored. [UpdateGoal] returns the stored goal with the
    subtasks and the progress that were stored and with [completed] as
    the request gives it. *)
Theorem returned_goals_carry_stored_or_requested_values :
  (forall h c bound newID now h' g,
     CreateGoal h c bound newID now = (h', JSON http.StatusCreated (GoalBody g)) ->
     SubTasks g = [] /\ Progress g = 0%float /\ Completed g = false
     /\ derivedFromSubTasks g)
  /\ (forall h c g,
        GetGoal h c = JSON http.StatusOK (GoalBody g) ->
        g ∈ mongo.documents (goalCollection h))
  /\ (forall h c gs,
        ListGoals h c = JSON http.StatusOK (GoalsBody gs) ->
        forall g, g ∈ gs -> g ∈ mongo.documents (goalCollection h))
  /\ (forall h h' c req now g,
        UpdateGoal h c (gin.Bound req) now
        = (h', JSON http.StatusOK (GoalBody g)) ->
        exists g0,
          g0 ∈ mongo.documents (goalCollection h)
          /\ SubTasks g = SubTasks g0
          /\ Progress g = Progress g0
          /\ Completed g = ug_Completed req).
Proof.
  split; [|split; [|split]].
  - intros h c bound newID now h' g Hcreate.
    destruct (CreateGoal_outcomes h c bound newID now)
      as [(st & msg & Herr)|(userID & req & _ & _ & Hok)].
    + rewrite Herr in Hcreate. discriminate.
    + cbn zeta in Hok. rewrite Hok in Hcreate. injection Hcreate as _ <-.
      repeat split.
  - exact GetGoal_returns_stored.
  - intros h c gs Hlist g Hg.
    exact (proj1 (ListGoals_returns_stored h c gs Hlist g Hg)).
  - intros h h' c req now g Hok.
    destruct (UpdateGoal_success h h' c req now g Hok)
      as (goalID & userID & g0 & l1 & l2 & _ & _ & _ & _ & Hdocs & _ & -> & _).
    exists g0. rewrite Goal_set_updateDocument.
    split; [|repeat split].
    rewrite Hdocs. apply elem_of_app. right. apply list_elem_of_here.
Qed.

End DerivedFields.

Section DerivedFieldsExamples.
Import primitive models documents handlers reference.

(** [alice] reads her goal: it is the stored one. *)
Lemma returned_goals_carry_stored_values_witness :
  GetGoal store asAlice = JSON http.StatusOK (GoalBody learnGo)
  /\ learnGo ∈ mongo.documents (goalCollection store).
Proof.
  split; [reflexivity|].
  apply (proj1 (proj2 (@returned_goals_carry_stored_or_requested_values validation))
           store asAlice learnGo).
  reflexivity.
Defined.

(** [ListGoals] gives the caller's goals, the newest first. *)
Example ListGoals_newest_first :
  ListGoals
    (NewGoalHandler
       (mongo.mkCollection
          [learnGo;
           mkGoal (repeat x02 12) bob "Read" "" [] time.zeroTime None false
                  0%float 1500000000 1500000000;
           mkGoal (repeat x03 12) alice "Write" "" [] time.zeroTime None false
                  0%float 2000000000 2000000000]
          true))
    asAlice
  = JSON http.StatusOK
      (GoalsBody
         [mkGoal (repeat x03 12) alice "Write" "" [] time.zeroTime None false
                 0%float 2000000000 2000000000;
          learnGo]).
Proof. vm_compute. reflexivity. Qed.

(** C2 as stated fails: [alice] sends [completed: true] for her goal
    without subtasks; [UpdateGoal], and [GetGoal] after it, return the
    goal with [completed] true, where the engine answers [false]. *)
Lemma UpdateGoal_returns_requested_completed_counterexample :
  exists h' g,
    UpdateGoal store asAlice (gin.Bound complete) 2000
    = (h', JSON http.StatusOK (GoalBody g))
    /\ GetGoal h' asAlice = JSON http.StatusOK (GoalBody g)
    /\ SubTasks g = []
    /\ Completed g = true
    /\ snd (IsCompleted g) = false
    /\ ~ derivedFromSubTasks g.
Proof.
  eexists _, _. split; [reflexivity|]. split; [reflexivity|].
  split; [reflexivity|]. split; [reflexivity|]. split; [reflexivity|].
  intros [_ Hc]. discriminate Hc.
Qed.

End DerivedFieldsExamples.

(** ** Login failures *)

Section LoginFailures.
Import primitive models documents handlers.
Context `{validator.Library} `{Bcrypt} `{jwt.Encoding middleware.TokenClaims}.

(** The filter of [Login] selects on the address. *)
Lemma matches_email (address : string) (u : User) :
  mongo.matches (<["email" := bson.StringValue address]> ∅) u
  = String.eqb address (User_Email u).
Proof.
  unfold mongo.matches.
  destruct (String.eqb address (User_Email u)) eqn:Heq.
  - apply bool_decide_eq_true. rewrite map_Forall_insert by reflexivity.
    split; [|apply map_Forall_empty].
    unfold mongo.fieldMatches. cbn. rewrite Heq. exact I.
  - apply bool_decide_eq_false. rewrite map_Forall_insert by reflexivity.
    intros [Hm _]. unfold mongo.fieldMatches in Hm. cbn in Hm.
    rewrite Heq in Hm. exact Hm.
Qed.

(** C7. Once the request has passed validation, [Login] gives one and
    the same answer, 401 with the message "Invalid email or password",
    when no user record has the address and when the record found has
    a hash the password does not match. *)
Theorem Login_failures_are_indistinguishable (h : AuthHandler)
    (req : LoginRequest) (now0 now1 : time.Time) :
  validator.Struct
    [("Email", lr_Email req, [validator.required; validator.email]);
     ("Password", lr_Password req, [validator.required])] = None ->
  ((forall u, u ∈ mongo.documents (userCollection h) ->
              User_Email u <> lr_Email req) ->
   Login h (gin.Bound req) now0 now1
   = JSON http.StatusUnauthorized (H_error "Invalid email or password"))
  /\ (forall u,
        mongo.FindOne (userCollection h)
          (<["email" := bson.StringValue (lr_Email req)]> ∅) = mongo.Decoded u ->
        ComparePassword u (lr_Password req) = false ->
        Login h (gin.Bound req) now0 now1
        = JSON http.StatusUnauthorized (H_error "Invalid email or password")).
Proof.
  intros Hvalid. unfold Login. rewrite Hvalid. split.
  - intros Hnone. unfold mongo.FindOne.
    destruct (mongo.reachable (userCollection h)); [|reflexivity].
    replace (List.find _ (mongo.documents (userCollection h))) with (@None User);
      [reflexivity|].
    symmetry. apply find_none_iff. intros u Hu. rewrite matches_email.
    apply String.eqb_neq. intros Heq. exact (Hnone u Hu (eq_sym Heq)).
  - intros u Hfound Hwrong. rewrite Hfound, Hwrong. reflexivity.
Qed.

(** The record [FindOne] decodes has the address of the filter. *)
Lemma FindOne_email (c : mongo.Collection User) (address : string) (u : User) :
  mongo.FindOne c (<["email" := bson.StringValue address]> ∅) = mongo.Decoded u ->
  u ∈ mongo.documents c /\ User_Email u = address.
Proof.
  unfold mongo.FindOne. destruct (mongo.reachable c); [|discriminate].
  destruct (List.find _ _) as [d|] eqn:Hfind; [|discriminate].
  intros Heq. injection Heq as ->.
  apply find_some in Hfind as [Hin Hm]. rewrite matches_email in Hm.
  apply String.eqb_eq in Hm. split; [now apply list_elem_of_In|auto].
Qed.

End LoginFailures.

Section LoginFailuresExamples.
Import primitive models documents handlers reference.

(** An unknown address and a wrong password for a known one. *)
Lemma Login_failures_are_indistinguishable_witness :
  Login registry (gin.Bound (mkLoginRequest "b@x.com" "secret1")) 0 0
  = JSON http.StatusUnauthorized (H_error "Invalid email or password")
  /\ Login registry (gin.Bound (mkLoginRequest "a@x.com" "secret2")) 0 0
     = JSON http.StatusUnauthorized (H_error "Invalid email or password").
Proof.
  split.
  - apply (proj1 (@Login_failures_are_indistinguishable validation bcrypt encoding
                    registry (mkLoginRequest "b@x.com" "secret1") 0 0 eq_refl)).
    intros u Hu. apply list_elem_of_singleton in Hu as ->. discriminate.
  - apply (proj2 (@Login_failures_are_indistinguishable validation bcrypt encoding
                    registry (mkLoginRequest "a@x.com" "secret2") 0 0 eq_refl)
             aliceUser); reflexivity.
Defined.

(** The right password is accepted. *)
Example Login_alice :
  status (Login registry (gin.Bound (mkLoginRequest "a@x.com" "secret1")) 0 0)
  = http.StatusOK.
Proof. vm_compute. reflexivity. Qed.

End LoginFailuresExamples.

(** ** The password hash and the outward representations *)

Section PasswordHash.
Import primitive models documents handlers.

Lemma names_JObject_app (l1 l2 : list (string * JSONValue)) :
  names (JObject (l1 ++ l2)) = names (JObject l1) ++ names (JObject l2).
Proof. cbn. apply flat_map_app. Qed.

Lemma names_omitempty (name s : string) :
  incl (names (JObject (omitempty name s))) [name].
Proof.
  unfold omitempty. destruct (String.eqb s ""); cbn; intros x Hx; cbn in *; tauto.
Qed.

Lemma names_omitnil (name : string) (t : option time.Time) :
  incl (names (JObject (omitnil name t))) [name].
Proof. destruct t; cbn; intros x Hx; cbn in *; tauto. Qed.

Ltac names_of_object :=
  repeat rewrite names_JObject_app;
  repeat rewrite in_app_iff;
  repeat match goal with
         | |- context [names (JObject (omitempty ?n ?s))] =>
             let Hn := fresh "Hn" in
             pose proof (names_omitempty n s "password") as Hn;
             generalize dependent (names (JObject (omitempty n s)))
         | |- context [names (JObject (omitnil ?n ?t))] =>
             let Hn := fresh "Hn" in
             pose proof (names_omitnil n t "password") as Hn;
             generalize dependent (names (JObject (omitnil n t)))
         end.

Ltac no_password Hin :=
  repeat (rewrite in_app_iff in Hin || cbn [In] in Hin);
  repeat match goal with
         | H : _ \/ _ |- _ => destruct H
         | H : False |- _ => destruct H
         | H : _ = "password" |- _ => discriminate H
         | H1 : In "password" ?l -> _, H2 : In "password" ?l |- _ =>
             specialize (H1 H2); cbn [In] in H1
         | H1 : ~ In "password" ?l, H2 : In "password" ?l |- _ =>
             destruct (H1 H2)
         end.

Lemma no_password_in_SubTask_json (t : SubTask) :
  ~ In "password" (names (SubTask_json t)).
Proof.
  unfold SubTask_json. names_of_object. cbn. intros l2 H2 l1 H1 Hin.
  no_password Hin.
Qed.

Lemma no_password_in_SubTasks (tasks : list SubTask) :
  ~ In "password" (names (JArray (List.map SubTask_json tasks))).
Proof.
  induction tasks as [|t rest IH]; [intros []|].
  cbn [List.map names flat_map]. rewrite in_app_iff. intros [Ht|Hrest].
  - exact (no_password_in_SubTask_json t Ht).
  - exact (IH Hrest).
Qed.

Lemma no_password_in_Goal_json (g : Goal) :
  ~ In "password" (names (Goal_json g)).
Proof.
  unfold Goal_json. names_of_object.
  pose proof (no_password_in_SubTasks (SubTasks g)) as Htasks.
  cbn [names flat_map fst snd app] in *.
  generalize dependent (flat_map names (List.map SubTask_json (SubTasks g))).
  intros tasks Htasks l2 H2 l1 H1 Hin. no_password Hin.
Qed.

Lemma no_password_in_UserResponse_json (r : UserResponse) :
  ~ In "password" (names (UserResponse_json r)).
Proof.
  unfold UserResponse_json. names_of_object. cbn. intros l2 H2 l1 H1 Hin.
  no_password Hin.
Qed.

Lemma no_password_in_User_json (u : User) :
  ~ In "password" (names (User_json u)).
Proof.
  unfold User_json. names_of_object. cbn. intros l2 H2 l1 H1 Hin.
  no_password Hin.
Qed.

(** No response body has a member named "password", at any depth. *)
Lemma no_password_in_Body_json (b : Body) :
  ~ In "password" (names (Body_json b)).
Proof.
  destruct b as [msg|msg|g|gs|r]; cbn [Body_json].
  - cbn. intuition discriminate.
  - cbn. intuition discriminate.
  - apply no_password_in_Goal_json.
  - assert (Harray : ~ In "password" (names (JArray (List.map Goal_json gs)))).
    { induction gs as [|g rest IH]; [intros []|].
      cbn [List.map names flat_map]. rewrite in_app_iff. intros [Hg|Hrest].
      + exact (no_password_in_Goal_json g Hg).
      + exact (IH Hrest). }
    destruct gs; [intros []|exact Harray].
  - pose proof (no_password_in_UserResponse_json (ar_User r)) as Huser.
    cbn [names flat_map fst snd]. rewrite app_nil_r. intros Hin.
    no_password Hin.
Qed.

Section Responses.
Context `{validator.Library} `{Bcrypt} `{jwt.Encoding middleware.TokenClaims}.

(** A successful [Register]: the record stored, as the store keeps
    it, and the body returned. *)
Lemma Register_success (h h' : AuthHandler) (bound : gin.Bind RegisterRequest)
    (newID : ObjectID) (now now0 now1 : time.Time) (st : Z) (r : AuthResponse) :
  Register h bound newID now now0 now1 = (h', JSON st (AuthBody r)) ->
  exists req hashedPassword,
    bound = gin.Bound req
    /\ GenerateFromPassword (rr_Password req) DefaultCost = Some hashedPassword
    /\ let user := {| User_ID := newID;
                       User_Username := rr_Username req;
                       User_Email := rr_Email req;
                       User_Password := hashedPassword;
                       User_FirstName := rr_FirstName req;
                       User_LastName := rr_LastName req;
                       User_CreatedAt := now;
                       User_UpdatedAt := now |} in
       mongo.documents (userCollection h')
       = mongo.documents (userCollection h) ++ [User_stored user]
       /\ ar_User r = ToResponse user
       /\ middleware.GenerateToken (jwtMiddleware h) newID 24 now0 now1
          = Some (ar_Token r).
Proof.
  unfold Register. destruct bound as [msg|req]; [discriminate|].
  destruct (validator.Struct _); [discriminate|].
  destruct (found _); [discriminate|]. destruct (found _); [discriminate|].
  unfold HashPassword. cbn [User_Password].
  destruct (GenerateFromPassword (rr_Password req) DefaultCost)
    as [hashedPassword|] eqn:Hhash; [|discriminate].
  unfold mongo.InsertOne.
  destruct (mongo.reachable (userCollection h)); [|discriminate].
  cbn [mongo.field User_document User_field lookupField List.find fst snd
       String.eqb Ascii.eqb Bool.eqb with_Password User_ID].
  destruct (existsb _ _); [discriminate|].
  destruct (middleware.GenerateToken _ _ _ _ _) as [token|] eqn:Htoken;
    [|discriminate].
  intros Heq. injection Heq as <- _ <-.
  exists req, hashedPassword.
  split; [reflexivity|]. split; [exact Hhash|]. cbn zeta.
  split; [reflexivity|]. split; reflexivity.
Qed.

(** A successful [Login]: the record found and the body returned. *)
Lemma Login_success (h : AuthHandler) (bound : gin.Bind LoginRequest)
    (now0 now1 : time.Time) (st : Z) (r : AuthResponse) :
  Login h bound now0 now1 = JSON st (AuthBody r) ->
  exists user,
    user ∈ mongo.documents (userCollection h)
    /\ ar_User r = ToResponse user
    /\ middleware.GenerateToken (jwtMiddleware h) (User_ID user) 24 now0 now1
       = Some (ar_Token r)
    /\ exists req, bound = gin.Bound req /\ User_Email user = lr_Email req.
Proof.
  unfold Login. destruct bound as [msg|req]; [discriminate|].
  destruct (validator.Struct _); [discriminate|].
  destruct (mongo.FindOne _ _) as [user| |] eqn:Hfind; try discriminate.
  destruct (negb _); [discriminate|].
  destruct (middleware.GenerateToken _ _ _ _ _) as [token|] eqn:Htoken;
    [|discriminate].
  intros Heq. injection Heq as _ <-.
  exists user. apply FindOne_email in Hfind as [Hin Hemail].
  repeat split; auto. exists req. split; [reflexivity|exact Hemail].
Qed.

(** C9. The user part of a response is made by [ToResponse], which does
    not read the [Password] field; the JSON of a [User] itself leaves
    the field out; no body of any response has a member named
    "password"; the body of a successful [Register] is the token for
    the new id together with that id, the names and the address of the
    request and the instant of creation, where the hash has no part;
    and the body of a successful [Login] is the token for the id of a
    stored record, the one [FindOne] gave for the address of the
    request, together with [ToResponse] of that record, so it is the
    same whatever the hash. *)
Theorem password_hash_is_never_serialised :
  (forall u p, ToResponse (with_Password p u) = ToResponse u)
  /\ (forall u p, User_json (with_Password p u) = User_json u)
  /\ (forall u, ~ In "password" (names (User_json u)))
  /\ (forall b, ~ In "password" (names (Body_json b)))
  /\ (forall h h' bound newID now now0 now1 st r,
        Register h bound newID now now0 now1 = (h', JSON st (AuthBody r)) ->
        exists req,
          bound = gin.Bound req
          /\ ar_User r
             = {| UR_ID := newID;
                  UR_Username := rr_Username req;
                  UR_Email := rr_Email req;
                  UR_FirstName := rr_FirstName req;
                  UR_LastName := rr_LastName req;
                  UR_CreatedAt := now |}
          /\ Body_json (AuthBody r)
             = JObject [("token", JString (ar_Token r));
                        ("user",
                         JObject ([("id", JString (Hex newID));
                                   ("username", JString (rr_Username req));
                                   ("email", JString (rr_Email req))]
                                  ++ omitempty "firstName" (rr_FirstName req)
                                  ++ omitempty "lastName" (rr_LastName req)
                                  ++ [("createdAt", JTime now)]))]
          /\ middleware.GenerateToken (jwtMiddleware h) newID 24
                now0 now1 = Some (ar_Token r))
  /\ (forall h bound now0 now1 st r,
        Login h bound now0 now1 = JSON st (AuthBody r) ->
        exists user,
          user ∈ mongo.documents (userCollection h)
          /\ (forall p,
                Body_json (AuthBody r)
                = JObject [("token", JString (ar_Token r));
                           ("user", UserResponse_json
                                      (ToResponse (with_Password p user)))])
          /\ middleware.GenerateToken (jwtMiddleware h) (User_ID user) 24
                now0 now1 = Some (ar_Token r)
          /\ ar_User r = ToResponse user
          /\ exists req, bound = gin.Bound req /\ User_Email user = lr_Email req).
Proof.
  split; [reflexivity|]. split; [reflexivity|].
  split; [exact no_password_in_User_json|].
  split; [exact no_password_in_Body_json|]. split.
  - intros h h' bound newID now now0 now1 st r Hreg.
    destruct (Register_success h h' bound newID now now0 now1 st r Hreg)
      as (req & hashed & Hbound & _ & _ & Huser & Htoken).
    exists req. split; [exact Hbound|]. split; [exact Huser|].
    split; [|exact Htoken].
    cbn [Body_json]. rewrite Huser. reflexivity.
  - intros h bound now0 now1 st r Hlogin.
    destruct (Login_success h bound now0 now1 st r Hlogin)
      as (user & Hin & Huser & Htoken & Hreq).
    exists user. split; [exact Hin|].
    split; [|split; [exact Htoken|split; [exact Huser|exact Hreq]]].
    intros p. cbn [Body_json]. rewrite Huser. reflexivity.
Qed.

End Responses.

End PasswordHash.

Section PasswordHashExamples.
Import primitive models documents handlers reference.

(** [alice] logs in: the body is her token and her record without the
    hash. *)
Lemma password_hash_is_never_serialised_witness :
  exists token,
    Login registry (gin.Bound (mkLoginRequest "a@x.com" "secret1")) 0 0
    = JSON http.StatusOK (AuthBody (mkAuthResponse token (ToResponse aliceUser)))
    /\ exists user,
         user ∈ mongo.documents (userCollection registry)
         /\ (forall p,
               Body_json (AuthBody (mkAuthResponse token (ToResponse aliceUser)))
               = JObject [("token", JString token);
                          ("user", UserResponse_json
                                     (ToResponse (with_Password p user)))])
         /\ middleware.GenerateToken (jwtMiddleware registry) (User_ID user) 24 0 0
            = Some token
         /\ ToResponse aliceUser = ToResponse user
         /\ exists req,
              gin.Bound (mkLoginRequest "a@x.com" "secret1") = gin.Bound req
              /\ User_Email user = lr_Email req.
Proof.
  eexists. split; [vm_compute; reflexivity|].
  apply (proj2 (proj2 (proj2 (proj2 (proj2
           (@password_hash_is_never_serialised validation bcrypt encoding)))))
           registry (gin.Bound (mkLoginRequest "a@x.com" "secret1")) 0 0
           http.StatusOK).
  vm_compute. reflexivity.
Defined.

End PasswordHashExamples.

(** ** From the header to the store *)

Section EndToEnd.
Import primitive models documents handlers.
Context `{Val : validator.Library} `{Enc : jwt.Encoding middleware.TokenClaims}.
Context {Laws : @jwt.EncodingLaws middleware.TokenClaims Enc}.

(** A request without a valid token reaches no handler: the answer is
    the middleware's 401 and the collection is as before. *)
Lemma goalsGroup_unauthorized (m : middleware.JwtMiddleware) (h : GoalHandler)
    (authHeader : string) (authNow : time.Time) (route : GoalRoute)
    (newID : ObjectID) (now : time.Time) (msg : string) :
  middleware.AuthRequired m authHeader authNow
  = middleware.Abort http.StatusUnauthorized msg ->
  goalsGroup m h authHeader authNow route newID now
  = (h, JSON http.StatusUnauthorized (H_error msg)).
Proof. intros Habort. unfold goalsGroup. rewrite Habort. reflexivity. Qed.

(** X25. A goal created through the group is owned by the identity the
    middleware read from the token. *)
Lemma goalsGroup_create_owner (m : middleware.JwtMiddleware) (h h' : GoalHandler)
    (authHeader : string) (authNow : time.Time)
    (bound : gin.Bind CreateGoalRequest) (newID : ObjectID) (now : time.Time)
    (g : Goal) :
  goalsGroup m h authHeader authNow (POST_goals bound) newID now
  = (h', JSON http.StatusCreated (GoalBody g)) ->
  middleware.AuthRequired m authHeader authNow = middleware.Next (UserID g).
Proof.
  unfold goalsGroup.
  destruct (middleware.AuthRequired m authHeader authNow) as [st msg|userID];
    [discriminate|].
  intros Hcreate.
  destruct (CreateGoal_outcomes h (gin.mkContext "" (Some userID)) bound newID now)
    as [(st & msg & Herr)|(owner & req & Hctx & _ & Hok)].
  - rewrite Herr in Hcreate. discriminate.
  - cbn zeta in Hok. rewrite Hok in Hcreate. injection Hcreate as _ <-.
    cbn in Hctx. injection Hctx as ->. reflexivity.
Qed.

(** X26. The holder of a token issued to [caller] asks for, updates or
    deletes a goal of another owner: 404 each time, and nothing
    changes. *)
Lemma goalsGroup_owner_isolation (m : middleware.JwtMiddleware)
    (h : GoalHandler) (caller : ObjectID) (g : Goal) (tokenString : string)
    (now0 now1 authNow now : time.Time) (newID : ObjectID) :
  length caller = 12%nat -> length (ID g) = 12%nat ->
  middleware.GenerateToken m caller 24 now0 now1 = Some tokenString ->
  authNow < jwt.NumericDate_Time (jwt.NewNumericDate now0) + 24 * time.Hour ->
  mongo.reachable (goalCollection h) = true ->
  NoDup (ID <$> mongo.documents (goalCollection h)) ->
  g ∈ mongo.documents (goalCollection h) ->
  UserID g <> caller ->
  forall route,
    (route = GET_goal (Hex (ID g))
     \/ (exists req, route = PUT_goal (Hex (ID g)) (gin.Bound req))
     \/ route = DELETE_goal (Hex (ID g))) ->
    goalsGroup m h ("Bearer " +:+ tokenString) authNow route newID now
    = (h, JSON http.StatusNotFound (H_error "Goal not found")).
Proof.
  intros Hcaller Hgid Hgen Hfresh Hup Hnd Hg Howner route Hroute.
  unfold goalsGroup.
  rewrite (AuthRequired_generated m caller 24 now0 now1 authNow tokenString
             Hcaller ltac:(lia) Hgen).
  destruct (Z.ltb_spec authNow
              (jwt.NumericDate_Time (jwt.NewNumericDate now0) + 24 * time.Hour));
    [|lia].
  destruct (by_id_not_found h (gin.mkContext (Hex (ID g)) (Some caller))
              (ID g) caller Hup)
    as (Hget & Hput & Hdel).
  - cbn. now apply ObjectIDFromHex_Hex.
  - reflexivity.
  - now apply find_other_owner.
  - destruct Hroute as [->|[[req ->]| ->]].
    + rewrite Hget. reflexivity.
    + apply Hput.
    + exact Hdel.
Qed.

End EndToEnd.

Section EndToEndExamples.
Import primitive models documents handlers reference.

(** The scenario of the specification: [alice] logs in and lists her
    goals; [bob], with a token of his own, asks for her goal. *)
Example scenario_alice_and_bob :
  exists aliceToken bobToken,
    body (Login registry (gin.Bound (mkLoginRequest "a@x.com" "secret1")) 0 0)
    = AuthBody (mkAuthResponse aliceToken (ToResponse aliceUser))
    /\ middleware.GenerateToken server bob 24 0 0 = Some bobToken
    /\ goalsGroup server store ("Bearer " +:+ aliceToken) 1000 GET_goals
         NilObjectID 1000
       = (store, JSON http.StatusOK (GoalsBody [learnGo]))
    /\ goalsGroup server store ("Bearer " +:+ bobToken) 1000
         (GET_goal (Hex goal1)) NilObjectID 1000
       = (store, JSON http.StatusNotFound (H_error "Goal not found"))
    /\ goalsGroup server store bobToken 1000
         (GET_goal (Hex goal1)) NilObjectID 1000
       = (store, JSON http.StatusUnauthorized
                   (H_error "Authorization header format must be Bearer {token}")).
Proof.
  eexists _, _. split; [vm_compute; reflexivity|]. split; [reflexivity|].
  split; [vm_compute; reflexivity|]. split; vm_compute; reflexivity.
Qed.

(** The header of a valid token of [alice] is of the required shape. *)
Lemma AuthRequired_requires_Bearer_witness :
  exists tokenString token,
    strings.Split
      ("Bearer " +:+
       jwt.compact (jwt.signingString "HS256" aliceClaims)
         (jwt.hmacSum jwt.SHA256 (middleware.jwtSecret server)
            (jwt.signingString "HS256" aliceClaims))) " "
    = ["Bearer"; tokenString]
    /\ "Bearer " +:+
       jwt.compact (jwt.signingString "HS256" aliceClaims)
         (jwt.hmacSum jwt.SHA256 (middleware.jwtSecret server)
            (jwt.signingString "HS256" aliceClaims))
       = "Bearer " +:+ tokenString
    /\ jwt.ParseWithClaims middleware.Registered tokenString
         (middleware.keyFunc server) 6000000000 = inr token
    /\ ObjectIDFromHex (middleware.UserID (jwt.TokenClaims_of token))
       = Some alice.
Proof.
  apply (proj1 (@AuthRequired_requires_Bearer_and_valid_token encoding server
                  ("Bearer " +:+
                   jwt.compact (jwt.signingString "HS256" aliceClaims)
                     (jwt.hmacSum jwt.SHA256 (middleware.jwtSecret server)
                        (jwt.signingString "HS256" aliceClaims)))
                  6000000000) alice).
  vm_compute. reflexivity.
Defined.

End EndToEndExamples.

(** * Further properties of the code *)

(** ** The two methods of [Goal] *)

Section GoalMethods.
Import primitive models.

(** X1. [CalculateProgress] followed by [IsCompleted] changes no field
    of the goal other than [Progress] and [Completed], and applying the
    pair a second time changes nothing more. *)
Theorem Recompute_frame_and_idempotence (g : Goal) :
  Recompute (Recompute g) = Recompute g
  /\ ID (Recompute g) = ID g
  /\ UserID (Recompute g) = UserID g
  /\ Title (Recompute g) = Title g
  /\ Description (Recompute g) = Description g
  /\ SubTasks (Recompute g) = SubTasks g
  /\ StartDate (Recompute g) = StartDate g
  /\ EndDate (Recompute g) = EndDate g
  /\ CreatedAt (Recompute g) = CreatedAt g
  /\ UpdatedAt (Recompute g) = UpdatedAt g.
Proof.
  split; [apply Recompute_idempotent|].
  rewrite Recompute_unfold. destruct (SubTasks g) eqn:E; cbn; rewrite ?E; repeat split.
Qed.

(** X2. [IsCompleted] answers [true] exactly when the goal has at least
    one subtask and every subtask is completed; whenever the goal has a
    subtask, the [Completed] field afterwards is the answer. *)
Theorem IsCompleted_true_iff (g : Goal) :
  (snd (IsCompleted g) = true
   <-> SubTasks g <> [] /\ Forall (fun t => st_Completed t = true) (SubTasks g))
  /\ (SubTasks g <> [] -> Completed (fst (IsCompleted g)) = snd (IsCompleted g)).
Proof.
  unfold IsCompleted. destruct (SubTasks g) as [|t rest] eqn:E.
  - cbn. split; [|intros []; reflexivity].
    split; [discriminate|intros [[] _]; reflexivity].
  - cbn [length Nat.eqb]. rewrite allCompleted_forallb.
    destruct (forallb st_Completed (t :: rest)) eqn:Hall; cbn [fst snd].
    + split; [|reflexivity]. split; [|reflexivity]. intros _.
      split; [discriminate|].
      apply Forall_forall. intros x Hx. apply list_elem_of_In in Hx.
      exact (proj1 (forallb_forall _ _) Hall x Hx).
    + split; [|reflexivity]. split; [discriminate|].
      intros [_ Hforall]. rewrite <- Hall.
      apply (proj2 (forallb_forall _ _)). intros x Hx.
      apply list_elem_of_In in Hx.
      exact (proj1 (Forall_forall _ _) Hforall x Hx).
Qed.

(** [CalculateProgress] changes the [Progress] field only: to 0 for a
    goal without subtasks, else to the [float64] quotient of the number
    of completed subtasks by the number of subtasks, times 100. *)
Lemma CalculateProgress_counts_completed (g : Goal) :
  CalculateProgress g
  = with_Progress
      (match SubTasks g with
       | [] => 0
       | _ => float64_of_int
                (Z.of_nat (length (List.filter st_Completed (SubTasks g))))
              / float64_of_int (Z.of_nat (length (SubTasks g))) * 100
       end)%float g.
Proof.
  unfold CalculateProgress. destruct (SubTasks g) as [|t rest] eqn:E;
    [reflexivity|].
  cbn [length Nat.eqb]. rewrite completedCount_filter. reflexivity.
Qed.

Lemma filter_Completed_Permutation (l l' : list SubTask) :
  l ≡ₚ l' ->
  length (List.filter st_Completed l) = length (List.filter st_Completed l').
Proof.
  induction 1 as [|x l l' _ IH|x y l|l l' l'' _ IH1 _ IH2]; cbn.
  - reflexivity.
  - destruct (st_Completed x); cbn; congruence.
  - destruct (st_Completed x), (st_Completed y); reflexivity.
  - congruence.
Qed.

Lemma forallb_Completed_Permutation (l l' : list SubTask) :
  l ≡ₚ l' -> forallb st_Completed l = forallb st_Completed l'.
Proof.
  induction 1 as [|x l l' _ IH|x y l|l l' l'' _ IH1 _ IH2]; cbn.
  - reflexivity.
  - now rewrite IH.
  - destruct (st_Completed x), (st_Completed y); reflexivity.
  - congruence.
Qed.

(** X3. The two derived fields do not depend on the order of the
    subtasks: two goals whose lists of subtasks are permutations of
    each other get the same progress and the same answer of
    [IsCompleted], and the same [Completed] when they have a
    subtask. *)
Theorem derived_fields_ignore_order (g g' : Goal) :
  SubTasks g ≡ₚ SubTasks g' ->
  Progress (CalculateProgress g) = Progress (CalculateProgress g')
  /\ snd (IsCompleted g) = snd (IsCompleted g')
  /\ (SubTasks g <> [] ->
      Completed (Recompute g) = Completed (Recompute g')).
Proof.
  intros Hperm.
  assert (Hnil : SubTasks g = [] <-> SubTasks g' = []).
  { split; intros Hn; rewrite Hn in Hperm;
      [|symmetry in Hperm]; now apply Permutation_nil in Hperm. }
  assert (Hsnd : snd (IsCompleted g) = snd (IsCompleted g')).
  { unfold IsCompleted. rewrite (Permutation_length Hperm).
    destruct (length (SubTasks g') =? 0)%nat; [reflexivity|].
    rewrite !allCompleted_forallb.
    rewrite (forallb_Completed_Permutation _ _ Hperm).
    destruct (forallb st_Completed (SubTasks g')); reflexivity. }
  split; [|split].
  - rewrite !CalculateProgress_counts_completed. cbn [with_Progress Progress].
    rewrite (filter_Completed_Permutation _ _ Hperm).
    rewrite (Permutation_length Hperm).
    destruct (SubTasks g) as [|t rest] eqn:E, (SubTasks g') as [|t' rest'] eqn:E';
      try reflexivity.
    + discriminate (proj1 Hnil eq_refl).
    + discriminate (proj2 Hnil eq_refl).
  - exact Hsnd.
  - intros Hne.
    assert (Hne' : SubTasks g' <> []) by (intros Hn; apply Hne, Hnil, Hn).
    rewrite !Recompute_unfold.
    destruct (SubTasks g) as [|t rest] eqn:E; [contradiction|].
    destruct (SubTasks g') as [|t' rest'] eqn:E'; [contradiction|].
    cbn [Completed with_Completed with_Progress].
    exact (forallb_Completed_Permutation _ _ Hperm).
Qed.

End GoalMethods.

(** ** Hashing and comparing a password *)

Section PasswordRoundTrip.
Import primitive models.
Context `{B : Bcrypt} {L : @bcryptlaws.Laws B}.

(** X4. When [HashPassword] succeeds, the user it leaves differs from
    the one it was given in the [Password] field only, which holds the
    hash bcrypt made, and [ComparePassword] accepts the password that
    was hashed. *)
Theorem HashPassword_then_ComparePassword (u u' : User) :
  HashPassword u = Some u' ->
  GenerateFromPassword (User_Password u) DefaultCost = Some (User_Password u')
  /\ u' = with_Password (User_Password u') u
  /\ ComparePassword u' (User_Password u) = true.
Proof.
  unfold HashPassword.
  destruct (GenerateFromPassword (User_Password u) DefaultCost)
    as [hashedPassword|] eqn:Hhash; [|discriminate].
  intros Heq. injection Heq as <-. cbn [with_Password User_Password].
  split; [reflexivity|]. split; [reflexivity|].
  unfold ComparePassword. cbn [User_Password].
  exact (bcryptlaws.compare_generated _ _ _ Hhash).
Qed.

End PasswordRoundTrip.

(** The stand-in hash compares equal with its password. *)
Lemma reference_bcrypt_laws : @bcryptlaws.Laws reference.bcrypt.
Proof.
  split. intros password cost hashedPassword Hgen. cbn in *.
  injection Hgen as <-. apply String.eqb_refl.
Qed.

Section PasswordRoundTripExamples.
Import primitive models reference.

Lemma HashPassword_then_ComparePassword_witness :
  ComparePassword aliceUser "secret1" = true.
Proof.
  apply (@HashPassword_then_ComparePassword bcrypt reference_bcrypt_laws
           (with_Password "secret1" aliceUser) aliceUser eq_refl).
Defined.

End PasswordRoundTripExamples.

Section GoalMethodsExamples.
Import primitive models reference.

Lemma derived_fields_ignore_order_witness :
  Progress (CalculateProgress (with_SubTasks [task true; task false] learnGo))
  = Progress (CalculateProgress (with_SubTasks [task false; task true] learnGo)).
Proof.
  apply (proj1 (derived_fields_ignore_order
                  (with_SubTasks [task true; task false] learnGo)
                  (with_SubTasks [task false; task true] learnGo)
                  (perm_swap _ _ _))).
Defined.

End GoalMethodsExamples.

(** ** Registration and login *)

Section Validation.
Context `{V : validator.Library}.

Lemma Var_nil (fieldName s : string) (tags : list validator.Tag) :
  validator.Var fieldName s tags = []
  <-> Forall (fun t => validator.holds t s = true) tags.
Proof.
  induction tags as [|t rest IH]; cbn.
  - split; [constructor|reflexivity].
  - destruct (validator.holds t s) eqn:Ht.
    + rewrite IH. split; [now constructor|]. intros Hall. now inversion Hall.
    + split; [discriminate|]. intros Hall. inversion Hall. congruence.
Qed.

(** [validate.Struct] returns a nil error exactly when every tag of
    every field holds. *)
Lemma Struct_None (fields : list (string * string * list validator.Tag)) :
  validator.Struct fields = None
  <-> Forall (fun f => Forall (fun t => validator.holds t (snd (fst f)) = true)
                              (snd f)) fields.
Proof.
  unfold validator.Struct.
  induction fields as [|f rest IH]; cbn [flat_map].
  - split; [constructor|reflexivity].
  - destruct (validator.Var (fst (fst f)) (snd (fst f)) (snd f)) as [|e es] eqn:Hvar.
    + cbn [app]. rewrite IH. apply Var_nil in Hvar.
      split; [now constructor|]. intros Hall. now inversion Hall.
    + cbn [app]. split; [discriminate|]. intros Hall. inversion Hall as [|? ? Hf _].
      apply (proj2 (Var_nil (fst (fst f)) _ _)) in Hf. congruence.
Qed.

End Validation.

Section Registration.
Import primitive models documents handlers.
Context `{V : validator.Library} `{B : Bcrypt}
        `{Enc : jwt.Encoding middleware.TokenClaims}.

(** The filter of the second check of [Register] selects on the user
    name. *)
Lemma matches_username (name : string) (u : User) :
  mongo.matches (<["username" := bson.StringValue name]> ∅) u
  = String.eqb name (User_Username u).
Proof.
  unfold mongo.matches.
  destruct (String.eqb name (User_Username u)) eqn:Heq.
  - apply bool_decide_eq_true. rewrite map_Forall_insert by reflexivity.
    split; [|apply map_Forall_empty].
    unfold mongo.fieldMatches. cbn. rewrite Heq. exact I.
  - apply bool_decide_eq_false. rewrite map_Forall_insert by reflexivity.
    intros [Hm _]. unfold mongo.fieldMatches in Hm. cbn in Hm.
    rewrite Heq in Hm. exact Hm.
Qed.

(** [GenerateToken] never returns an error. *)
Lemma GenerateToken_total (m : middleware.JwtMiddleware) (userID : ObjectID)
    (expiryHours : Z) (now0 now1 : time.Time) :
  exists token,
    middleware.GenerateToken m userID expiryHours now0 now1 = Some token.
Proof. eexists. reflexivity. Qed.

Lemma existsb_user_id_false (newID : ObjectID) (l : list User) :
  existsb (fun e => mongo.fieldMatches e "_id" (bson.ObjectIDValue newID)) l
  = false ->
  newID ∉ User_ID <$> l.
Proof.
  induction l as [|a l IH]; simpl; [intros _ Hin; inversion Hin|].
  intros Hex. apply orb_false_iff in Hex as [Ha Hl].
  rewrite ?fmap_cons. apply not_elem_of_cons. split; [|now apply IH].
  unfold mongo.fieldMatches in Ha. cbn in Ha.
  now apply bool_decide_eq_false in Ha.
Qed.

(** The paths of [Register]: an error that leaves the collection as it
    is, or the new record appended as the store keeps it. *)
Lemma Register_cases (h : AuthHandler) (bound : gin.Bind RegisterRequest)
    (newID : ObjectID) (now now0 now1 : time.Time) :
  (exists st msg,
     Register h bound newID now now0 now1 = (h, JSON st (H_error msg))
     /\ (st = http.StatusBadRequest \/ st = http.StatusConflict
         \/ st = http.StatusInternalServerError))
  \/ (exists req hashedPassword token,
        bound = gin.Bound req
        /\ validator.Struct
             [("Username", rr_Username req,
               [validator.required; validator.min 3; validator.max 30]);
              ("Email", rr_Email req, [validator.required; validator.email]);
              ("Password", rr_Password req,
               [validator.required; validator.min 6])] = None
        /\ GenerateFromPassword (rr_Password req) DefaultCost = Some hashedPassword
        /\ mongo.reachable (userCollection h) = true
        /\ (forall u, u ∈ mongo.documents (userCollection h) ->
                      User_Email u <> rr_Email req
                      /\ User_Username u <> rr_Username req
                      /\ User_ID u <> newID)
        /\ middleware.GenerateToken (jwtMiddleware h) newID 24 now0 now1
           = Some token
        /\ Register h bound newID now now0 now1
           = (mkAuthHandler
                (mongo.mkCollection
                   (mongo.documents (userCollection h)
                    ++ [User_stored
                          (built.registered req newID now hashedPassword)])
                   true)
                (jwtMiddleware h),
              JSON http.StatusCreated
                (AuthBody (mkAuthResponse token
                             (ToResponse
                                (built.registered req newID now hashedPassword)))))).
Proof.
  unfold Register. destruct bound as [msg|req]; [left; eauto 6|].
  destruct (validator.Struct _) as [msg|] eqn:Hvalid; [left; eauto 6|].
  unfold mongo.FindOne.
  destruct (mongo.reachable (userCollection h)) eqn:Hup.
  - destruct (List.find _ (mongo.documents (userCollection h))) as [u1|] eqn:Hemail;
      cbn [found]; [left; eauto 7|].
    destruct (List.find (mongo.matches (<["username" := _]> ∅))
                (mongo.documents (userCollection h))) as [u2|] eqn:Hname;
      cbn [found]; [left; eauto 7|].
    unfold HashPassword. cbn [User_Password].
    destruct (GenerateFromPassword (rr_Password req) DefaultCost)
      as [hashedPassword|] eqn:Hhash; [|left; eauto 7].
    unfold mongo.InsertOne. rewrite Hup.
    cbn [mongo.field User_document User_field lookupField List.find fst snd
         String.eqb Ascii.eqb Bool.eqb with_Password User_ID].
    destruct (existsb _ _) eqn:Hid; [left; eauto 7|].
    destruct (GenerateToken_total (jwtMiddleware h) newID 24 now0 now1)
      as [token Htoken].
    rewrite Htoken. right. exists req, hashedPassword, token.
    split; [reflexivity|]. split; [first [exact Hvalid|reflexivity]|].
    split; [first [exact Hhash|reflexivity]|].
    split; [first [exact Hup|reflexivity]|].
    split; [|split; [first [exact Htoken|reflexivity]|reflexivity]].
    intros u Hu. split; [|split].
    + intros Heq. pose proof (proj1 (find_none_iff _ _) Hemail u Hu) as Hm.
      rewrite matches_email, Heq, String.eqb_refl in Hm. discriminate.
    + intros Heq. pose proof (proj1 (find_none_iff _ _) Hname u Hu) as Hm.
      rewrite matches_username, Heq, String.eqb_refl in Hm. discriminate.
    + intros Heq. apply (existsb_user_id_false newID _ Hid).
      rewrite <- Heq. apply list_elem_of_fmap. eauto.
  - cbn [found]. unfold HashPassword. cbn [User_Password].
    destruct (GenerateFromPassword (rr_Password req) DefaultCost)
      as [hashedPassword|] eqn:Hhash; [|left; eauto 7].
    unfold mongo.InsertOne. rewrite Hup. left. eauto 7.
Qed.

End Registration.

Section RegistrationProperties.
Import primitive models documents handlers.
Context `{V : validator.Library} `{B : Bcrypt}
        `{Enc : jwt.Encoding middleware.TokenClaims}.

Lemma find_is_Some {A} (f : A -> bool) (l : list A) (x : A) :
  x ∈ l -> f x = true -> exists y, List.find f l = Some y.
Proof.
  intros Hx Hfx. destruct (List.find f l) as [y|] eqn:Hfind; [eauto|].
  rewrite (proj1 (find_none_iff f l) Hfind x Hx) in Hfx. discriminate.
Qed.

(** What a request that passed the validation of [Register] satisfies. *)
Lemma Register_validated (req : RegisterRequest) :
  validator.Struct
    [("Username", rr_Username req,
      [validator.required; validator.min 3; validator.max 30]);
     ("Email", rr_Email req, [validator.required; validator.email]);
     ("Password", rr_Password req,
      [validator.required; validator.min 6])] = None ->
  rr_Username req <> ""
  /\ 3 <= validator.RuneCountInString (rr_Username req) <= 30
  /\ rr_Email req <> ""
  /\ validator.isEmail (rr_Email req) = true
  /\ rr_Password req <> ""
  /\ 6 <= validator.RuneCountInString (rr_Password req).
Proof.
  intros Hvalid. apply Struct_None in Hvalid.
  inversion Hvalid as [|? ? Hu Hrest]; subst.
  inversion Hrest as [|? ? He Hrest']; subst.
  inversion Hrest' as [|? ? Hp _]; subst. cbn [fst snd] in *.
  inversion Hu as [|? ? Hu1 Hu']; subst.
  inversion Hu' as [|? ? Hu2 Hu'']; subst.
  inversion Hu'' as [|? ? Hu3 _]; subst.
  inversion He as [|? ? He1 He']; subst.
  inversion He' as [|? ? He2 _]; subst.
  inversion Hp as [|? ? Hp1 Hp']; subst.
  inversion Hp' as [|? ? Hp2 _]; subst.
  cbn [validator.holds] in *.
  apply negb_true_iff, String.eqb_neq in Hu1, He1, Hp1.
  apply Z.leb_le in Hu2, Hu3, Hp2. auto 10.
Qed.

(** X5. [Register] changes the collection of users only when it answers
    201. It then appended one record: the id, the names and the address
    are those of the request, the request passed validation, the
    [Password] field holds the hash bcrypt made of the request's
    password, not the password, and the two instants are the instant
    of creation as the store keeps it, cut to the millisecond. *)
Theorem Register_stores_on_201_only (h : AuthHandler)
    (bound : gin.Bind RegisterRequest) (newID : ObjectID)
    (now now0 now1 : time.Time) :
  (status (snd (Register h bound newID now now0 now1)) <> http.StatusCreated ->
   fst (Register h bound newID now now0 now1) = h)
  /\ (status (snd (Register h bound newID now now0 now1)) = http.StatusCreated ->
      exists req hashedPassword,
        bound = gin.Bound req
        /\ GenerateFromPassword (rr_Password req) DefaultCost
           = Some hashedPassword
        /\ mongo.documents
             (userCollection (fst (Register h bound newID now now0 now1)))
           = mongo.documents (userCollection h)
             ++ [{| User_ID := newID;
                    User_Username := rr_Username req;
                    User_Email := rr_Email req;
                    User_Password := hashedPassword;
                    User_FirstName := rr_FirstName req;
                    User_LastName := rr_LastName req;
                    User_CreatedAt := storedTime now;
                    User_UpdatedAt := storedTime now |}]
        /\ jwtMiddleware (fst (Register h bound newID now now0 now1))
           = jwtMiddleware h
        /\ 3 <= validator.RuneCountInString (rr_Username req) <= 30
        /\ validator.isEmail (rr_Email req) = true
        /\ 6 <= validator.RuneCountInString (rr_Password req)).
Proof.
  destruct (Register_cases h bound newID now now0 now1)
    as [(st & msg & -> & Hst)
       |(req & hashed & token & -> & Hvalid & Hhash & _ & _ & _ & ->)];
    cbn [fst snd status userCollection jwtMiddleware mongo.documents].
  - split; [reflexivity|]. intros ->.
    destruct Hst as [Hst|[Hst|Hst]]; discriminate Hst.
  - split; [intros Hne; now destruct Hne|]. intros _.
    destruct (Register_validated req Hvalid) as (_ & Hu & _ & He & _ & Hp).
    exists req, hashed. auto 10.
Qed.

(** X6. After a successful [Register], [Login] with the address and the
    password of the registration answers 200 with a token for the id
    of the registration and with the user of the registration as the
    store keeps it: the same id, names and address, and the instant of
    creation cut to the millisecond. *)
Theorem Register_then_Login {L : @bcryptlaws.Laws B} (h h' : AuthHandler)
    (req : RegisterRequest) (newID : ObjectID) (now now0 now1 : time.Time)
    (r : AuthResponse) (now2 now3 : time.Time) :
  Register h (gin.Bound req) newID now now0 now1
  = (h', JSON http.StatusCreated (AuthBody r)) ->
  exists token,
    middleware.GenerateToken (jwtMiddleware h') newID 24 now2 now3 = Some token
    /\ Login h' (gin.Bound (built.credentials req)) now2 now3
       = JSON http.StatusOK
           (AuthBody
              (mkAuthResponse token
                 {| UR_ID := UR_ID (ar_User r);
                    UR_Username := UR_Username (ar_User r);
                    UR_Email := UR_Email (ar_User r);
                    UR_FirstName := UR_FirstName (ar_User r);
                    UR_LastName := UR_LastName (ar_User r);
                    UR_CreatedAt := storedTime (UR_CreatedAt (ar_User r)) |})).
Proof.
  intros Hreg.
  destruct (Register_cases h (gin.Bound req) newID now now0 now1)
    as [(st & msg & Herr & _)
       |(req' & hashed & token & Hbound & Hvalid & Hhash & _ & Hfresh & _ & Hok)].
  { rewrite Herr in Hreg. discriminate. }
  injection Hbound as <-. rewrite Hok in Hreg. injection Hreg as <- <-.
  destruct (GenerateToken_total (jwtMiddleware h) newID 24 now2 now3)
    as [token' Htoken'].
  exists token'. cbn [jwtMiddleware]. split; [exact Htoken'|].
  unfold Login, built.credentials. cbn [lr_Email lr_Password].
  assert (Hlogin : validator.Struct
            [("Email", rr_Email req, [validator.required; validator.email]);
             ("Password", rr_Password req, [validator.required])] = None).
  { destruct (Register_validated req Hvalid) as (_ & _ & He & Hem & Hp & _).
    apply Struct_None. repeat constructor; cbn [fst snd validator.holds]; auto;
      apply negb_true_iff, String.eqb_neq; assumption. }
  rewrite Hlogin. unfold mongo.FindOne.
  cbn [userCollection mongo.reachable mongo.documents jwtMiddleware].
  rewrite (find_first _ (mongo.documents (userCollection h)) []
             (User_stored (built.registered req newID now hashed))).
  - unfold ComparePassword.
    cbn [built.registered User_stored User_Password User_ID].
    rewrite (bcryptlaws.compare_generated _ _ _ Hhash). cbn [negb].
    rewrite Htoken'. reflexivity.
  - intros u Hu. rewrite matches_email. apply String.eqb_neq.
    intros Heq. exact (proj1 (Hfresh u Hu) (eq_sym Heq)).
  - rewrite matches_email. apply String.eqb_refl.
Qed.

(** X7. After a successful [Register], a second valid registration
    with the same address or the same user name is answered 409 and
    stores nothing. *)
Theorem Register_twice_conflicts (h h' : AuthHandler)
    (req req2 : RegisterRequest) (newID newID2 : ObjectID)
    (now now0 now1 now' now0' now1' : time.Time) (r : AuthResponse) :
  Register h (gin.Bound req) newID now now0 now1
  = (h', JSON http.StatusCreated (AuthBody r)) ->
  validator.Struct
    [("Username", rr_Username req2,
      [validator.required; validator.min 3; validator.max 30]);
     ("Email", rr_Email req2, [validator.required; validator.email]);
     ("Password", rr_Password req2,
      [validator.required; validator.min 6])] = None ->
  rr_Email req2 = rr_Email req \/ rr_Username req2 = rr_Username req ->
  exists msg,
    Register h' (gin.Bound req2) newID2 now' now0' now1'
    = (h', JSON http.StatusConflict (H_error msg))
    /\ (rr_Email req2 = rr_Email req ->
        msg = "User with this email already exists").
Proof.
  intros Hreg Hvalid2 Hsame.
  destruct (Register_cases h (gin.Bound req) newID now now0 now1)
    as [(st & msg & Herr & _)
       |(req' & hashed & token & Hbound & _ & _ & _ & _ & _ & Hok)].
  { rewrite Herr in Hreg. discriminate. }
  injection Hbound as <-. rewrite Hok in Hreg. injection Hreg as <- _.
  assert (Hin : User_stored (built.registered req newID now hashed)
                ∈ mongo.documents (userCollection h)
                  ++ [User_stored (built.registered req newID now hashed)]).
  { apply elem_of_app. right. apply list_elem_of_here. }
  unfold Register. rewrite Hvalid2. unfold mongo.FindOne.
  cbn [userCollection mongo.reachable mongo.documents].
  destruct (List.find (mongo.matches (<["email" := _]> ∅)) _) as [u1|] eqn:Hemail;
    cbn [found].
  - eexists. split; [reflexivity|]. reflexivity.
  - assert (Hne : rr_Email req2 <> rr_Email req).
    { intros Heq.
      pose proof (proj1 (find_none_iff _ _) Hemail _ Hin) as Hm.
      rewrite matches_email in Hm.
      cbn [built.registered User_stored User_Email] in Hm.
      rewrite Heq, String.eqb_refl in Hm. discriminate. }
    destruct Hsame as [Heq|Hname]; [contradiction|].
    destruct (find_is_Some
                (mongo.matches (<["username" := bson.StringValue (rr_Username req2)]> ∅))
                _ _ Hin) as [u2 Hfind].
    { rewrite matches_username.
      cbn [built.registered User_stored User_Username].
      rewrite Hname. apply String.eqb_refl. }
    rewrite Hfind. cbn [found]. eexists. split; [reflexivity|].
    intros Heq. contradiction.
Qed.


(** X9. When the server of the store does not answer, [Login] reports
    a valid request as 401 "Invalid email or password", like a wrong
    password, and [Register] runs both its checks for nothing, hashes
    the password and then answers 500, storing nothing. *)
Theorem user_store_outage (h : AuthHandler) (login : LoginRequest)
    (req : RegisterRequest) (newID : ObjectID) (now now0 now1 : time.Time) :
  mongo.reachable (userCollection h) = false ->
  (validator.Struct
     [("Email", lr_Email login, [validator.required; validator.email]);
      ("Password", lr_Password login, [validator.required])] = None ->
   Login h (gin.Bound login) now0 now1
   = JSON http.StatusUnauthorized (H_error "Invalid email or password"))
  /\ (validator.Struct
        [("Username", rr_Username req,
          [validator.required; validator.min 3; validator.max 30]);
         ("Email", rr_Email req, [validator.required; validator.email]);
         ("Password", rr_Password req,
          [validator.required; validator.min 6])] = None ->
      Register h (gin.Bound req) newID now now0 now1
      = (h, JSON http.StatusInternalServerError
              (H_error (match GenerateFromPassword (rr_Password req) DefaultCost with
                        | Some _ => "Failed to create user"
                        | None => "Failed to hash password"
                        end)))).
Proof.
  intros Hdown. split; intros Hvalid.
  - unfold Login. rewrite Hvalid. unfold mongo.FindOne. rewrite Hdown.
    reflexivity.
  - unfold Register. rewrite Hvalid. unfold mongo.FindOne. rewrite Hdown.
    cbn [found]. unfold HashPassword. cbn [User_Password].
    destruct (GenerateFromPassword (rr_Password req) DefaultCost);
      [|reflexivity].
    unfold mongo.InsertOne. rewrite Hdown. reflexivity.
Qed.

End RegistrationProperties.

Section RegistrationExamples.
Import primitive models documents handlers reference scenario.

Lemma Register_then_Login_witness :
  exists h' r token,
    Register registry (gin.Bound bobRequest) bob 600 600 600
    = (h', JSON http.StatusCreated (AuthBody r))
    /\ middleware.GenerateToken (jwtMiddleware h') bob 24 700 700 = Some token
    /\ Login h' (gin.Bound (built.credentials bobRequest)) 700 700
       = JSON http.StatusOK
           (AuthBody
              (mkAuthResponse token
                 {| UR_ID := UR_ID (ar_User r);
                    UR_Username := UR_Username (ar_User r);
                    UR_Email := UR_Email (ar_User r);
                    UR_FirstName := UR_FirstName (ar_User r);
                    UR_LastName := UR_LastName (ar_User r);
                    UR_CreatedAt := storedTime (UR_CreatedAt (ar_User r)) |})).
Proof.
  eexists _, _.
  destruct (@Register_then_Login validation bcrypt encoding reference_bcrypt_laws
              registry _ bobRequest bob 600 600 600 _ 700 700 eq_refl)
    as (token & Htoken & Hlogin).
  exists token. split; [reflexivity|]. split; [exact Htoken|exact Hlogin].
Defined.

Lemma Register_twice_conflicts_witness :
  exists h' msg,
    Register h' (gin.Bound robertRequest)
      robert 800 800 800
    = (h', JSON http.StatusConflict (H_error msg))
    /\ mongo.documents (userCollection h')
       = [aliceUser;
          User_stored (built.registered bobRequest bob 600 "$2a$10$secret2")].
Proof.
  destruct (@Register_twice_conflicts validation bcrypt encoding
              registry _ bobRequest
              robertRequest
              bob robert 600 600 600 800 800 800 _ eq_refl eq_refl
              (or_introl eq_refl))
    as (msg & Hconflict & _).
  eexists _, msg. split; [exact Hconflict|reflexivity].
Defined.


Lemma user_store_outage_witness :
  Login registryDown
    (gin.Bound (mkLoginRequest "a@x.com" "secret1")) 0 0
  = JSON http.StatusUnauthorized (H_error "Invalid email or password").
Proof.
  apply (proj1 (@user_store_outage validation bcrypt encoding
                  registryDown
                  (mkLoginRequest "a@x.com" "secret1") bobRequest bob 0 0 0
                  eq_refl)).
  reflexivity.
Defined.

End RegistrationExamples.

(** ** The tokens the handlers issue *)

Section IssuedTokens.
Import primitive models documents handlers.
Context `{V : validator.Library} `{B : Bcrypt}
        `{Enc : jwt.Encoding middleware.TokenClaims}.
Context {Laws : @jwt.EncodingLaws middleware.TokenClaims Enc}.

(** X10. The token in the body of a successful [Register] or [Login],
    sent back as [Bearer <token>], passes [AuthRequired] of the same
    server with the id of the user in that body, at every instant
    before the second of issue plus 24 hours. *)
Theorem issued_tokens_authenticate (h : AuthHandler) (st : Z)
    (r : AuthResponse) (now0 now1 now : time.Time) :
  length (UR_ID (ar_User r)) = 12%nat ->
  now < jwt.NumericDate_Time (jwt.NewNumericDate now0) + 24 * time.Hour ->
  (forall bound newID now' h',
     Register h bound newID now' now0 now1 = (h', JSON st (AuthBody r)) ->
     middleware.AuthRequired (jwtMiddleware h') ("Bearer " +:+ ar_Token r) now
     = middleware.Next (UR_ID (ar_User r)))
  /\ (forall bound,
        Login h bound now0 now1 = JSON st (AuthBody r) ->
        middleware.AuthRequired (jwtMiddleware h) ("Bearer " +:+ ar_Token r) now
        = middleware.Next (UR_ID (ar_User r))).
Proof.
  intros Hlen Hnow. split.
  - intros bound newID now' h' Hreg.
    assert (Hm : jwtMiddleware h' = jwtMiddleware h).
    { destruct (Register_cases h bound newID now' now0 now1)
        as [(st' & msg & Herr & _)
           |(req & hashed & token & _ & _ & _ & _ & _ & _ & Hok)].
      - rewrite Herr in Hreg. discriminate.
      - rewrite Hok in Hreg. injection Hreg as <- _ _. reflexivity. }
    destruct (Register_success h h' bound newID now' now0 now1 st r Hreg)
      as (req & hashed & _ & _ & Hrest). cbn zeta in Hrest.
    destruct Hrest as (_ & Huser & Htoken).
    rewrite Huser in Hlen |- *. cbn [ToResponse UR_ID User_ID] in Hlen |- *.
    rewrite Hm.
    rewrite (AuthRequired_generated _ newID 24 now0 now1 now (ar_Token r)
               Hlen ltac:(lia) Htoken).
    destruct (Z.ltb_spec now
                (jwt.NumericDate_Time (jwt.NewNumericDate now0) + 24 * time.Hour));
      [reflexivity|lia].
  - intros bound Hlogin.
    destruct (Login_success h bound now0 now1 st r Hlogin)
      as (user & _ & Huser & Htoken & _).
    rewrite Huser in Hlen |- *. cbn [ToResponse UR_ID] in Hlen |- *.
    rewrite (AuthRequired_generated _ (User_ID user) 24 now0 now1 now (ar_Token r)
               Hlen ltac:(lia) Htoken).
    destruct (Z.ltb_spec now
                (jwt.NumericDate_Time (jwt.NewNumericDate now0) + 24 * time.Hour));
      [reflexivity|lia].
Qed.

(** X11. A token that [GenerateToken] makes for zero hours or for a
    negative number of hours is refused from the instant of its making
    on. *)
Theorem GenerateToken_without_hours_is_expired (m : middleware.JwtMiddleware)
    (userID : ObjectID) (expiryHours : Z) (now0 now1 now : time.Time) :
  - 2562047 <= expiryHours <= 0 ->
  now0 <= now ->
  exists tokenString,
    middleware.GenerateToken m userID expiryHours now0 now1 = Some tokenString
    /\ middleware.AuthRequired m ("Bearer " +:+ tokenString) now
       = middleware.Abort http.StatusUnauthorized "Invalid or expired token".
Proof.
  intros Hh Hnow.
  destruct (GenerateToken_signs m userID expiryHours now0 now1)
    as (claims & Huid & Hexp & Hnbf & Hiat & Hgen).
  eexists. split; [exact Hgen|].
  pose proof (AuthRequired_HMAC_signed m jwt.SHA256 claims now) as Hauth.
  change (jwt.Alg (jwt.SigningMethodHMAC jwt.SHA256)) with "HS256" in Hauth.
  rewrite Hauth. unfold jwt.Validate. rewrite Hexp.
  rewrite (wrap64_small expiryHours) by lia.
  rewrite wrap64_small by (unfold time.Hour, time.Second; lia).
  rewrite NewNumericDate_add_hours. unfold time.Before.
  assert (Hfloor : jwt.NumericDate_Time (jwt.NewNumericDate now0) <= now0).
  { unfold jwt.NumericDate_Time, jwt.NewNumericDate, time.Second.
    pose proof (Z.mul_div_le now0 1000000000 ltac:(lia)). lia. }
  destruct (Z.ltb_spec now
              (jwt.NumericDate_Time (jwt.NewNumericDate now0)
               + expiryHours * time.Hour)) as [Hlt|]; [|reflexivity].
  unfold time.Hour, time.Second in Hlt. lia.
Qed.

End IssuedTokens.

Section IssuedTokensExamples.
Import primitive models documents handlers reference.

Lemma issued_tokens_authenticate_witness :
  exists token,
    Login registry (gin.Bound (mkLoginRequest "a@x.com" "secret1")) 0 0
    = JSON http.StatusOK (AuthBody (mkAuthResponse token (ToResponse aliceUser)))
    /\ middleware.AuthRequired server ("Bearer " +:+ token) 86399999999999
       = middleware.Next alice.
Proof.
  eexists. split; [reflexivity|].
  refine (proj2 (@issued_tokens_authenticate validation bcrypt encoding
                   reference_encoding_laws registry http.StatusOK
                   (mkAuthResponse _ (ToResponse aliceUser)) 0 0 86399999999999
                   eq_refl eq_refl)
            (gin.Bound (mkLoginRequest "a@x.com" "secret1")) eq_refl).
Defined.

Lemma GenerateToken_without_hours_is_expired_witness :
  exists tokenString,
    middleware.GenerateToken server alice 0 5 5 = Some tokenString
    /\ middleware.AuthRequired server ("Bearer " +:+ tokenString) 5
       = middleware.Abort http.StatusUnauthorized "Invalid or expired token".
Proof.
  apply (@GenerateToken_without_hours_is_expired encoding reference_encoding_laws
           server alice 0 5 5 5); lia.
Defined.

End IssuedTokensExamples.

(** ** The life of a goal *)

Section GoalLifecycle.
Import primitive models documents handlers.
Context `{V : validator.Library}.

Lemma deleteFirst_first (filter : bson.M) (l1 l2 : list Goal) (g : Goal) :
  (forall y, y ∈ l1 -> mongo.matches filter y = false) ->
  mongo.matches filter g = true ->
  mongo.deleteFirst filter (l1 ++ g :: l2) = l1 ++ l2.
Proof.
  intros Hl1 Hg. induction l1 as [|a l1 IH]; simpl.
  - rewrite Hg. reflexivity.
  - rewrite (Hl1 a) by apply list_elem_of_here. f_equal.
    apply IH. intros y Hy. apply Hl1. now apply list_elem_of_further.
Qed.

Lemma updateFirst_Forall (P : Goal -> Prop) (filter update : bson.M)
    (l : list Goal) :
  (forall g, P g -> P (Goal_set update g)) ->
  Forall P l -> Forall P (mongo.updateFirst filter update l).
Proof.
  intros Hset Hall. induction Hall as [|a l Ha Hl IH]; simpl; [constructor|].
  destruct (mongo.matches filter a); constructor; auto.
Qed.

(** [validate.Struct] on the request of [CreateGoal]. *)
Lemma Struct_Title (title : string) :
  validator.Struct [("Title", title, [validator.required])] = None
  <-> title <> "".
Proof.
  rewrite Struct_None. cbn. split.
  - intros Hall. inversion Hall as [|? ? Hf _]; subst.
    inversion Hf as [|? ? Ht _]; subst. cbn in Ht.
    now apply negb_true_iff, String.eqb_neq in Ht.
  - intros Hne. repeat constructor. cbn.
    now apply negb_true_iff, String.eqb_neq.
Qed.

(** The outcomes of [CreateGoal], with what each one tells. *)
Lemma CreateGoal_cases (h : GoalHandler) (c : gin.Context)
    (bound : gin.Bind CreateGoalRequest) (newID : ObjectID) (now : time.Time) :
  (exists st msg,
     CreateGoal h c bound newID now = (h, JSON st (H_error msg))
     /\ (st = http.StatusBadRequest \/ st = http.StatusUnauthorized
         \/ st = http.StatusInternalServerError))
  \/ (exists userID req,
        gin.userId c = Some userID /\ bound = gin.Bound req
        /\ cg_Title req <> ""
        /\ mongo.reachable (goalCollection h) = true
        /\ (newID ∉ ID <$> mongo.documents (goalCollection h))
        /\ CreateGoal h c bound newID now
           = (mkGoalHandler
                (mongo.mkCollection
                   (mongo.documents (goalCollection h)
                    ++ [Goal_stored (built.created req newID userID now)])
                   true),
              JSON http.StatusCreated
                (GoalBody (built.created req newID userID now)))).
Proof.
  unfold CreateGoal. destruct bound as [msg|req]; [left; eauto 10|].
  destruct (validator.Struct _) as [msg|] eqn:Hvalid; [left; eauto 10|].
  destruct (gin.userId c) as [userID|]; [|left; eauto 10].
  unfold mongo.InsertOne.
  destruct (mongo.reachable (goalCollection h)) eqn:Hup; [|left; eauto 10].
  cbn [mongo.field Goal_document Goal_field lookupField List.find fst snd
       String.eqb Ascii.eqb Bool.eqb].
  destruct (existsb _ _) eqn:Hex; [left; eauto 10|].
  right. exists userID, req. apply Struct_Title in Hvalid.
  apply existsb_id_false in Hex. repeat split; auto.
Qed.

(** X12. A goal that [CreateGoal] answered with 201 is what [GetGoal]
    then returns for the hexadecimal form of its id, and it is among
    what [ListGoals] then returns, for the same identity, as the store
    keeps it: with the same id, owner, title, description, completion
    and progress, without subtasks, and with its instants cut to the
    millisecond. *)
Theorem CreateGoal_then_GetGoal (h h' : GoalHandler) (c : gin.Context)
    (bound : gin.Bind CreateGoalRequest) (newID : ObjectID) (now : time.Time)
    (g : Goal) :
  length newID = 12%nat ->
  CreateGoal h c bound newID now = (h', JSON http.StatusCreated (GoalBody g)) ->
  GetGoal h' (gin.mkContext (Hex newID) (gin.userId c))
  = JSON http.StatusOK
      (GoalBody
         {| ID := ID g;
            UserID := UserID g;
            Title := Title g;
            Description := Description g;
            SubTasks := [];
            StartDate := storedTime (StartDate g);
            EndDate := storedTime <$> EndDate g;
            Completed := Completed g;
            Progress := Progress g;
            CreatedAt := storedTime (CreatedAt g);
            UpdatedAt := storedTime (UpdatedAt g) |})
  /\ exists gs,
       ListGoals h' c = JSON http.StatusOK (GoalsBody gs)
       /\ {| ID := ID g;
             UserID := UserID g;
             Title := Title g;
             Description := Description g;
             SubTasks := [];
             StartDate := storedTime (StartDate g);
             EndDate := storedTime <$> EndDate g;
             Completed := Completed g;
             Progress := Progress g;
             CreatedAt := storedTime (CreatedAt g);
             UpdatedAt := storedTime (UpdatedAt g) |} ∈ gs.
Proof.
  intros Hlen Hcreate.
  destruct (CreateGoal_cases h c bound newID now)
    as [(st & msg & Herr & _)
       |(userID & req & Hctx & _ & _ & _ & Hfresh & Hok)].
  { rewrite Herr in Hcreate. discriminate. }
  rewrite Hok in Hcreate. injection Hcreate as <- <-. split.
  - unfold GetGoal. cbn [gin.Param_id gin.userId].
    rewrite (ObjectIDFromHex_Hex newID Hlen), Hctx.
    unfold mongo.FindOne. cbn [goalCollection mongo.reachable mongo.documents].
    rewrite (find_first _ (mongo.documents (goalCollection h)) []
               (Goal_stored (built.created req newID userID now)));
      [reflexivity| |].
    + intros y Hy. rewrite matches_ownedGoal. apply bool_decide_eq_false.
      intros [Hid _]. apply Hfresh. apply list_elem_of_fmap. eauto.
    + rewrite matches_ownedGoal. now apply bool_decide_eq_true.
  - unfold ListGoals, mongo.Find. rewrite Hctx.
    cbn [goalCollection mongo.reachable mongo.documents].
    eexists. split; [reflexivity|].
    rewrite merge_sort_Permutation.
    apply list_elem_of_In, filter_In. split.
    + apply in_or_app. right. now left.
    + rewrite matches_owner. now apply bool_decide_eq_true.
Qed.

(** X13. With distinct ids in the store, a [DeleteGoal] answered with
    200 removed one goal, that of the id in the path, owned by the
    caller, and left the other goals in their order; the same request
    again, and [GetGoal] for that id, are answered 404. *)
Theorem DeleteGoal_removes_the_goal (h h' : GoalHandler) (c : gin.Context)
    (b : Body) :
  NoDup (ID <$> mongo.documents (goalCollection h)) ->
  DeleteGoal h c = (h', JSON http.StatusOK b) ->
  exists g l1 l2,
    ObjectIDFromHex (gin.Param_id c) = Some (ID g)
    /\ gin.userId c = Some (UserID g)
    /\ mongo.documents (goalCollection h) = l1 ++ g :: l2
    /\ mongo.documents (goalCollection h') = l1 ++ l2
    /\ (ID g ∉ ID <$> mongo.documents (goalCollection h'))
    /\ GetGoal h' c = JSON http.StatusNotFound (H_error "Goal not found")
    /\ DeleteGoal h' c
       = (h', JSON http.StatusNotFound (H_error "Goal not found")).
Proof.
  intros Hnd. unfold DeleteGoal at 1.
  destruct (ObjectIDFromHex (gin.Param_id c)) as [goalID|] eqn:Hid;
    [|discriminate].
  destruct (gin.userId c) as [userID|] eqn:Hctx; [|discriminate].
  unfold mongo.DeleteOne.
  destruct (mongo.reachable (goalCollection h)) eqn:Hup; [|discriminate].
  destruct (List.find _ _) as [g|] eqn:Hfind; [|discriminate].
  cbn [Z.eqb]. intros Heq. injection Heq as <- _.
  destruct (find_split _ _ _ Hfind) as (l1 & l2 & Hdocs & Hg & Hl1).
  rewrite Hdocs, (deleteFirst_first _ l1 l2 g Hl1 Hg).
  rewrite matches_ownedGoal in Hg. apply bool_decide_eq_true in Hg as [<- <-].
  assert (Hgone : ID g ∉ ID <$> (l1 ++ l2)).
  { rewrite Hdocs, fmap_app, fmap_cons in Hnd.
    apply NoDup_app in Hnd as (_ & Hdisj & Hnd2).
    apply NoDup_cons in Hnd2 as [Hnot2 _].
    rewrite fmap_app. intros Hin. apply elem_of_app in Hin as [Hin|Hin].
    - apply (Hdisj _ Hin). apply list_elem_of_here.
    - exact (Hnot2 Hin). }
  exists g, l1, l2. cbn [goalCollection mongo.documents].
  split; [reflexivity|]. split; [reflexivity|]. split; [reflexivity|].
  split; [reflexivity|]. split; [exact Hgone|].
  destruct (by_id_not_found
              (mkGoalHandler (mongo.mkCollection (l1 ++ l2) true)) c
              (ID g) (UserID g) eq_refl Hid Hctx) as (Hget & _ & Hdel).
  - apply find_absent. intros d Hd Heq. apply Hgone.
    apply list_elem_of_fmap. eauto.
  - split; [exact Hget|exact Hdel].
Qed.

#[local] Instance descending_createdAt_total :
  Total (@mongo.descending Goal _ "createdAt").
Proof. intros a b. unfold mongo.descending. lia. Qed.

#[local] Instance descending_createdAt_transitive :
  Transitive (@mongo.descending Goal _ "createdAt").
Proof. intros a b d. unfold mongo.descending. lia. Qed.

(** X14. [ListGoals] returns the stored goals of the caller, all of
    them and no other, each as often as it is stored, the newest
    first. *)
Theorem ListGoals_own_goals_newest_first (h : GoalHandler) (c : gin.Context)
    (userID : ObjectID) :
  gin.userId c = Some userID ->
  mongo.reachable (goalCollection h) = true ->
  exists gs,
    ListGoals h c = JSON http.StatusOK (GoalsBody gs)
    /\ gs ≡ₚ List.filter (fun g => bool_decide (UserID g = userID))
               (mongo.documents (goalCollection h))
    /\ StronglySorted (fun a b => CreatedAt b <= CreatedAt a) gs.
Proof.
  intros Hctx Hup. unfold ListGoals, mongo.Find. rewrite Hctx, Hup.
  eexists. split; [reflexivity|]. split.
  - rewrite merge_sort_Permutation.
    rewrite (List.filter_ext _ _ (matches_owner userID)). reflexivity.
  - exact (StronglySorted_merge_sort (@mongo.descending Goal _ "createdAt") _).
Qed.

(** X15. The order of the checks. An id in the path that is not 24
    characters long is answered 400 whatever the identity, the body
    and the store; with a good id, a context without identity is
    answered 401 whatever the body and the store; [CreateGoal] looks at
    the body before it looks for the identity. None of these requests
    changes the store. *)
Theorem goal_handlers_check_in_order (h : GoalHandler) (c : gin.Context) :
  (String.length (gin.Param_id c) <> 24%nat ->
   GetGoal h c = JSON http.StatusBadRequest (H_error "Invalid goal ID")
   /\ (forall bound now,
         UpdateGoal h c bound now
         = (h, JSON http.StatusBadRequest (H_error "Invalid goal ID")))
   /\ DeleteGoal h c
      = (h, JSON http.StatusBadRequest (H_error "Invalid goal ID")))
  /\ (gin.userId c = None ->
      ListGoals h c
      = JSON http.StatusUnauthorized (H_error "User ID not found in context")
      /\ (forall goalID,
            ObjectIDFromHex (gin.Param_id c) = Some goalID ->
            GetGoal h c
            = JSON http.StatusUnauthorized
                (H_error "User ID not found in context")
            /\ (forall bound now,
                  UpdateGoal h c bound now
                  = (h, JSON http.StatusUnauthorized
                          (H_error "User ID not found in context")))
            /\ DeleteGoal h c
               = (h, JSON http.StatusUnauthorized
                       (H_error "User ID not found in context")))
      /\ (forall req newID now,
            cg_Title req <> "" ->
            CreateGoal h c (gin.Bound req) newID now
            = (h, JSON http.StatusUnauthorized
                    (H_error "User ID not found in context"))))
  /\ (forall req newID now,
        cg_Title req = "" ->
        exists msg,
          CreateGoal h c (gin.Bound req) newID now
          = (h, JSON http.StatusBadRequest (H_error msg))).
Proof.
  split; [|split].
  - intros Hlen. unfold GetGoal, UpdateGoal, DeleteGoal, ObjectIDFromHex.
    apply Nat.eqb_neq in Hlen. rewrite Hlen. auto.
  - intros Hctx. unfold ListGoals. rewrite Hctx. split; [reflexivity|]. split.
    + intros goalID Hid. unfold GetGoal, UpdateGoal, DeleteGoal.
      rewrite Hid, Hctx. auto.
    + intros req newID now Htitle. unfold CreateGoal.
      rewrite (proj2 (Struct_Title _) Htitle), Hctx. reflexivity.
  - intros req newID now Htitle. unfold CreateGoal.
    destruct (validator.Struct _) as [msg|] eqn:Hvalid; [eauto|].
    apply Struct_Title in Hvalid. contradiction.
Qed.

(** X16. While the server of the store does not answer, each goal
    handler answers a request it would otherwise serve with 500, and
    the store is as before. *)
Theorem goal_store_outage (h : GoalHandler) (c : gin.Context)
    (goalID userID : ObjectID) :
  mongo.reachable (goalCollection h) = false ->
  gin.userId c = Some userID ->
  ObjectIDFromHex (gin.Param_id c) = Some goalID ->
  (forall req newID now,
     cg_Title req <> "" ->
     CreateGoal h c (gin.Bound req) newID now
     = (h, JSON http.StatusInternalServerError (H_error "Failed to create goal")))
  /\ ListGoals h c
     = JSON http.StatusInternalServerError (H_error "Failed to list goals")
  /\ GetGoal h c
     = JSON http.StatusInternalServerError (H_error "Failed to get goal")
  /\ (forall req now,
        UpdateGoal h c (gin.Bound req) now
        = (h, JSON http.StatusInternalServerError
                (H_error "Failed to update goal")))
  /\ DeleteGoal h c
     = (h, JSON http.StatusInternalServerError (H_error "Failed to delete goal")).
Proof.
  intros Hdown Hctx Hid.
  unfold CreateGoal, ListGoals, GetGoal, UpdateGoal, DeleteGoal.
  unfold mongo.InsertOne, mongo.Find, mongo.FindOne, mongo.UpdateOne,
    mongo.DeleteOne.
  rewrite Hdown, Hctx, Hid. repeat split; auto.
  intros req newID now Htitle. rewrite (proj2 (Struct_Title _) Htitle).
  reflexivity.
Qed.

(** A property of goals that the goal [CreateGoal] builds has and that
    the update of [UpdateGoal] keeps is kept by the store through the
    three handlers that write. *)
Lemma handlers_preserve (P : Goal -> Prop) (h : GoalHandler) (c : gin.Context) :
  (forall req newID userID now,
     cg_Title req <> "" ->
     P (Goal_stored (built.created req newID userID now))) ->
  (forall req now g, P g -> P (Goal_set (updateDocument req now) g)) ->
  Forall P (mongo.documents (goalCollection h)) ->
  (forall bound newID now,
     Forall P (mongo.documents
                 (goalCollection (fst (CreateGoal h c bound newID now)))))
  /\ (forall bound now,
        Forall P (mongo.documents
                    (goalCollection (fst (UpdateGoal h c bound now)))))
  /\ Forall P (mongo.documents (goalCollection (fst (DeleteGoal h c)))).
Proof.
  intros Hnew Hset Hall. split; [|split].
  - intros bound newID now.
    destruct (CreateGoal_cases h c bound newID now)
      as [(st & msg & -> & _)
         |(userID & req & _ & _ & Htitle & _ & _ & ->)];
      cbn [fst goalCollection mongo.documents]; [exact Hall|].
    apply Forall_app. split; [exact Hall|]. repeat constructor. auto.
  - intros bound now. unfold UpdateGoal.
    destruct (ObjectIDFromHex (gin.Param_id c)) as [goalID|]; [|exact Hall].
    destruct (gin.userId c) as [userID|]; [|exact Hall].
    destruct bound as [msg|req]; [exact Hall|].
    unfold mongo.UpdateOne.
    destruct (mongo.reachable (goalCollection h)); [|exact Hall].
    destruct (List.find _ _); [|exact Hall].
    cbn [Z.eqb].
    destruct (mongo.FindOne _ _); cbn [fst goalCollection mongo.documents];
      apply updateFirst_Forall; auto.
  - rewrite Forall_forall in Hall |- *. intros g Hg. apply Hall.
    exact (elem_of_sublist _ _ g Hg (DeleteGoal_sublist h c)).
Qed.

(** X17. No handler stores a subtask or a progress: when no stored
    goal has a subtask and the progress of each is 0, this is still so
    after [CreateGoal], [UpdateGoal] and [DeleteGoal], whatever the
    request. *)
Theorem handlers_never_store_subtasks (h : GoalHandler) (c : gin.Context) :
  Forall (fun g => SubTasks g = [] /\ Progress g = 0%float)
         (mongo.documents (goalCollection h)) ->
  (forall bound newID now,
     Forall (fun g => SubTasks g = [] /\ Progress g = 0%float)
       (mongo.documents (goalCollection (fst (CreateGoal h c bound newID now)))))
  /\ (forall bound now,
        Forall (fun g => SubTasks g = [] /\ Progress g = 0%float)
          (mongo.documents (goalCollection (fst (UpdateGoal h c bound now)))))
  /\ Forall (fun g => SubTasks g = [] /\ Progress g = 0%float)
       (mongo.documents (goalCollection (fst (DeleteGoal h c)))).
Proof.
  apply (handlers_preserve
           (fun g => SubTasks g = [] /\ Progress g = 0%float) h c).
  - intros req newID userID now _. split; reflexivity.
  - intros req now g Hg. rewrite Goal_set_updateDocument. exact Hg.
Qed.

(** X18. A stored title is never empty: [CreateGoal] refuses a body
    without a title and [UpdateGoal] writes a title only when the body
    gives one, so when every stored goal has a title, this is still so
    after [CreateGoal], [UpdateGoal] and [DeleteGoal]. *)
Theorem handlers_keep_titles (h : GoalHandler) (c : gin.Context) :
  Forall (fun g => Title g <> "") (mongo.documents (goalCollection h)) ->
  (forall bound newID now,
     Forall (fun g => Title g <> "")
       (mongo.documents (goalCollection (fst (CreateGoal h c bound newID now)))))
  /\ (forall bound now,
        Forall (fun g => Title g <> "")
          (mongo.documents (goalCollection (fst (UpdateGoal h c bound now)))))
  /\ Forall (fun g => Title g <> "")
       (mongo.documents (goalCollection (fst (DeleteGoal h c)))).
Proof.
  apply (handlers_preserve (fun g => Title g <> "") h c).
  - intros req newID userID now Htitle. exact Htitle.
  - intros req now g Hg. rewrite Goal_set_updateDocument. cbn [Title].
    destruct (String.eqb_spec (ug_Title req) ""); assumption.
Qed.

End GoalLifecycle.

Section GoalLifecycleExamples.
Import primitive models documents handlers reference scenario.

(** [alice] creates a second goal, 2.000000001 seconds after the
    epoch, with a start 2000 nanoseconds after it, and reads it
    back. *)
Lemma CreateGoal_then_GetGoal_witness :
  GetGoal (fst (CreateGoal store asAlice (gin.Bound readManual) goal2
                  2000000001))
    (gin.mkContext (Hex goal2) (Some alice))
  = JSON http.StatusOK
      (GoalBody (mkGoal goal2 alice "Read the manual" "" [] 0 None false
                        0%float 2000000000 2000000000)).
Proof.
  exact (proj1 (@CreateGoal_then_GetGoal validation store _ asAlice
                  (gin.Bound readManual) goal2 2000000001 _ eq_refl eq_refl)).
Defined.

(** [alice] deletes her goal. *)
Lemma DeleteGoal_removes_the_goal_witness :
  exists h',
    DeleteGoal store asAlice
    = (h', JSON http.StatusOK (H_message "Goal deleted successfully"))
    /\ mongo.documents (goalCollection h') = []
    /\ GetGoal h' asAlice = JSON http.StatusNotFound (H_error "Goal not found").
Proof.
  eexists. split; [reflexivity|].
  destruct (@DeleteGoal_removes_the_goal store _ asAlice _
              ltac:(apply NoDup_singleton) eq_refl)
    as (g & l1 & l2 & _ & _ & _ & _ & _ & Hget & _).
  split; [reflexivity|exact Hget].
Defined.

Lemma ListGoals_own_goals_newest_first_witness :
  exists gs,
    ListGoals store asAlice = JSON http.StatusOK (GoalsBody gs)
    /\ gs ≡ₚ [learnGo]
    /\ StronglySorted (fun a b => CreatedAt b <= CreatedAt a) gs.
Proof.
  exact (@ListGoals_own_goals_newest_first store asAlice alice eq_refl eq_refl).
Defined.

Lemma goal_store_outage_witness :
  GetGoal storeDown asAlice
  = JSON http.StatusInternalServerError (H_error "Failed to get goal").
Proof.
  exact (proj1 (proj2 (proj2
           (@goal_store_outage validation storeDown asAlice goal1 alice
              eq_refl eq_refl eq_refl)))).
Defined.

Lemma handlers_never_store_subtasks_witness :
  Forall (fun g => SubTasks g = [] /\ Progress g = 0%float)
    (mongo.documents
       (goalCollection
          (fst (CreateGoal store asAlice (gin.Bound readManual) goal2 2000)))).
Proof.
  apply (proj1 (@handlers_never_store_subtasks validation store asAlice
                  ltac:(repeat constructor))).
Defined.

Lemma handlers_keep_titles_witness :
  Forall (fun g => Title g <> "")
    (mongo.documents
       (goalCollection
          (fst (UpdateGoal store asAlice (gin.Bound complete) 3000)))).
Proof.
  apply (proj1 (proj2 (@handlers_keep_titles validation store asAlice
                         ltac:(repeat constructor; discriminate)))).
Defined.

End GoalLifecycleExamples.

(** ** The configuration *)

Section Configuration.
Import configs.

Lemma Getenv_Load_environ (dotenv : option Environ) (environ : Environ)
    (key value : string) :
  environ !! key = Some value -> Getenv (Load dotenv environ) key = value.
Proof.
  intros Hset. unfold Getenv, Load. destruct dotenv as [file|].
  - rewrite (lookup_union_Some_l _ _ _ _ Hset). reflexivity.
  - rewrite Hset. reflexivity.
Qed.

(** X19. Whatever the environment and the [.env] file, no string of
    the configuration is empty, the tokens last 24 hours and the cost
    of the hash is that of [HashPassword]. *)
Theorem LoadConfig_leaves_nothing_empty (dotenv : option Environ)
    (environ : Environ) :
  MongoURI (LoadConfig dotenv environ) <> ""
  /\ DBName (LoadConfig dotenv environ) <> ""
  /\ JWTSecret (LoadConfig dotenv environ) <> ""
  /\ Port (LoadConfig dotenv environ) <> ""
  /\ TokenExpiryHours (LoadConfig dotenv environ) = 24
  /\ PasswordSaltRound (LoadConfig dotenv environ) = models.DefaultCost.
Proof.
  unfold LoadConfig. cbn [MongoURI DBName JWTSecret Port TokenExpiryHours
                          PasswordSaltRound].
  repeat split;
    match goal with
    | |- (if String.eqb ?s "" then _ else _) <> "" =>
        destruct (String.eqb_spec s ""); [discriminate|assumption]
    end.
Qed.

(** X20. A variable that the environment of the process sets to a
    string that is not empty is the value of the configuration, with
    and without a [.env] file and whatever the file says. *)
Theorem LoadConfig_environment_wins (dotenv : option Environ)
    (environ : Environ) (key value : string) :
  environ !! key = Some value ->
  value <> "" ->
  (key = "MONGO_URI" -> MongoURI (LoadConfig dotenv environ) = value)
  /\ (key = "DB_NAME" -> DBName (LoadConfig dotenv environ) = value)
  /\ (key = "JWT_SECRET" -> JWTSecret (LoadConfig dotenv environ) = value)
  /\ (key = "PORT" -> Port (LoadConfig dotenv environ) = value).
Proof.
  intros Hset Hne. apply String.eqb_neq in Hne.
  unfold LoadConfig. cbn [MongoURI DBName JWTSecret Port].
  repeat split; intros ->;
    rewrite (Getenv_Load_environ dotenv environ _ value Hset), Hne; reflexivity.
Qed.

(** X21. A variable that the environment does not set takes the value
    of the [.env] file when the file gives one that is not empty, and
    the default of the source when there is no file; a variable that
    the environment sets to the empty string takes the default,
    whatever the file says. *)
Theorem LoadConfig_secret_sources (dotenv : option Environ)
    (environ : Environ) :
  (forall file value,
     dotenv = Some file -> environ !! "JWT_SECRET" = None ->
     file !! "JWT_SECRET" = Some value -> value <> "" ->
     JWTSecret (LoadConfig dotenv environ) = value)
  /\ (dotenv = None -> environ !! "JWT_SECRET" = None ->
      JWTSecret (LoadConfig dotenv environ)
      = "your-default-secret-key-change-in-production")
  /\ (environ !! "JWT_SECRET" = Some "" ->
      JWTSecret (LoadConfig dotenv environ)
      = "your-default-secret-key-change-in-production").
Proof.
  unfold LoadConfig. cbn [JWTSecret]. split; [|split].
  - intros file value -> Hunset Hfile Hne. unfold Getenv, Load.
    rewrite (lookup_union_r _ _ _ Hunset), Hfile. cbn.
    apply String.eqb_neq in Hne. rewrite Hne. reflexivity.
  - intros -> Hunset. unfold Getenv, Load. rewrite Hunset. reflexivity.
  - intros Hempty.
    rewrite (Getenv_Load_environ dotenv environ _ _ Hempty). reflexivity.
Qed.

End Configuration.

Section DefaultSecret.
Import primitive configs.
Context `{Enc : jwt.Encoding middleware.TokenClaims}.
Context {Laws : @jwt.EncodingLaws middleware.TokenClaims Enc}.

(** X22. When neither the environment nor the [.env] file gives a
    secret, the middleware [main] builds passes on, with the identity
    it names, every token that is signed with the default secret of
    the source and has not expired. *)
Theorem default_secret_signs_for_anyone (dotenv : option Environ)
    (environ : Environ) (userID : ObjectID) (h : jwt.Hash)
    (claims : middleware.TokenClaims) (now : time.Time) :
  Getenv (Load dotenv environ) "JWT_SECRET" = "" ->
  length userID = 12%nat ->
  middleware.UserID claims = Hex userID ->
  jwt.Validate (middleware.Registered claims) now = None ->
  middleware.AuthRequired (main.jwtMiddleware (LoadConfig dotenv environ))
    ("Bearer " +:+
     jwt.compact (jwt.signingString (jwt.Alg (jwt.SigningMethodHMAC h)) claims)
       (jwt.hmacSum h "your-default-secret-key-change-in-production"
          (jwt.signingString (jwt.Alg (jwt.SigningMethodHMAC h)) claims))) now
  = middleware.Next userID.
Proof.
  intros Hunset Hlen Huid Hvalid.
  assert (Hsecret : middleware.jwtSecret
                      (main.jwtMiddleware (LoadConfig dotenv environ))
                    = "your-default-secret-key-change-in-production").
  { unfold main.jwtMiddleware, middleware.NewJwtMiddleware, LoadConfig.
    cbn [JWTSecret middleware.jwtSecret]. rewrite Hunset. reflexivity. }
  pose proof (AuthRequired_HMAC_signed
                (main.jwtMiddleware (LoadConfig dotenv environ)) h claims now)
    as Hauth.
  rewrite Hsecret in Hauth. rewrite Hauth, Hvalid, Huid.
  rewrite (ObjectIDFromHex_Hex userID Hlen). reflexivity.
Qed.

End DefaultSecret.

Section ConfigurationExamples.
Import primitive configs reference scenario.

Lemma LoadConfig_environment_wins_witness :
  JWTSecret (LoadConfig (Some dotenv) environ) = "s3cret".
Proof.
  apply (proj1 (proj2 (proj2
           (LoadConfig_environment_wins (Some dotenv) environ
              "JWT_SECRET" "s3cret" eq_refl ltac:(discriminate))))).
  reflexivity.
Defined.

(** The file gives the name of the database, the source the address of
    the server. *)
Example LoadConfig_of_scenario :
  LoadConfig (Some dotenv) environ
  = mkConfig "mongodb://localhost:27017" "tasks" "s3cret" "9090" 24 10.
Proof. vm_compute. reflexivity. Qed.

Lemma default_secret_signs_for_anyone_witness :
  middleware.AuthRequired (main.jwtMiddleware (LoadConfig None ∅))
    ("Bearer " +:+
     jwt.compact (jwt.signingString "HS256" aliceClaims)
       (jwt.hmacSum jwt.SHA256 "your-default-secret-key-change-in-production"
          (jwt.signingString "HS256" aliceClaims))) 6000000000
  = middleware.Next alice.
Proof.
  apply (@default_secret_signs_for_anyone encoding reference_encoding_laws
           None ∅ alice jwt.SHA256 aliceClaims 6000000000);
    reflexivity.
Defined.

End ConfigurationExamples.

(** ** Examples for the invariants of the store and the routes *)

Section StoreExamples.
Import primitive models documents handlers reference scenario.

Lemma handlers_keep_ids_unique_witness :
  NoDup (ID <$> mongo.documents
                  (goalCollection
                     (fst (CreateGoal store asAlice (gin.Bound readManual)
                             goal2 2000)))).
Proof.
  apply (proj1 (@handlers_keep_ids_unique validation store asAlice
                  ltac:(apply NoDup_singleton))).
Defined.

(** [alice] asks for a goal that is not stored. *)
Lemma by_id_operations_absent_goal_witness :
  GetGoal store (gin.mkContext (Hex goal2) (Some alice))
  = JSON http.StatusNotFound (H_error "Goal not found").
Proof.
  apply (proj1 (by_id_operations_absent_goal store
                  (gin.mkContext (Hex goal2) (Some alice)) goal2 alice
                  eq_refl eq_refl eq_refl
                  ltac:(intros d Hd; apply list_elem_of_singleton in Hd;
                        subst d; discriminate))).
Defined.

(** [alice] creates a goal with her token. *)
Lemma goalsGroup_create_owner_witness :
  middleware.AuthRequired server
    ("Bearer " +:+
     jwt.compact (jwt.signingString "HS256" aliceClaims)
       (jwt.hmacSum jwt.SHA256 (middleware.jwtSecret server)
          (jwt.signingString "HS256" aliceClaims))) 6000000000
  = middleware.Next alice.
Proof.
  apply (@goalsGroup_create_owner validation encoding server store
           (fst (CreateGoal store asAlice (gin.Bound readManual) goal2 2000))
           _ 6000000000 (gin.Bound readManual) goal2 2000
           (built.created readManual goal2 alice 2000)).
  vm_compute. reflexivity.
Defined.

(** [bob], with a token of his own, asks for the goal of [alice]. *)
Lemma goalsGroup_owner_isolation_witness :
  exists bobToken,
    middleware.GenerateToken server bob 24 0 0 = Some bobToken
    /\ goalsGroup server store ("Bearer " +:+ bobToken) 1000
         (GET_goal (Hex goal1)) NilObjectID 1000
       = (store, JSON http.StatusNotFound (H_error "Goal not found")).
Proof.
  eexists. split; [reflexivity|].
  apply (@goalsGroup_owner_isolation validation encoding reference_encoding_laws
           server store bob learnGo _ 0 0 1000 1000 NilObjectID
           eq_refl eq_refl eq_refl eq_refl eq_refl
           ltac:(apply NoDup_singleton)
           ltac:(apply list_elem_of_here)
           ltac:(discriminate)).
  left. reflexivity.
Defined.

End StoreExamples.
